(** * Verification of the WakaTime language-classification engine

    Shallow embedding of [process_language_data] from
    [scripts/wakatime_api.py], together with the rule tables it reads.

    Modelling conventions.
    - Durations ([total_seconds], ratios, percents) are Python numbers.  They
      are embedded as canonical rationals [Qc], i.e. arithmetic is exact:
      rounding of binary floating point is not part of the model.
    - Labels are Python [str]; they are embedded as [string] and
      [str.lower] / [str.capitalize] act on the ASCII letters.
    - A Python [dict] keeps its keys in insertion order and assigning to an
      existing key keeps the key's position: it is embedded as an association
      list with unique keys ([dict_set] replaces in place or appends).
    - [x / y] raises [ZeroDivisionError] when [y] is zero: divisions return
      in the [result] monad.  The other exceptions of the function (a raw
      entry without ['name'] or ['total_seconds'], a duration that is not a
      number) are excluded by the type of the input.
    - The [print] calls are diagnostics and are left out. *)

From Stdlib Require Import List String Ascii Bool Arith ZArith QArith Qcanon.
From Stdlib Require Import Lia Permutation Sorted.
Import ListNotations.

Local Open Scope string_scope.
Local Open Scope list_scope.

(* ================================================================== *)
(** ** Python values *)

(** *** Numbers *)

Definition of_Z (z : Z) : Qc := Q2Qc (inject_Z z).

(** [x > 0] *)
Definition gt0 (x : Qc) : bool :=
  match (0 ?= x)%Qc with Lt => true | _ => false end.

(** [x < y], the comparison the sort performs on its keys *)
Definition ltb (x y : Qc) : bool :=
  match (x ?= y)%Qc with Lt => true | _ => false end.

(** *** Exceptions *)

Inductive result (A : Type) : Type :=
| Ok (a : A)
| ZeroDivisionError.

Arguments Ok {A} a.
Arguments ZeroDivisionError {A}.

Definition bind {A B : Type} (r : result A) (k : A -> result B) : result B :=
  match r with
  | Ok a => k a
  | ZeroDivisionError => ZeroDivisionError
  end.

Notation "x <- r ;; k" := (bind r (fun x => k))
  (at level 61, r at next level, right associativity).

(** [for x in l: acc = step(acc, x)] where the body may raise *)
Fixpoint for_each {A S : Type} (step : S -> A -> result S) (l : list A) (acc : S)
  : result S :=
  match l with
  | [] => Ok acc
  | x :: l' => acc' <- step acc x ;; for_each step l' acc'
  end.

(** [x / y] *)
Definition py_div (x y : Qc) : result Qc :=
  if Qc_eq_bool y 0 then ZeroDivisionError else Ok (x / y)%Qc.

(** [sum(l)]: left to right, starting from [0] *)
Definition sum (l : list Qc) : Qc := fold_left Qcplus l 0%Qc.

(** *** Strings *)

Definition lower_ascii (c : ascii) : ascii :=
  let n := nat_of_ascii c in
  if (65 <=? n)%nat && (n <=? 90)%nat then ascii_of_nat (n + 32) else c.

Definition upper_ascii (c : ascii) : ascii :=
  let n := nat_of_ascii c in
  if (97 <=? n)%nat && (n <=? 122)%nat then ascii_of_nat (n - 32) else c.

(** [s.lower()] *)
Fixpoint lower (s : string) : string :=
  match s with
  | EmptyString => EmptyString
  | String c s' => String (lower_ascii c) (lower s')
  end.

(** [s.capitalize()]: first character upper-cased, the rest lower-cased *)
Definition capitalize (s : string) : string :=
  match s with
  | EmptyString => EmptyString
  | String c s' => String (upper_ascii c) (lower s')
  end.

(** *** Sets of labels: [k in S] *)

Definition mem (k : string) (S : list string) : bool :=
  existsb (String.eqb k) S.

(** *** Dictionaries keyed by strings *)

Definition dict (V : Type) : Type := list (string * V).

(** [d.get(k)] *)
Fixpoint dict_get {V : Type} (k : string) (d : dict V) : option V :=
  match d with
  | [] => None
  | (k', v) :: d' => if String.eqb k k' then Some v else dict_get k d'
  end.

(** [k in d] *)
Definition dict_contains {V : Type} (k : string) (d : dict V) : bool :=
  match dict_get k d with Some _ => true | None => false end.

(** [d[k] = v]: an existing key keeps its position, a new key goes last *)
Fixpoint dict_set {V : Type} (k : string) (v : V) (d : dict V) : dict V :=
  match d with
  | [] => [(k, v)]
  | (k', v') :: d' =>
      if String.eqb k k' then (k, v) :: d' else (k', v') :: dict_set k v d'
  end.

(** [d.keys()], [d.values()], in insertion order *)
Definition dict_keys {V : Type} (d : dict V) : list string := map fst d.
Definition dict_values {V : Type} (d : dict V) : list V := map snd d.

(* ================================================================== *)
(** ** Data model *)

(** A raw entry of the statistics endpoint and a bucket of [language_dict]
    are both dictionaries with the fields ['name'] and ['total_seconds']. *)
Record Lang : Type := mkLang {
  name : string;
  total_seconds : Qc
}.

(** An element of the returned list. *)
Record Processed : Type := mkProcessed {
  out_name : string;
  out_total_seconds : Qc;
  percent : Qc
}.

(* ================================================================== *)
(** ** The rule tables *)

Definition MEANINGLESS_LANGUAGES : list string :=
  [ "other"; "others"; "binary"; "textmate"; "text"; "plaintext";
    "json"; "yaml"; "yml"; "xml"; "toml"; "ini"; "conf"; "config";
    "markdown"; "md"; "txt"; "log"; "csv"; "tsv";
    "git commit message"; "git config"; "git rebase";
    "tex"; "latex"; "bibtex"; "xaml"; "gitignore"; "gitignore file";
    "batchfile"; "batch"; "class";
    "git"; "pickle"; "self"; "sourcemap"; "ssh config"; "ssh_config";
    "diff"; "prolog"; "spi"; "postscript"; "asciidoc" ].

Definition CMAKE_LANGUAGES : list string :=
  [ "cmake"; "cmakelist"; "cmakelists"; "makefile"; "make"; "ninja";
    "microsoft visual studio solution"; "msvs" ].

Definition JUPYTER_LANGUAGES : list string :=
  [ "jupyter"; "jupyter notebook"; "ipynb"; "pythonstub"; "python stub" ].

Definition JAVA_RELATED : list string :=
  [ "java properties"; "properties"; "mixin_json_configuration";
    "mixin json configuration"; "idea_module"; "idea module";
    "access transformers" ].

Definition GRADLE_TARGET_LANGUAGES : list string :=
  [ "java"; "kotlin"; "groovy" ].

Definition FRONTEND_LANGUAGES : list string :=
  [ "javascript"; "typescript"; "html"; "css"; "scss"; "sass"; "less";
    "jsx"; "tsx"; "vue"; "vue.js"; "svelte"; "tsconfig"; "tsconfig.json" ].

Definition SHELL_LANGUAGES : list string :=
  [ "bash"; "shell"; "shellscript"; "shell script"; "sh"; "zsh"; "nix";
    "actionscript"; "powershell"; "pwsh"; "docker"; "dockerfile" ].

Definition SHADER_LANGUAGES : list string :=
  [ "glsl"; "hlsl"; "shaderlab"; "f#" ].

(** The literal sets of the chain of conditionals. *)
Definition GRADLE_LABELS : list string := [ "gradle"; "groovy gradle" ].
Definition OBJC_LABELS : list string :=
  [ "objective-c"; "objectivec"; "objective c"; "objc" ].
Definition C_CPP_LABELS : list string := [ "c/c++"; "c/c"; "c++/c" ].

(* ================================================================== *)
(** ** [process_language_data] *)

(** *** First pass: the Gradle distribution *)

(** The first loop: [gradle_target_seconds[name_lower] = seconds]. *)
Definition record_gradle_target (gts : dict Qc) (lang : Lang) : dict Qc :=
  let name_lower := lower (name lang) in
  let seconds := total_seconds lang in
  if mem name_lower GRADLE_TARGET_LANGUAGES
  then dict_set name_lower seconds gts
  else gts.

Definition gradle_target_seconds (raw_languages : list Lang) : dict Qc :=
  fold_left record_gradle_target raw_languages [].

Definition total_gradle_target (raw_languages : list Lang) : Qc :=
  sum (dict_values (gradle_target_seconds raw_languages)).

(** [gradle_distribution], from the recorded durations. *)
Definition gradle_distribution_of (gts : dict Qc) : result (dict Qc) :=
  let total := sum (dict_values gts) in
  if gt0 total then
    for_each
      (fun (gd : dict Qc) (item : string * Qc) =>
         let '(lang, seconds) := item in
         share <- py_div seconds total ;;
         Ok (dict_set lang share gd))
      gts []
  else Ok [("java", 1%Qc)].

Definition gradle_distribution (raw_languages : list Lang) : result (dict Qc) :=
  gradle_distribution_of (gradle_target_seconds raw_languages).

(** *** Second pass: classification *)

(** The local variables the second loop updates. *)
Record State : Type := mkState {
  language_dict : dict Lang;
  cmake_seconds : Qc;
  gradle_seconds : Qc;
  frontend_seconds : Qc;
  jupyter_seconds : Qc;
  java_related_seconds : Qc;
  shell_seconds : Qc;
  shader_seconds : Qc
}.

Definition initial_state : State :=
  mkState [] 0%Qc 0%Qc 0%Qc 0%Qc 0%Qc 0%Qc 0%Qc.

(** [d[k]['total_seconds'] += seconds], on the bucket stored under [k].
    Python raises [KeyError] when [k] is not a key; the function only
    executes the statement after the guard that creates the bucket, which
    [accumulate] reproduces, so the second branch is never taken. *)
Definition add_seconds (k : string) (seconds : Qc) (d : dict Lang) : dict Lang :=
  match dict_get k d with
  | Some b => dict_set k (mkLang (name b) (total_seconds b + seconds)%Qc) d
  | None => d
  end.

(** [if k not in d: d[k] = {'name': display, 'total_seconds': 0}] followed by
    [d[k]['total_seconds'] += seconds]. *)
Definition accumulate (k display : string) (seconds : Qc) (d : dict Lang)
  : dict Lang :=
  let d' := if dict_contains k d then d else dict_set k (mkLang display 0%Qc) d in
  add_seconds k seconds d'.

Definition set_language_dict (d : dict Lang) (st : State) : State :=
  mkState d (cmake_seconds st) (gradle_seconds st) (frontend_seconds st)
    (jupyter_seconds st) (java_related_seconds st) (shell_seconds st)
    (shader_seconds st).

(** The body of the second loop: the first rule that matches wins. *)
Definition classify (st : State) (lang : Lang) : State :=
  let name_lower := lower (name lang) in
  let seconds := total_seconds lang in
  if mem name_lower MEANINGLESS_LANGUAGES then st
  else if mem name_lower CMAKE_LANGUAGES then
    mkState (language_dict st) (cmake_seconds st + seconds)%Qc (gradle_seconds st)
      (frontend_seconds st) (jupyter_seconds st) (java_related_seconds st)
      (shell_seconds st) (shader_seconds st)
  else if mem name_lower JUPYTER_LANGUAGES then
    mkState (language_dict st) (cmake_seconds st) (gradle_seconds st)
      (frontend_seconds st) (jupyter_seconds st + seconds)%Qc
      (java_related_seconds st) (shell_seconds st) (shader_seconds st)
  else if mem name_lower JAVA_RELATED then
    mkState (language_dict st) (cmake_seconds st) (gradle_seconds st)
      (frontend_seconds st) (jupyter_seconds st)
      (java_related_seconds st + seconds)%Qc (shell_seconds st)
      (shader_seconds st)
  else if mem name_lower GRADLE_LABELS then
    mkState (language_dict st) (cmake_seconds st) (gradle_seconds st + seconds)%Qc
      (frontend_seconds st) (jupyter_seconds st) (java_related_seconds st)
      (shell_seconds st) (shader_seconds st)
  else if mem name_lower FRONTEND_LANGUAGES then
    mkState (language_dict st) (cmake_seconds st) (gradle_seconds st)
      (frontend_seconds st + seconds)%Qc (jupyter_seconds st)
      (java_related_seconds st) (shell_seconds st) (shader_seconds st)
  else if mem name_lower SHELL_LANGUAGES then
    mkState (language_dict st) (cmake_seconds st) (gradle_seconds st)
      (frontend_seconds st) (jupyter_seconds st) (java_related_seconds st)
      (shell_seconds st + seconds)%Qc (shader_seconds st)
  else if mem name_lower SHADER_LANGUAGES then
    mkState (language_dict st) (cmake_seconds st) (gradle_seconds st)
      (frontend_seconds st) (jupyter_seconds st) (java_related_seconds st)
      (shell_seconds st) (shader_seconds st + seconds)%Qc
  else if mem name_lower OBJC_LABELS then
    set_language_dict
      (accumulate "objective-c" "Objective-C" seconds (language_dict st)) st
  else if mem name_lower C_CPP_LABELS then
    set_language_dict (accumulate "c" "C" seconds (language_dict st)) st
  else
    set_language_dict
      (accumulate name_lower (name lang) seconds (language_dict st)) st.

Definition second_pass (raw_languages : list Lang) : State :=
  fold_left classify raw_languages initial_state.

(** *** Finalization *)

(** [if acc > 0:] fold [acc] into the bucket [k], created when absent. *)
Definition merge_into (k display : string) (acc : Qc) (d : dict Lang) : dict Lang :=
  if gt0 acc then accumulate k display acc d else d.

(** [if acc > 0: language_dict[k] = {'name': display, 'total_seconds': acc}] *)
Definition add_summary (k display : string) (acc : Qc) (d : dict Lang) : dict Lang :=
  if gt0 acc then dict_set k (mkLang display acc) d else d.

(** [if gradle_seconds > 0:] split it along [gradle_distribution]. *)
Definition distribute_gradle (gradle : Qc) (gd : dict Qc) (d : dict Lang)
  : dict Lang :=
  if gt0 gradle then
    fold_left
      (fun (d : dict Lang) (item : string * Qc) =>
         let '(lang_key, ratio) := item in
         accumulate lang_key (capitalize lang_key) (gradle * ratio)%Qc d)
      gd d
  else d.

(** The working map once the accumulators of [st] are folded in, before the
    Gradle time is distributed. *)
Definition fold_accumulators (st : State) : dict Lang :=
  let d := language_dict st in
  let d := merge_into "c++" "C++" (cmake_seconds st) d in
  let d := merge_into "python" "Python" (jupyter_seconds st) d in
  let d := merge_into "java" "Java" (java_related_seconds st) d in
  let d := add_summary "frontend" "Frontend Langs" (frontend_seconds st) d in
  let d := add_summary "shell" "Shell Langs" (shell_seconds st) d in
  let d := add_summary "shader" "Shader Langs" (shader_seconds st) d in
  d.

Definition finalize (st : State) (gd : dict Qc) : dict Lang :=
  distribute_gradle (gradle_seconds st) gd (fold_accumulators st).

(** *** Totals, percentages and order *)

(** [(seconds / total * 100) if total > 0 else 0] *)
Definition percent_of (seconds total : Qc) : result Qc :=
  if gt0 total then q <- py_div seconds total ;; Ok (q * of_Z 100)%Qc
  else Ok 0%Qc.

(** The loop that builds [processed_languages]. *)
Definition with_percents (total : Qc) (buckets : list Lang)
  : result (list Processed) :=
  for_each
    (fun (acc : list Processed) (lang_data : Lang) =>
       p <- percent_of (total_seconds lang_data) total ;;
       Ok (acc ++ [mkProcessed (name lang_data) (total_seconds lang_data) p]))
    buckets [].

(** [list.sort(key=lambda x: x['total_seconds'], reverse=True)]: the sort is
    stable, also when reversed, so elements with equal keys keep their
    order.  [insert_desc x l] puts [x], which preceded every element of [l],
    in front of the first element whose key is not greater. *)
Fixpoint insert_desc (x : Processed) (l : list Processed) : list Processed :=
  match l with
  | [] => [x]
  | y :: l' =>
      if ltb (out_total_seconds x) (out_total_seconds y)
      then y :: insert_desc x l'
      else x :: l
  end.

Definition sort_desc (l : list Processed) : list Processed :=
  fold_right insert_desc [] l.

(** The local [total_seconds] of step 4: the retained total. *)
Definition retained_total (d : dict Lang) : Qc :=
  sum (map total_seconds (dict_values d)).

Definition process_language_data (raw_languages : list Lang)
  : result (list Processed) :=
  gd <- gradle_distribution raw_languages ;;
  let st := second_pass raw_languages in
  let d := finalize st gd in
  let total := retained_total d in
  processed_languages <- with_percents total (dict_values d) ;;
  Ok (sort_desc processed_languages).

(* ================================================================== *)
(** ** Vocabulary of the statements *)

(** *** The values the function goes through when nothing raises

    These are the pure counterparts of the monadic loops above;
    [process_language_data_ok] below proves that the function returns
    exactly [processed]. *)

(** One item of the distribution: a recorded duration over the sum. *)
Definition share (total : Qc) (item : string * Qc) : string * Qc :=
  (fst item, (snd item / total)%Qc).

(** The Gradle shares, as the loop leaves them when the divisor is not zero. *)
Definition shares_of (gts : dict Qc) (total : Qc) : dict Qc :=
  fold_left
    (fun (gd : dict Qc) (item : string * Qc) =>
       dict_set (fst item) (snd item / total)%Qc gd)
    gts [].

Definition gradle_shares (raw_languages : list Lang) : dict Qc :=
  let gts := gradle_target_seconds raw_languages in
  let total := sum (dict_values gts) in
  if gt0 total then shares_of gts total else [("java", 1%Qc)].

(** The percentage of one bucket, as the guarded expression evaluates. *)
Definition percent_value (seconds total : Qc) : Qc :=
  if gt0 total then (seconds / total * of_Z 100)%Qc else 0%Qc.

Definition to_processed (total : Qc) (b : Lang) : Processed :=
  mkProcessed (name b) (total_seconds b) (percent_value (total_seconds b) total).

(** The bucket map at the end of step 3. *)
Definition final_dict (raw_languages : list Lang) : dict Lang :=
  finalize (second_pass raw_languages) (gradle_shares raw_languages).

(** The returned list. *)
Definition processed (raw_languages : list Lang) : list Processed :=
  let d := final_dict raw_languages in
  sort_desc (map (to_processed (retained_total d)) (dict_values d)).

(** *** Order of the returned list *)

(** [a] may stand in front of [b] in a list sorted by descending duration. *)
Definition desc (a b : Processed) : Prop :=
  (out_total_seconds b <= out_total_seconds a)%Qc.

(** The entries of duration [q]: stability is stated on them. *)
Definition has_duration (q : Qc) (e : Processed) : bool :=
  Qc_eq_bool (out_total_seconds e) q.

(** *** Labels and their occurrences in the input *)

(** The entries that reach the last branch of the chain: their lowercased
    label is in none of the rule sets. *)
Definition is_default_case (name_lower : string) : bool :=
  negb (mem name_lower MEANINGLESS_LANGUAGES)
  && negb (mem name_lower CMAKE_LANGUAGES)
  && negb (mem name_lower JUPYTER_LANGUAGES)
  && negb (mem name_lower JAVA_RELATED)
  && negb (mem name_lower GRADLE_LABELS)
  && negb (mem name_lower FRONTEND_LANGUAGES)
  && negb (mem name_lower SHELL_LANGUAGES)
  && negb (mem name_lower SHADER_LANGUAGES)
  && negb (mem name_lower OBJC_LABELS)
  && negb (mem name_lower C_CPP_LABELS).

(** The keys that finalization writes to. *)
Definition FINALIZATION_KEYS : list string :=
  [ "c++"; "python"; "java"; "frontend"; "shell"; "shader"; "kotlin"; "groovy" ].

(** The entries whose label is [k], case-insensitively. *)
Definition has_label (k : string) (lang : Lang) : bool :=
  String.eqb (lower (name lang)) k.

Definition occurrences (k : string) (raw_languages : list Lang) : list Lang :=
  filter (has_label k) raw_languages.

Definition first_occurrence (k : string) (raw_languages : list Lang)
  : option Lang :=
  find (has_label k) raw_languages.

Definition last_occurrence (k : string) (raw_languages : list Lang)
  : option Lang :=
  find (has_label k) (rev raw_languages).

(** *** Totals *)

Definition input_total (raw_languages : list Lang) : Qc :=
  sum (map total_seconds raw_languages).


(** The lowercased label is not in the discard set. *)
Definition not_discarded (lang : Lang) : Prop :=
  mem (lower (name lang)) MEANINGLESS_LANGUAGES = false.

(** The data model's [total_seconds]: a non-negative number. *)
Definition nonneg (lang : Lang) : Prop := (0 <= total_seconds lang)%Qc.




(** *** Equality of outputs, decided by computation *)

Definition Processed_eqb (a b : Processed) : bool :=
  String.eqb (out_name a) (out_name b)
  && Qc_eq_bool (out_total_seconds a) (out_total_seconds b)
  && Qc_eq_bool (percent a) (percent b).

Fixpoint output_eqb (l l' : list Processed) : bool :=
  match l, l' with
  | [], [] => true
  | a :: l, b :: l' => Processed_eqb a b && output_eqb l l'
  | _, _ => false
  end.

(** *** Inputs of the examples *)

(** Two entries for Java: the share of Java comes from the second one, the
    bucket of Java holds both. *)
Definition java_twice : list Lang :=
  [ mkLang "Java" (of_Z 10); mkLang "kotlin" (of_Z 10);
    mkLang "java" (of_Z 30); mkLang "gradle" (of_Z 8) ].


(** A raw label that spells the key of the frontend summary. *)
Definition frontend_collision : list Lang :=
  [ mkLang "Frontend" (of_Z 10); mkLang "javascript" (of_Z 5) ].

(** A Gradle split, a merge into C++ and two synthetic summaries. *)
Definition conservation_input : list Lang :=
  [ mkLang "Java" (of_Z 300); mkLang "kotlin" (of_Z 100);
    mkLang "Gradle" (of_Z 200); mkLang "CSS" (of_Z 50);
    mkLang "CMake" (of_Z 20); mkLang "GLSL" (of_Z 7) ].


(** *** Case analysis on the chain of conditionals *)

Ltac classify_cases :=
  unfold classify;
  repeat match goal with
         | |- context [if mem ?n ?S then _ else _] =>
             let E := fresh "E" in destruct (mem n S) eqn:E
         end.

(* ================================================================== *)
(** ** Vocabulary of the further properties *)

(** *** Entries by rule *)

(** The lowercased label of [lang] is in the rule set [S]. *)
Definition in_set (S : list string) (lang : Lang) : bool :=
  mem (lower (name lang)) S.

(** The seconds of the entries that the rule set [S] matches. *)
Definition seconds_in (S : list string) (raw_languages : list Lang) : Qc :=
  sum (map total_seconds (filter (in_set S) raw_languages)).

(** The entries that the first rule does not drop. *)
Definition kept (lang : Lang) : bool :=
  negb (in_set MEANINGLESS_LANGUAGES lang).

(** No label of [S] is in [T]. *)
Definition disjoint (S T : list string) : bool :=
  forallb (fun k => negb (mem k T)) S.

(** [a] may stand in front of [b] in a list sorted by descending percent. *)
Definition desc_percent (a b : Processed) : Prop :=
  (percent b <= percent a)%Qc.

(** *** The canonical buckets *)

(** The entries accumulated under the key "c": the joint labels of the
    C/C++ rule and the default-case label "c". *)
Definition goes_to_c (lang : Lang) : bool :=
  in_set C_CPP_LABELS lang || has_label "c" lang.

(** The display name the bucket "c" gets when [lang] creates it. *)
Definition c_display (lang : Lang) : string :=
  if in_set C_CPP_LABELS lang then "C" else name lang.

(** The bucket that the entries [hits] leave under one key: the display name
    comes from the first of them, the seconds from all of them. *)
Definition bucket_of (hits : Lang -> bool) (display : Lang -> string)
           (raw_languages : list Lang) : option Lang :=
  option_map
    (fun first =>
       mkLang (display first)
              (sum (map total_seconds (filter hits raw_languages))))
    (find hits raw_languages).

(** What one step of the second pass does to the bucket of [k], when the
    entries [hits] are those the chain accumulates under [k]. *)
Definition step_on_key (k : string) (hits : Lang -> bool)
           (display : Lang -> string) : Prop :=
  forall (st : State) (x : Lang),
    dict_get k (language_dict (classify st x))
    = if hits x
      then Some (match dict_get k (language_dict st) with
                 | Some b => mkLang (name b) (total_seconds b + total_seconds x)%Qc
                 | None => mkLang (display x) (0 + total_seconds x)%Qc
                 end)
      else dict_get k (language_dict st).

(** *** Buckets that finalization adds to *)

(** The bucket [own] once [extra] seconds are folded into it, when they are
    positive; a bucket displayed [display] is created when there is none. *)
Definition merged_bucket (own : option Lang) (display : string) (extra : Qc)
  : option Lang :=
  if gt0 extra then
    Some (match own with
          | Some b => mkLang (name b) (total_seconds b + extra)%Qc
          | None => mkLang display (0 + extra)%Qc
          end)
  else own.

(** *** What the returned entries look like *)

(** A display name the function can return: the canonical "Objective-C", or
    a name whose lowercase is in none of the rule sets. *)
Definition is_output_name (n : string) : bool :=
  String.eqb n "Objective-C" || is_default_case (lower n).

(** The percent the function gives an entry with these seconds. *)
Definition percent_is (total : Qc) (e : Processed) : Prop :=
  percent e = percent_value (out_total_seconds e) total.

Definition nonneg_bucket (b : Lang) : Prop := (0 <= total_seconds b)%Qc.

(* ================================================================== *)
(** ** The language chart ([scripts/visualize.py]) *)








(* ================================================================== *)
(** ** The contribution calendar ([scripts/visualize.py])

    Dates are embedded as their proleptic Gregorian ordinal
    ([date.toordinal()]), so that [date + timedelta(days=n)] is an addition
    and [(a - b).days] a subtraction.  The list [dates] stands for the column
    [date_only] of the data frame: one date per contribution record. *)

Local Open Scope Z_scope.

(** [date.weekday()] and [Timestamp.dayofweek]: Monday is 0, Sunday is 6. *)
Definition weekday (date : Z) : Z := (date + 6) mod 7.

(** Dictionaries keyed by integers, in insertion order. *)
Definition idict (V : Type) : Type := list (Z * V).

Fixpoint iget {V : Type} (k : Z) (d : idict V) : option V :=
  match d with
  | [] => None
  | (k', v) :: d' => if Z.eqb k k' then Some v else iget k d'
  end.

Fixpoint iset {V : Type} (k : Z) (v : V) (d : idict V) : idict V :=
  match d with
  | [] => [(k, v)]
  | (k', v') :: d' =>
      if Z.eqb k k' then (k, v) :: d' else (k', v') :: iset k v d'
  end.

(** [range(n)] *)
Definition range (n : Z) : list Z := map Z.of_nat (seq 0 (Z.to_nat n)).

(** [end_date + timedelta(days=(6 - end_weekday) if end_weekday != 6 else 0)] *)
Definition end_of_week (end_date : Z) : Z :=
  let end_weekday := weekday end_date in
  end_date + (if negb (end_weekday =? 6)%Z then 6 - end_weekday else 0).

(** [end_of_week - timedelta(days=364)] *)
Definition start_date (end_date : Z) : Z := end_of_week end_date - 364.

(** [pd.date_range(start=start, end=stop, freq='D')] *)
Definition date_range (start stop : Z) : list Z :=
  map (fun i => start + i) (range (stop - start + 1)).

(** The number of contribution records of one day. *)
Definition count_on (date : Z) (dates : list Z) : Z :=
  Z.of_nat (count_occ Z.eq_dec dates date).

(** [all_counts]: the series indexed by the days of the range, holding for
    each day the size of its group in [daily_counts], and 0 without one. *)
Definition all_counts (end_date : Z) (dates : list Z) : list (Z * Z) :=
  map (fun date => (date, count_on date dates))
      (date_range (start_date end_date) end_date).

(** The body of the loop that fills [weeks]. *)
Definition record_day (start end_date : Z) (weeks : idict (idict Z))
           (item : Z * Z) : idict (idict Z) :=
  let '(date, count) := item in
  if (end_date <? date)%Z then weeks
  else
    let week := ((date - start) / 7)%Z in
    let weekday := ((weekday date + 1) mod 7)%Z in
    let weeks :=
      match iget week weeks with
      | Some _ => weeks
      | None => iset week [] weeks
      end in
    match iget week weeks with
    | Some days => iset week (iset weekday count days) weeks
    | None => weeks
    end.

Definition weeks_of (end_date : Z) (dates : list Z) : idict (idict Z) :=
  fold_left (record_day (start_date end_date) end_date)
            (all_counts end_date dates) [].

(** [max(weeks.keys())]; [max] raises [ValueError] on an empty sequence. *)
Definition max_key {V : Type} (d : idict V) : option Z :=
  match map fst d with
  | [] => None
  | k :: ks => Some (fold_left Z.max ks k)
  end.

(** The array [matrix], read as [matrix[day, week]]; [np.zeros] at first. *)
Definition matrix : Type := Z -> Z -> Z.

Definition zeros : matrix := fun _ _ => 0%Z.

(** [matrix[day, week] = count] *)
Definition matrix_set (m : matrix) (day week count : Z) : matrix :=
  fun d w => if (d =? day)%Z && (w =? week)%Z then count else m d w.

Definition fill_matrix (weeks : idict (idict Z)) : matrix :=
  fold_left
    (fun (m : matrix) (item : Z * idict Z) =>
       let '(week, days) := item in
       fold_left
         (fun (m : matrix) (cell : Z * Z) =>
            let '(day, count) := cell in matrix_set m day week count)
         days m)
    weeks zeros.

(** [matrix.max()] over the 7 rows and [num_weeks] columns. *)
Definition matrix_max (m : matrix) (num_weeks : Z) : Z :=
  fold_left Z.max
    (flat_map (fun day => map (fun week => m day week) (range num_weeks))
              (range 7))
    (m 0 0)%Z.

(** The index in [colors] that [get_color] returns for [count]. *)
Definition color_level (max_count count : Z) : nat :=
  if (count =? 0)%Z then 0%nat
  else if negb (ltb (of_Z max_count * Q2Qc (25 # 100)) (of_Z count)) then 1%nat
  else if negb (ltb (of_Z max_count * Q2Qc (5 # 10)) (of_Z count)) then 2%nat
  else if negb (ltb (of_Z max_count * Q2Qc (75 # 100)) (of_Z count)) then 3%nat
  else 4%nat.

Definition HEATMAP_COLORS_DARK : list string :=
  [ "#161b22"; "#0e4429"; "#006d32"; "#26a641"; "#39d353" ].

Definition HEATMAP_COLORS_LIGHT : list string :=
  [ "#ebedf0"; "#9be9a8"; "#40c463"; "#30a14e"; "#216e39" ].

Definition heatmap_colors (theme : string) : list string :=
  if String.eqb theme "dark" then HEATMAP_COLORS_DARK else HEATMAP_COLORS_LIGHT.

Definition get_color (theme : string) (max_count count : Z) : string :=
  nth (color_level max_count count) (heatmap_colors theme) "".

(** A square of the calendar: [plt.Rectangle((week, 6-day), 1, 1,
    facecolor=color, ...)]. *)
Record Square : Type := mkSquare {
  square_x : Z;
  square_y : Z;
  facecolor : string
}.

(** The loop that draws the squares, run when [max_count > 0]. *)
Definition draw_squares (theme : string) (start end_date num_weeks : Z)
           (m : matrix) (max_count : Z) : list Square :=
  flat_map
    (fun week =>
       flat_map
         (fun day =>
            let days_offset := (week * 7 + day)%Z in
            let current_date := (start + days_offset)%Z in
            if (end_date <? current_date)%Z then []
            else
              let count := m day week in
              [ mkSquare week (6 - day) (get_color theme max_count count) ])
         (range 7))
    (range num_weeks).

(** What [create_contributions_heatmap] draws. *)
Record Heatmap : Type := mkHeatmap {
  num_weeks : Z;
  max_count : Z;
  total_contributions : Z;
  squares : list Square
}.

Inductive heatmap_result : Type :=
| Skipped
| Drawn (h : Heatmap)
| ValueError.

(** [create_contributions_heatmap], up to the drawing calls: [end_date] is
    today's date, read from the clock. *)
Definition create_contributions_heatmap (end_date : Z) (dates : list Z)
           (theme : string) : heatmap_result :=
  match dates with
  | [] => Skipped
  | _ :: _ =>
      let start := start_date end_date in
      let counts := all_counts end_date dates in
      let weeks := weeks_of end_date dates in
      match max_key weeks with
      | None => ValueError
      | Some k =>
          let num_weeks := (k + 1)%Z in
          let m := fill_matrix weeks in
          let max_count := matrix_max m num_weeks in
          let squares :=
            if (0 <? max_count)%Z
            then draw_squares theme start end_date num_weeks m max_count
            else [] in
          let total := fold_left Z.add (map snd counts) 0%Z in
          Drawn (mkHeatmap num_weeks max_count total squares)
      end
  end.

Local Close Scope Z_scope.

(** [weeks[week][day]], when both keys exist. *)
Definition lookup2 (week day : Z) (weeks : idict (idict Z)) : option Z :=
  match iget week weeks with
  | Some days => iget day days
  | None => None
  end.

(** The square of one day: its column is its week, counted from the first
    day of the calendar, and its row its day in that week. *)
Definition square_of (theme : string) (start max_count : Z) (dates : list Z)
           (date : Z) : Square :=
  mkSquare ((date - start) / 7)%Z (6 - (date - start) mod 7)%Z
           (get_color theme max_count (count_on date dates)).

Local Open Scope Z_scope.

(** Keys are unique in [weeks] and in each of its values. *)
Definition unique_keys (weeks : idict (idict Z)) : Prop :=
  NoDup (map fst weeks)
  /\ Forall (fun days : idict Z => NoDup (map fst days)) (map snd weeks).

(** One item per day, with the count of that day. *)
Definition day_items (start end_date : Z) (dates : list Z)
           (items : list (Z * Z)) : Prop :=
  Forall (fun item => start <= fst item <= end_date
                      /\ snd item = count_on (fst item) dates) items.

(** The item is the one of day [dd] of week [w]. *)
Definition in_cell (start w dd : Z) (item : Z * Z) : bool :=
  ((fst item - start) / 7 =? w) && ((fst item - start) mod 7 =? dd).

Local Close Scope Z_scope.

(* ================================================================== *)
(** ** Contribution records ([scripts/gitea_api.py], [scripts/github_api.py],
       [scripts/visualize.py], [scripts/main.py]) *)

(** A contribution record: the dictionary with the keys ['date'], ['repo'],
    ['message'] and ['source'] that both fetchers build. *)
Record Contribution : Type := mkContribution {
  date : string;
  repo : string;
  message : string;
  source : string
}.

(** [for _ in range(n): l.append(x)] *)
Definition append_times {A : Type} (n : Z) (x : A) (l : list A) : list A :=
  l ++ repeat x (Z.to_nat n).

(** *** The Gitea heatmap

    The operations of [datetime] and the formatting of numbers are
    parameters: [fromtimestamp] is [datetime.fromtimestamp], [datetime_ge]
    the comparison [>=], [isoformat] the method of that name, [format_date]
    the text of [contribution_date.date()] and [format_int] the text of an
    integer in an f-string. *)

(** An entry of the heatmap API: ['timestamp'] and ['contributions']. *)
Record HeatmapEntry : Type := mkHeatmapEntry {
  timestamp : Z;
  contributions : Z
}.

(** The local variables of the conversion loop. *)
Record GiteaLoop : Type := mkGiteaLoop {
  contributions_list : list Contribution;
  gitea_total_contributions : Z;
  filtered_days : Z
}.

Section GiteaHeatmap.

Variable datetime : Type.
Variable fromtimestamp : Z -> datetime.
Variable datetime_ge : datetime -> datetime -> bool.
Variable isoformat : datetime -> string.
Variable format_date : datetime -> string.
Variable format_int : Z -> string.

(** The record appended for an entry. *)
Definition gitea_record (entry : HeatmapEntry) : Contribution :=
  let contribution_count := contributions entry in
  let contribution_date := fromtimestamp (timestamp entry) in
  mkContribution
    (isoformat contribution_date ++ "Z")
    "Gitea Contributions"
    (format_int contribution_count ++ " contributions on "
       ++ format_date contribution_date)
    "gitea".

(** The body of [for entry in heatmap_data]. *)
Definition gitea_entry (cutoff_date : datetime) (st : GiteaLoop)
           (entry : HeatmapEntry) : GiteaLoop :=
  let contribution_count := contributions entry in
  let contribution_date := fromtimestamp (timestamp entry) in
  if datetime_ge contribution_date cutoff_date then
    mkGiteaLoop
      (append_times contribution_count (gitea_record entry)
         (contributions_list st))
      (gitea_total_contributions st + contribution_count)%Z
      (filtered_days st + 1)%Z
  else st.

(** The conversion of the heatmap in [get_gitea_contributions_async]. *)
Definition gitea_convert (cutoff_date : datetime)
           (heatmap_data : list HeatmapEntry) : GiteaLoop :=
  fold_left (gitea_entry cutoff_date) heatmap_data (mkGiteaLoop [] 0%Z 0%Z).

(** The entries of the time range. *)
Definition in_window (cutoff_date : datetime) (entry : HeatmapEntry) : bool :=
  datetime_ge (fromtimestamp (timestamp entry)) cutoff_date.

End GiteaHeatmap.

(** *** The GitHub contribution calendar *)

(** A day of [contributionDays]: ['date'] and ['contributionCount']. *)
Record ContributionDay : Type := mkContributionDay {
  day_date : string;
  contributionCount : Z
}.

(** The two nested loops over [calendar_data['weeks']] in
    [get_github_contributions_graphql]; a week is its [contributionDays]. *)
Definition github_record (format_int : Z -> string) (day : ContributionDay)
  : Contribution :=
  let contribution_count := contributionCount day in
  let date := day_date day in
  mkContribution
    (date ++ "T12:00:00Z")
    "GitHub Contributions"
    (format_int contribution_count ++ " contributions on " ++ date)
    "github".

Definition github_day (format_int : Z -> string) (acc : list Contribution)
           (day : ContributionDay) : list Contribution :=
  append_times (contributionCount day) (github_record format_int day) acc.

Definition github_convert (format_int : Z -> string)
           (weeks : list (list ContributionDay)) : list Contribution :=
  fold_left (fun acc week => fold_left (github_day format_int) week acc)
            weeks [].

(** *** The summary card *)

(** [d.get(k, 0)] *)
Definition get_or_zero (k : string) (d : dict Z) : Z :=
  match dict_get k d with Some v => v | None => 0%Z end.

(** [len([c for c in contributions if c['source'] == s])] *)
Definition count_source (s : string) (contributions : list Contribution) : Z :=
  Z.of_nat (List.length (filter (fun c => String.eqb (source c) s) contributions)).

(** The five numbers of [create_summary_stats], in the order of the cards. *)
Record Summary : Type := mkSummary {
  total_repos : Z;
  summary_total_contributions : Z;
  github_contributions : Z;
  gitea_contributions : Z;
  total_stars : Z
}.

Definition create_summary_stats (github_stats gitea_stats : dict Z)
           (contributions : list Contribution) : Summary :=
  mkSummary
    (get_or_zero "total_repos" github_stats + get_or_zero "total_repos" gitea_stats)%Z
    (Z.of_nat (List.length contributions))
    (count_source "github" contributions)
    (count_source "gitea" contributions)
    (get_or_zero "total_stars" github_stats + get_or_zero "total_stars" gitea_stats)%Z.

(** The sum of a list of counts, and the number of records that
    [for _ in range(n)] appends. *)
Definition sum_Z (l : list Z) : Z := fold_right Z.add 0%Z l.

Definition appended (n : Z) : Z := Z.max 0 n.

(** Every record of the list comes from one of the two fetchers. *)
Definition known_source (c : Contribution) : Prop :=
  source c = "github" \/ source c = "gitea".

(** [c['source']] is one of the two. *)
Definition known_sourceb (c : Contribution) : bool :=
  String.eqb (source c) "github" || String.eqb (source c) "gitea".

(** [main]: [all_contributions = github_contributions + gitea_contributions],
    handed to [create_summary_stats]. *)
Definition main_summary (github_stats gitea_stats : dict Z)
           (github gitea : list Contribution) : Summary :=
  let all_contributions := github ++ gitea in
  create_summary_stats github_stats gitea_stats all_contributions.

(* ================================================================== *)
(** ** The cache ([scripts/cache_manager.py])

    The cache directory is a dictionary from file names to file contents.
    A file content is what [json.load] makes of it: the value it decodes
    to, or text that is not JSON.  [json.dump] followed by [json.load] is
    taken to give the value back, so that [set] stores the value itself.
    Instants are integers (the microseconds of [datetime]); [datetime.now()]
    is an argument of the operations that read the clock.  Operations on
    files do not fail. *)

(** [d.pop(k, None)] on a dictionary read as a list: every entry of the key
    goes. *)
Fixpoint dict_remove {V : Type} (k : string) (d : dict V) : dict V :=
  match d with
  | [] => []
  | (k', v) :: d' =>
      if String.eqb k k' then dict_remove k d' else (k', v) :: dict_remove k d'
  end.

(** [s.endswith(suffix)] *)
Fixpoint endswith (s suffix : string) : bool :=
  String.eqb s suffix
  || match s with
     | EmptyString => false
     | String _ s' => endswith s' suffix
     end.

Module CacheManager.

(** A JSON value; [JNull] is Python's [None]. *)
#[warnings="-register-all"] Inductive Json : Type :=
| JNull
| JBool (b : bool)
| JNumber (n : Qc)
| JString (s : string)
| JArray (items : list Json)
| JObject (members : dict Json).

Inductive file_content : Type :=
| NotJson
| Encodes (value : Json).

Definition directory : Type := dict file_content.

(** A [datetime]: without time zone, as [datetime.now()] gives it, or with
    one. *)
Inductive datetime : Type :=
| Naive (t : Z)
| Aware (t offset : Z).

(** The exceptions of [get]. *)
Inductive exn : Type :=
| JSONDecodeError
| KeyError
| ValueError
| TypeError
| FileNotFoundError.

Inductive outcome (A : Type) : Type :=
| Return (a : A)
| Raise (e : exn).

Arguments Return {A} a.
Arguments Raise {A} e.

Definition and_then {A B : Type} (r : outcome A) (k : A -> outcome B)
  : outcome B :=
  match r with
  | Return a => k a
  | Raise e => Raise e
  end.

Notation "x <~ r ;; k" := (and_then r (fun x => k))
  (at level 61, r at next level, right associativity).

(** [json.load(f)] *)
Definition json_load (f : file_content) : outcome Json :=
  match f with
  | NotJson => Raise JSONDecodeError
  | Encodes value => Return value
  end.

(** [value[k]] for a string [k] *)
Definition getitem (value : Json) (k : string) : outcome Json :=
  match value with
  | JObject members =>
      match dict_get k members with
      | Some v => Return v
      | None => Raise KeyError
      end
  | _ => Raise TypeError
  end.

(** [now - cached_time], for [now] without time zone *)
Definition elapsed (now : Z) (cached_time : datetime) : outcome Z :=
  match cached_time with
  | Naive t => Return (now - t)%Z
  | Aware _ _ => Raise TypeError
  end.

(** A decoded file on which [get] raises [TypeError]: its value is not an
    object, or its ['timestamp'] is not a string or has a time zone. *)
Definition ill_typed (fromisoformat : string -> option datetime)
           (value : Json) : bool :=
  match value with
  | JObject members =>
      match dict_get "timestamp" members with
      | Some (JString s) =>
          match fromisoformat s with
          | Some (Aware _ _) => true
          | _ => false
          end
      | Some _ => true
      | None => false
      end
  | _ => true
  end.

Section Operations.

(** [hashlib.md5(key.encode()).hexdigest()] *)
Variable md5_hexdigest : string -> string.

(** The method [isoformat] of an instant without time zone, and
    [datetime.fromisoformat], [None] where it raises [ValueError]. *)
Variable isoformat : Z -> string.
Variable fromisoformat : string -> option datetime.

(** [self.cache_duration] *)
Variable cache_duration : Z.

(** The file name of a key, in the cache directory. *)
Definition _get_cache_key (key : string) : string :=
  md5_hexdigest key ++ ".json".

(** [datetime.fromisoformat(value)] *)
Definition parse_time (value : Json) : outcome datetime :=
  match value with
  | JString s =>
      match fromisoformat s with
      | Some cached_time => Return cached_time
      | None => Raise ValueError
      end
  | _ => Raise TypeError
  end.

(** The [try] block of [get]: the value returned and the directory left. *)
Definition get_try (fs : directory) (now : Z) (cache_file : string)
  : outcome (Json * directory) :=
  match dict_get cache_file fs with
  | None => Raise FileNotFoundError
  | Some f =>
      cache_data <~ json_load f ;;
      timestamp <~ getitem cache_data "timestamp" ;;
      cached_time <~ parse_time timestamp ;;
      age <~ elapsed now cached_time ;;
      if (cache_duration <? age)%Z then
        Return (JNull, dict_remove cache_file fs)
      else
        data <~ getitem cache_data "data" ;;
        Return (data, fs)
  end.

Definition get (fs : directory) (now : Z) (key : string)
  : outcome Json * directory :=
  let cache_file := _get_cache_key key in
  if negb (dict_contains cache_file fs) then (Return JNull, fs)
  else
    match get_try fs now cache_file with
    | Return (value, fs') => (Return value, fs')
    | Raise (JSONDecodeError | KeyError | ValueError) =>
        (Return JNull,
         if dict_contains cache_file fs then dict_remove cache_file fs else fs)
    | Raise e => (Raise e, fs)
    end.

Definition set (fs : directory) (now : Z) (key : string) (data : Json)
  : directory :=
  let cache_file := _get_cache_key key in
  let cache_data :=
    JObject [("timestamp", JString (isoformat now));
             ("key", JString key);
             ("data", data)] in
  dict_set cache_file (Encodes cache_data) fs.

Definition clear (fs : directory) (key : option string) : directory :=
  match key with
  | None =>
      fold_left
        (fun fs filename =>
           if endswith filename ".json" then dict_remove filename fs else fs)
        (dict_keys fs) fs
  | Some key =>
      let cache_file := _get_cache_key key in
      if dict_contains cache_file fs then dict_remove cache_file fs else fs
  end.

End Operations.

End CacheManager.

(* ================================================================== *)
(** ** Repository statistics ([scripts/github_api.py], [scripts/gitea_api.py])

    The statistics are computed from the list of repositories that the
    request returns.  Of the dictionary [stats] the entries that are numbers
    are kept in one dictionary and ['languages'] in another. *)

Local Open Scope Z_scope.

(** [v if present else 0], for [repo.get(k, 0)] *)
Definition or_zero (v : option Z) : Z :=
  match v with Some z => z | None => 0 end.

(** [stats[k] += v] *)
Definition add_to (k : string) (v : Z) (stats : dict Z) : dict Z :=
  dict_set k (get_or_zero k stats + v) stats.

(** A repository of the GitHub API: the keys that are read, [None] for a
    key that is missing and, for ['language'], also for [null]. *)
Record Repository : Type := mkRepository {
  stargazers_count : option Z;
  forks_count : option Z;
  language : option string
}.

(** [if language:] *)
Definition truthy (language : option string) : option string :=
  match language with
  | Some s => if String.eqb s "" then None else Some s
  | None => None
  end.

(** The body of [for repo in repos] of [get_github_stats_async]. *)
Definition github_repo (st : dict Z * dict Z) (repo : Repository)
  : dict Z * dict Z :=
  let '(stats, languages) := st in
  let stats := add_to "total_stars" (or_zero (stargazers_count repo)) stats in
  let stats := add_to "total_forks" (or_zero (forks_count repo)) stats in
  match truthy (language repo) with
  | Some language =>
      (stats, dict_set language (get_or_zero language languages + 1) languages)
  | None => (stats, languages)
  end.

(** [get_github_stats_async] without a cached value, on the response of the
    request, [None] when it fails. *)
Definition get_github_stats (response : option (list Repository))
  : dict Z * dict Z :=
  let stats := [("total_repos", 0); ("total_stars", 0); ("total_forks", 0)] in
  let languages := [] in
  match response with
  | Some repos =>
      let stats := dict_set "total_repos" (Z.of_nat (List.length repos)) stats in
      fold_left github_repo repos (stats, languages)
  | None => (stats, languages)
  end.

(** [get_gitea_stats_async] without a cached value, on the ['stars_count']
    of the repositories of the response; [configured] is the test of
    [config.GITEA_URL] and [config.GITEA_TOKEN]. *)
Definition get_gitea_stats (configured : bool) (repos : list (option Z))
  : dict Z :=
  if negb configured then []
  else
    let stats := [("total_repos", 0); ("total_stars", 0)] in
    let stats := dict_set "total_repos" (Z.of_nat (List.length repos)) stats in
    fold_left (fun stats stars_count => add_to "total_stars" (or_zero stars_count) stats)
              repos stats.

(** The number of repositories of a language. *)
Definition has_language (name : string) (repo : Repository) : bool :=
  match truthy (language repo) with
  | Some s => String.eqb s name
  | None => false
  end.

Definition count_language (name : string) (repos : list Repository) : Z :=
  Z.of_nat (List.length (filter (has_language name) repos)).

(** The repositories that have a language. *)
Definition has_a_language (repo : Repository) : bool :=
  match truthy (language repo) with
  | Some _ => true
  | None => false
  end.

(** What holds of [stats] and [languages] after each repository. *)
Definition github_loop_invariant (total_repos : Z) (pre : list Repository)
           (st : dict Z * dict Z) : Prop :=
  dict_get "total_repos" (fst st) = Some total_repos
  /\ dict_get "total_stars" (fst st)
     = Some (sum_Z (map (fun repo => or_zero (stargazers_count repo)) pre))
  /\ dict_get "total_forks" (fst st)
     = Some (sum_Z (map (fun repo => or_zero (forks_count repo)) pre))
  /\ (forall name,
        dict_get name (snd st)
        = if 0 <? count_language name pre
          then Some (count_language name pre) else None)
  /\ sum_Z (dict_values (snd st))
     = Z.of_nat (List.length (filter has_a_language pre)).

Local Close Scope Z_scope.

(* ================================================================== *)
(** ** Numbers: basic facts *)

Lemma gt0_true (x : Qc) : gt0 x = true <-> (0 < x)%Qc.
Proof.
  unfold gt0. rewrite Qclt_alt.
  destruct (0 ?= x)%Qc; split; congruence.
Qed.

Lemma gt0_false (x : Qc) : gt0 x = false <-> (x <= 0)%Qc.
Proof.
  split; intro H.
  - apply Qcnot_lt_le. intro Hlt. apply gt0_true in Hlt. congruence.
  - destruct (gt0 x) eqn:E; [|reflexivity].
    apply gt0_true in E. exfalso. exact (Qcle_not_lt _ _ H E).
Qed.

Lemma ltb_true (x y : Qc) : ltb x y = true <-> (x < y)%Qc.
Proof.
  unfold ltb. rewrite Qclt_alt.
  destruct (x ?= y)%Qc; split; congruence.
Qed.

Lemma ltb_false (x y : Qc) : ltb x y = false <-> (y <= x)%Qc.
Proof.
  split; intro H.
  - apply Qcnot_lt_le. intro Hlt. apply ltb_true in Hlt. congruence.
  - destruct (ltb x y) eqn:E; [|reflexivity].
    apply ltb_true in E. exfalso. exact (Qcle_not_lt _ _ H E).
Qed.

Lemma gt0_nonzero (x : Qc) : gt0 x = true -> x <> 0%Qc.
Proof.
  intros H E. apply gt0_true in H. subst x. exact (Qclt_not_eq _ _ H eq_refl).
Qed.

Lemma py_div_ok (x y : Qc) : y <> 0%Qc -> py_div x y = Ok (x / y)%Qc.
Proof.
  intro Hy. unfold py_div.
  destruct (Qc_eq_bool y 0) eqn:E; [|reflexivity].
  apply Qc_eq_bool_correct in E. contradiction.
Qed.

Lemma py_div_zero (x : Qc) : py_div x 0%Qc = ZeroDivisionError.
Proof. reflexivity. Qed.

Lemma fold_left_Qcplus (l : list Qc) (a : Qc) :
  fold_left Qcplus l a = (a + sum l)%Qc.
Proof.
  unfold sum. revert a.
  induction l as [|x l IH]; intro a; simpl.
  - ring.
  - rewrite IH, (IH (0 + x)%Qc). ring.
Qed.

Lemma sum_nil : sum [] = 0%Qc.
Proof. reflexivity. Qed.

Lemma sum_cons (x : Qc) (l : list Qc) : sum (x :: l) = (x + sum l)%Qc.
Proof.
  unfold sum at 1. simpl. rewrite fold_left_Qcplus. ring.
Qed.

Lemma sum_app (l l' : list Qc) : sum (l ++ l') = (sum l + sum l')%Qc.
Proof.
  induction l as [|x l IH]; simpl.
  - rewrite sum_nil. ring.
  - rewrite !sum_cons, IH. ring.
Qed.



Lemma Qcplus_nonneg (x y : Qc) : (0 <= x -> 0 <= y -> 0 <= x + y)%Qc.
Proof.
  intros Hx Hy. replace 0%Qc with (0 + 0)%Qc by ring.
  apply Qcplus_le_compat; assumption.
Qed.

(* ================================================================== *)
(** ** Exceptions: loops whose body never raises *)

Lemma for_each_ok {A S : Type} (step : S -> A -> result S) (f : S -> A -> S)
      (l : list A) :
  (forall acc x, In x l -> step acc x = Ok (f acc x)) ->
  forall acc, for_each step l acc = Ok (fold_left f l acc).
Proof.
  induction l as [|x l IH]; intros Hstep acc; simpl.
  - reflexivity.
  - rewrite Hstep by (left; reflexivity). simpl.
    apply IH. intros acc' y Hy. apply Hstep. right; exact Hy.
Qed.

(* ================================================================== *)
(** ** Dictionaries: basic facts *)

Section DictFacts.
Context {V : Type}.
Implicit Types (d : dict V) (k : string) (v : V).

Lemma dict_get_set_same k v d : dict_get k (dict_set k v d) = Some v.
Proof.
  induction d as [|[k' v'] d IH]; simpl.
  - rewrite String.eqb_refl. reflexivity.
  - destruct (String.eqb k k') eqn:E; simpl.
    + rewrite String.eqb_refl. reflexivity.
    + rewrite E. exact IH.
Qed.

Lemma dict_get_set_other k k' v d :
  k' <> k -> dict_get k' (dict_set k v d) = dict_get k' d.
Proof.
  intro Hne.
  induction d as [|[k0 v0] d IH]; simpl.
  - apply String.eqb_neq in Hne. rewrite Hne. reflexivity.
  - destruct (String.eqb k k0) eqn:E; simpl.
    + apply String.eqb_eq in E. subst k0.
      apply String.eqb_neq in Hne. rewrite Hne. reflexivity.
    + rewrite IH. reflexivity.
Qed.

Lemma dict_get_None_keys k d : dict_get k d = None <-> ~ In k (dict_keys d).
Proof.
  induction d as [|[k' v'] d IH]; simpl.
  - split; auto.
  - destruct (String.eqb k k') eqn:E.
    + apply String.eqb_eq in E. subst k'. split; [discriminate|].
      intro H. exfalso. apply H. left; reflexivity.
    + apply String.eqb_neq in E. rewrite IH. split.
      * intros H [H'|H']; [congruence | contradiction].
      * intros H H'. apply H. right; exact H'.
Qed.

(** Assigning to a key that is not in the dictionary appends it. *)
Lemma dict_set_absent k v d :
  dict_get k d = None -> dict_set k v d = d ++ [(k, v)].
Proof.
  induction d as [|[k' v'] d IH]; simpl; intro H.
  - reflexivity.
  - destruct (String.eqb k k'); [discriminate|].
    rewrite IH by exact H. reflexivity.
Qed.

(** Assigning to a key of the dictionary replaces its value in place. *)
Lemma dict_set_present k v v0 d :
  dict_get k d = Some v0 ->
  exists d1 d2, d = d1 ++ (k, v0) :: d2
                /\ dict_set k v d = d1 ++ (k, v) :: d2
                /\ dict_get k d1 = None.
Proof.
  induction d as [|[k' v'] d IH]; simpl; intro H.
  - discriminate.
  - destruct (String.eqb k k') eqn:E.
    + apply String.eqb_eq in E. subst k'. injection H as ->.
      exists [], d. repeat split.
    + destruct (IH H) as (d1 & d2 & -> & Hs & Hn).
      exists ((k', v') :: d1), d2. simpl. rewrite E, Hs. repeat split.
      exact Hn.
Qed.

Lemma dict_keys_set_present k v v0 d :
  dict_get k d = Some v0 -> dict_keys (dict_set k v d) = dict_keys d.
Proof.
  intro H. destruct (dict_set_present k v v0 d H) as (d1 & d2 & -> & -> & _).
  unfold dict_keys. rewrite !map_app. reflexivity.
Qed.

Lemma dict_keys_set_absent k v d :
  dict_get k d = None -> dict_keys (dict_set k v d) = dict_keys d ++ [k].
Proof.
  intro H. rewrite dict_set_absent by exact H.
  unfold dict_keys. rewrite map_app. reflexivity.
Qed.

(** Keys stay unique. *)
Lemma dict_set_NoDup k v d :
  NoDup (dict_keys d) -> NoDup (dict_keys (dict_set k v d)).
Proof.
  intro Hnd. destruct (dict_get k d) as [v0|] eqn:E.
  - rewrite (dict_keys_set_present k v v0 d E). exact Hnd.
  - rewrite dict_keys_set_absent by exact E.
    apply NoDup_app_remove_l with (l := []). simpl.
    apply Permutation_NoDup with (l := k :: dict_keys d).
    + apply Permutation_cons_append.
    + constructor; [|exact Hnd]. apply dict_get_None_keys. exact E.
Qed.

End DictFacts.

(* ================================================================== *)
(** ** The bucket map *)






(** What [accumulate] leaves under its key, and that it leaves the other
    keys alone. *)
Lemma dict_get_accumulate_same (k display : string) (s : Qc) (d : dict Lang) :
  dict_get k (accumulate k display s d)
  = Some (match dict_get k d with
          | Some b => mkLang (name b) (total_seconds b + s)%Qc
          | None => mkLang display (0 + s)%Qc
          end).
Proof.
  unfold accumulate, add_seconds, dict_contains.
  destruct (dict_get k d) as [b|] eqn:E.
  - rewrite E. apply dict_get_set_same.
  - rewrite dict_get_set_same. simpl. apply dict_get_set_same.
Qed.

Lemma dict_get_accumulate_other (k k' display : string) (s : Qc) (d : dict Lang) :
  k' <> k -> dict_get k' (accumulate k display s d) = dict_get k' d.
Proof.
  intro Hne. unfold accumulate, add_seconds, dict_contains.
  destruct (dict_get k d) as [b|] eqn:E.
  - rewrite E. apply dict_get_set_other. exact Hne.
  - rewrite dict_get_set_same.
    rewrite !dict_get_set_other by exact Hne. reflexivity.
Qed.


Lemma accumulate_NoDup (k display : string) (s : Qc) (d : dict Lang) :
  NoDup (dict_keys d) -> NoDup (dict_keys (accumulate k display s d)).
Proof.
  intro H. unfold accumulate, add_seconds.
  destruct (dict_contains k d).
  - destruct (dict_get k d); [apply dict_set_NoDup|]; exact H.
  - rewrite dict_get_set_same. apply dict_set_NoDup, dict_set_NoDup, H.
Qed.

(* ================================================================== *)
(** ** The computation never raises *)

Lemma gradle_distribution_ok (raw_languages : list Lang) :
  gradle_distribution raw_languages = Ok (gradle_shares raw_languages).
Proof.
  unfold gradle_distribution, gradle_distribution_of, gradle_shares.
  destruct (gt0 (sum (dict_values (gradle_target_seconds raw_languages)))) eqn:E;
    [|reflexivity].
  unfold shares_of. apply for_each_ok.
  intros acc [lang seconds] _. simpl.
  rewrite py_div_ok by (apply gt0_nonzero; exact E). reflexivity.
Qed.

Lemma percent_of_ok (seconds total : Qc) :
  percent_of seconds total = Ok (percent_value seconds total).
Proof.
  unfold percent_of, percent_value.
  destruct (gt0 total) eqn:E; [|reflexivity].
  rewrite py_div_ok by (apply gt0_nonzero; exact E). reflexivity.
Qed.

Lemma fold_left_snoc {A B : Type} (f : A -> B) (l : list A) (acc : list B) :
  fold_left (fun acc x => acc ++ [f x]) l acc = acc ++ map f l.
Proof.
  revert acc. induction l as [|x l IH]; intro acc; simpl.
  - rewrite app_nil_r. reflexivity.
  - rewrite IH, <- app_assoc. reflexivity.
Qed.

Lemma with_percents_ok (total : Qc) (buckets : list Lang) :
  with_percents total buckets = Ok (map (to_processed total) buckets).
Proof.
  unfold with_percents.
  rewrite for_each_ok with (f := fun acc b => acc ++ [to_processed total b]).
  - rewrite fold_left_snoc. reflexivity.
  - intros acc b _. rewrite percent_of_ok. reflexivity.
Qed.

Lemma final_dict_spec (raw_languages : list Lang) (gd : dict Qc) :
  gradle_distribution raw_languages = Ok gd ->
  finalize (second_pass raw_languages) gd = final_dict raw_languages.
Proof.
  rewrite gradle_distribution_ok. intro H. injection H as <-. reflexivity.
Qed.

Lemma process_language_data_ok (raw_languages : list Lang) :
  process_language_data raw_languages = Ok (processed raw_languages).
Proof.
  unfold process_language_data, processed, final_dict.
  rewrite gradle_distribution_ok. simpl.
  rewrite with_percents_ok. reflexivity.
Qed.

(* ================================================================== *)
(** ** The sort *)

Lemma insert_desc_Permutation (x : Processed) (l : list Processed) :
  Permutation (x :: l) (insert_desc x l).
Proof.
  induction l as [|y l IH]; simpl.
  - apply Permutation_refl.
  - destruct (ltb (out_total_seconds x) (out_total_seconds y)).
    + eapply perm_trans; [apply perm_swap|]. apply perm_skip, IH.
    + apply Permutation_refl.
Qed.

Lemma sort_desc_Permutation (l : list Processed) : Permutation l (sort_desc l).
Proof.
  induction l as [|x l IH]; simpl.
  - apply perm_nil.
  - eapply perm_trans; [apply perm_skip, IH|]. apply insert_desc_Permutation.
Qed.

Lemma insert_desc_HdRel (a x : Processed) (l : list Processed) :
  desc a x -> HdRel desc a l -> HdRel desc a (insert_desc x l).
Proof.
  intros Hax Hal. destruct l as [|y l]; simpl.
  - constructor. exact Hax.
  - destruct (ltb (out_total_seconds x) (out_total_seconds y)).
    + constructor. inversion Hal; assumption.
    + constructor. exact Hax.
Qed.

Lemma insert_desc_Sorted (x : Processed) (l : list Processed) :
  Sorted desc l -> Sorted desc (insert_desc x l).
Proof.
  induction 1 as [|y l Hs IH Hhd]; simpl.
  - repeat constructor.
  - destruct (ltb (out_total_seconds x) (out_total_seconds y)) eqn:E.
    + constructor; [exact IH|].
      apply insert_desc_HdRel; [|exact Hhd].
      apply ltb_true in E. apply Qclt_le_weak. exact E.
    + constructor; [constructor; assumption|].
      constructor. apply ltb_false in E. exact E.
Qed.

Lemma sort_desc_Sorted (l : list Processed) : Sorted desc (sort_desc l).
Proof.
  induction l as [|x l IH]; simpl.
  - constructor.
  - apply insert_desc_Sorted, IH.
Qed.

Lemma desc_trans : Relations_1.Transitive desc.
Proof.
  intros a b c Hab Hbc. unfold desc in *. eapply Qcle_trans; eassumption.
Qed.

(** Stability: the entries of one duration keep the order they had, as in
    the sort of the Python list. *)
Lemma has_duration_true (q : Qc) (e : Processed) :
  has_duration q e = true -> out_total_seconds e = q.
Proof. apply Qc_eq_bool_correct. Qed.

Lemma insert_desc_stable (q : Qc) (x : Processed) (l : list Processed) :
  filter (has_duration q) (insert_desc x l) = filter (has_duration q) (x :: l).
Proof.
  induction l as [|y l IH]; simpl; [reflexivity|].
  destruct (ltb (out_total_seconds x) (out_total_seconds y)) eqn:E;
    [|reflexivity].
  simpl. rewrite IH. simpl.
  destruct (has_duration q x) eqn:Hx, (has_duration q y) eqn:Hy; try reflexivity.
  apply has_duration_true in Hx, Hy. apply ltb_true in E.
  rewrite Hx, Hy in E. exfalso. exact (Qclt_not_eq _ _ E eq_refl).
Qed.

Lemma sort_desc_stable (q : Qc) (l : list Processed) :
  filter (has_duration q) (sort_desc l) = filter (has_duration q) l.
Proof.
  induction l as [|x l IH]; simpl; [reflexivity|].
  rewrite insert_desc_stable. simpl. rewrite IH. reflexivity.
Qed.



(* ================================================================== *)
(** ** The classification pass *)

Lemma classify_default (st : State) (lang : Lang) :
  is_default_case (lower (name lang)) = true ->
  classify st lang
  = set_language_dict
      (accumulate (lower (name lang)) (name lang) (total_seconds lang)
         (language_dict st)) st.
Proof.
  unfold is_default_case. intro H.
  repeat (apply andb_prop in H; destruct H as [H ?]).
  repeat match goal with
         | H : negb _ = true |- _ => apply negb_true_iff in H
         end.
  unfold classify.
  repeat match goal with
         | H : mem _ ?S = false |- context [mem _ ?S] => rewrite H
         end.
  reflexivity.
Qed.

(** An entry outside the default case leaves every key of the map alone,
    except the two canonical keys. *)
Lemma classify_not_default (st : State) (lang : Lang) (k : string) :
  is_default_case (lower (name lang)) = false ->
  k <> "objective-c" -> k <> "c" ->
  dict_get k (language_dict (classify st lang)) = dict_get k (language_dict st).
Proof.
  intros Hd Hobjc Hc. unfold is_default_case in Hd.
  classify_cases; simpl; try reflexivity.
  - apply dict_get_accumulate_other. exact Hobjc.
  - apply dict_get_accumulate_other. exact Hc.
  - simpl in Hd. discriminate.
Qed.

(** An entry with another label leaves the bucket of [k] alone. *)
Lemma classify_other_label (st : State) (lang : Lang) (k : string) :
  lower (name lang) <> k ->
  k <> "objective-c" -> k <> "c" ->
  dict_get k (language_dict (classify st lang)) = dict_get k (language_dict st).
Proof.
  intros Hne Hobjc Hc.
  destruct (is_default_case (lower (name lang))) eqn:Hd.
  - rewrite classify_default by exact Hd. simpl.
    apply dict_get_accumulate_other. congruence.
  - apply classify_not_default; assumption.
Qed.

(** Induction over a loop, with the part of the input already consumed. *)
Lemma fold_left_invariant {A S : Type} (f : S -> A -> S)
      (I : list A -> S -> Prop) (l : list A) (s0 : S) :
  I [] s0 ->
  (forall pre x s, In x l -> I pre s -> I (pre ++ [x]) (f s x)) ->
  I l (fold_left f l s0).
Proof.
  intros H0. induction l as [|x l IH] using rev_ind; intro Hstep.
  - exact H0.
  - rewrite fold_left_app. simpl. apply Hstep.
    + apply in_or_app. right. left. reflexivity.
    + apply IH. intros pre y s Hy. apply Hstep.
      apply in_or_app. left. exact Hy.
Qed.


Lemma classify_discarded (st : State) (lang : Lang) :
  mem (lower (name lang)) MEANINGLESS_LANGUAGES = true -> classify st lang = st.
Proof. intro H. unfold classify. rewrite H. reflexivity. Qed.





(* ================================================================== *)
(** ** The Gradle distribution *)

Lemma record_gradle_target_NoDup (gts : dict Qc) (lang : Lang) :
  NoDup (dict_keys gts) -> NoDup (dict_keys (record_gradle_target gts lang)).
Proof.
  intro H. unfold record_gradle_target.
  destruct (mem (lower (name lang)) GRADLE_TARGET_LANGUAGES);
    [apply dict_set_NoDup|]; exact H.
Qed.

Lemma gradle_target_seconds_NoDup (raw_languages : list Lang) :
  NoDup (dict_keys (gradle_target_seconds raw_languages)).
Proof.
  unfold gradle_target_seconds.
  apply (fold_left_invariant record_gradle_target
           (fun _ gts => NoDup (dict_keys gts))).
  - constructor.
  - intros _ x gts _ IH. apply record_gradle_target_NoDup, IH.
Qed.

Lemma shares_loop_map (total : Qc) (gts gd : dict Qc) :
  NoDup (dict_keys gd ++ dict_keys gts) ->
  fold_left
    (fun (gd : dict Qc) (item : string * Qc) =>
       dict_set (fst item) (snd item / total)%Qc gd) gts gd
  = gd ++ map (share total) gts.
Proof.
  revert gd. induction gts as [|[k s] gts IH]; intros gd Hnd; simpl.
  - rewrite app_nil_r. reflexivity.
  - simpl in Hnd.
    assert (Habs : dict_get k gd = None).
    { apply dict_get_None_keys. intro Hin.
      apply NoDup_remove_2 in Hnd. apply Hnd, in_or_app. left. exact Hin. }
    rewrite dict_set_absent by exact Habs.
    rewrite IH.
    + rewrite <- app_assoc. reflexivity.
    + unfold dict_keys in *. rewrite map_app, <- app_assoc. exact Hnd.
Qed.

(** Each recorded language gets its own duration over the sum. *)
Lemma shares_of_map (gts : dict Qc) (total : Qc) :
  NoDup (dict_keys gts) -> shares_of gts total = map (share total) gts.
Proof.
  intro Hnd. unfold shares_of. rewrite shares_loop_map; [reflexivity|exact Hnd].
Qed.



(* ================================================================== *)
(** ** Finalization *)


Lemma dict_get_merge_into_other (k k' display : string) (acc : Qc) (d : dict Lang) :
  k' <> k -> dict_get k' (merge_into k display acc d) = dict_get k' d.
Proof.
  intro Hne. unfold merge_into. destruct (gt0 acc); [|reflexivity].
  apply dict_get_accumulate_other, Hne.
Qed.


Lemma dict_get_add_summary_other (k k' display : string) (acc : Qc) (d : dict Lang) :
  k' <> k -> dict_get k' (add_summary k display acc d) = dict_get k' d.
Proof.
  intro Hne. unfold add_summary. destruct (gt0 acc); [|reflexivity].
  apply dict_get_set_other, Hne.
Qed.

Lemma dict_get_add_summary_same (k display : string) (acc : Qc) (d : dict Lang) :
  gt0 acc = true ->
  dict_get k (add_summary k display acc d) = Some (mkLang display acc).
Proof.
  intro H. unfold add_summary. rewrite H. apply dict_get_set_same.
Qed.



(** The keys the redistribution writes are keys of the distribution. *)
Lemma dict_get_distribute_gradle_other
      (gradle : Qc) (gd : dict Qc) (d : dict Lang) (k : string) :
  ~ In k (dict_keys gd) ->
  dict_get k (distribute_gradle gradle gd d) = dict_get k d.
Proof.
  intro Hk. unfold distribute_gradle. destruct (gt0 gradle); [|reflexivity].
  revert d. induction gd as [|[k' r] gd IH]; intro d; simpl.
  - reflexivity.
  - simpl in Hk. rewrite IH by tauto.
    apply dict_get_accumulate_other. intro E. apply Hk. left. congruence.
Qed.

Lemma record_gradle_target_keys (gts : dict Qc) (lang : Lang) (k : string) :
  In k (dict_keys (record_gradle_target gts lang)) ->
  In k (dict_keys gts) \/ In k GRADLE_TARGET_LANGUAGES.
Proof.
  unfold record_gradle_target.
  destruct (mem (lower (name lang)) GRADLE_TARGET_LANGUAGES) eqn:E;
    [|left; assumption].
  intro Hin.
  destruct (dict_get (lower (name lang)) gts) as [v|] eqn:G.
  - rewrite (dict_keys_set_present _ _ v gts G) in Hin. left. exact Hin.
  - rewrite dict_keys_set_absent in Hin by exact G.
    apply in_app_or in Hin. destruct Hin as [Hin|[<-|[]]]; [left; exact Hin|].
    right. unfold mem in E. apply existsb_exists in E.
    destruct E as (x & Hx & Ex). apply String.eqb_eq in Ex. subst x. exact Hx.
Qed.

Lemma gradle_target_seconds_keys (raw_languages : list Lang) (k : string) :
  In k (dict_keys (gradle_target_seconds raw_languages)) ->
  In k GRADLE_TARGET_LANGUAGES.
Proof.
  unfold gradle_target_seconds.
  apply (fold_left_invariant record_gradle_target
           (fun _ gts => In k (dict_keys gts) -> In k GRADLE_TARGET_LANGUAGES)).
  - intros [].
  - intros _ x gts _ IH Hin.
    destruct (record_gradle_target_keys _ _ _ Hin); auto.
Qed.

(** The distribution only has the keys java, kotlin and groovy. *)
Lemma gradle_shares_keys (raw_languages : list Lang) (k : string) :
  In k (dict_keys (gradle_shares raw_languages)) ->
  In k GRADLE_TARGET_LANGUAGES.
Proof.
  unfold gradle_shares.
  destruct (gt0 (sum (dict_values (gradle_target_seconds raw_languages)))).
  - rewrite shares_of_map by apply gradle_target_seconds_NoDup.
    unfold dict_keys. rewrite map_map. simpl.
    apply gradle_target_seconds_keys.
  - simpl. intros [<-|[]]. left. reflexivity.
Qed.

(* ================================================================== *)
(** ** Comparing outputs by computation *)

Lemma Processed_eqb_eq (a b : Processed) : Processed_eqb a b = true -> a = b.
Proof.
  destruct a as [n s p], b as [n' s' p']. unfold Processed_eqb. simpl.
  intro H. apply andb_prop in H. destruct H as [H Hp].
  apply andb_prop in H. destruct H as [Hn Hs].
  apply String.eqb_eq in Hn. apply Qc_eq_bool_correct in Hs, Hp.
  congruence.
Qed.

Lemma output_eqb_eq (l l' : list Processed) : output_eqb l l' = true -> l = l'.
Proof.
  revert l'. induction l as [|a l IH]; intros [|b l'] H; simpl in H;
    try discriminate; [reflexivity|].
  apply andb_prop in H. destruct H as [Hab Hl].
  apply Processed_eqb_eq in Hab. apply IH in Hl. congruence.
Qed.

(** [process_language_data raw] returns [out]: decided by running it. *)
Lemma returns_by_computation (raw_languages : list Lang) (out : list Processed) :
  output_eqb (processed raw_languages) out = true ->
  process_language_data raw_languages = Ok out.
Proof.
  intro H. rewrite process_language_data_ok. f_equal. apply output_eqb_eq, H.
Qed.

Lemma Qc_neq_by_computation (x y : Qc) : Qc_eq_bool x y = false -> x <> y.
Proof.
  intros H E. subst y. unfold Qc_eq_bool in H.
  destruct (Qc_eq_dec x x); [discriminate|contradiction].
Qed.

(* ================================================================== *)
(** ** Conservation of the seconds *)




(* ================================================================== *)
(** ** Buckets of the default rule *)

Lemma find_app_first {A : Type} (f : A -> bool) (l l' : list A) :
  find f (l ++ l') = match find f l with Some x => Some x | None => find f l' end.
Proof.
  induction l as [|x l IH]; simpl; [reflexivity|].
  destruct (f x); [reflexivity|exact IH].
Qed.

Lemma find_None_filter {A : Type} (f : A -> bool) (l : list A) :
  find f l = None -> filter f l = [].
Proof.
  induction l as [|x l IH]; simpl; [reflexivity|].
  destruct (f x); [discriminate|exact IH].
Qed.

Lemma is_default_case_not_objc (k : string) :
  is_default_case k = true -> k <> "objective-c".
Proof. intros H ->. vm_compute in H. discriminate. Qed.

(** After the second pass, the bucket of a default-case label other than
    "c" has the casing of the label's first occurrence and the durations of
    all its occurrences; there is no bucket when the label does not occur. *)
Lemma second_pass_default_bucket (raw_languages : list Lang) (k : string) :
  is_default_case k = true -> k <> "c" ->
  dict_get k (language_dict (second_pass raw_languages))
  = option_map
      (fun first =>
         mkLang (name first)
                (sum (map total_seconds (occurrences k raw_languages))))
      (first_occurrence k raw_languages).
Proof.
  intros Hd Hc. pose proof (is_default_case_not_objc k Hd) as Ho.
  unfold second_pass.
  apply (fold_left_invariant classify
           (fun pre st =>
              dict_get k (language_dict st)
              = option_map
                  (fun first =>
                     mkLang (name first)
                            (sum (map total_seconds (occurrences k pre))))
                  (first_occurrence k pre))).
  - reflexivity.
  - intros pre x st _ IH.
    unfold first_occurrence, occurrences in *.
    rewrite find_app_first, filter_app. simpl.
    destruct (has_label k x) eqn:E; unfold has_label in E.
    + apply String.eqb_eq in E.
      rewrite classify_default by (rewrite E; exact Hd). simpl.
      rewrite E, dict_get_accumulate_same, IH.
      destruct (find (has_label k) pre) as [first|] eqn:F; simpl.
      * f_equal. f_equal. rewrite map_app, sum_app. simpl.
        rewrite sum_cons, sum_nil. ring.
      * rewrite (find_None_filter _ _ F). simpl.
        rewrite sum_cons, sum_nil. f_equal. f_equal. ring.
    + apply String.eqb_neq in E.
      rewrite classify_other_label by assumption.
      rewrite IH, app_nil_r.
      destruct (find (has_label k) pre); reflexivity.
Qed.

(* ================================================================== *)
(** ** The synthetic buckets *)

Lemma not_gradle_key_final (raw_languages : list Lang) (k : string) :
  ~ In k GRADLE_TARGET_LANGUAGES ->
  dict_get k (final_dict raw_languages)
  = dict_get k (fold_accumulators (second_pass raw_languages)).
Proof.
  intro Hk. unfold final_dict, finalize.
  apply dict_get_distribute_gradle_other.
  intro Hin. apply Hk. eapply gradle_shares_keys. exact Hin.
Qed.

Lemma fold_accumulators_frontend (st : State) :
  (0 < frontend_seconds st)%Qc ->
  dict_get "frontend" (fold_accumulators st)
  = Some (mkLang "Frontend Langs" (frontend_seconds st)).
Proof.
  intro H. apply gt0_true in H. unfold fold_accumulators.
  rewrite !dict_get_add_summary_other by discriminate.
  apply dict_get_add_summary_same, H.
Qed.

Lemma fold_accumulators_shell (st : State) :
  (0 < shell_seconds st)%Qc ->
  dict_get "shell" (fold_accumulators st)
  = Some (mkLang "Shell Langs" (shell_seconds st)).
Proof.
  intro H. apply gt0_true in H. unfold fold_accumulators.
  rewrite !dict_get_add_summary_other by discriminate.
  apply dict_get_add_summary_same, H.
Qed.

Lemma fold_accumulators_shader (st : State) :
  (0 < shader_seconds st)%Qc ->
  dict_get "shader" (fold_accumulators st)
  = Some (mkLang "Shader Langs" (shader_seconds st)).
Proof.
  intro H. apply gt0_true in H. unfold fold_accumulators.
  apply dict_get_add_summary_same, H.
Qed.

(* ================================================================== *)
(** ** The first pass records by assignment *)

Section DictSetTwice.
Context {V : Type}.
Implicit Types (d : dict V) (k : string) (v : V).

Lemma dict_set_set k v w d : dict_set k v (dict_set k w d) = dict_set k v d.
Proof.
  induction d as [|[k' v'] d IH]; simpl.
  - rewrite String.eqb_refl. reflexivity.
  - destruct (String.eqb k k') eqn:E; simpl.
    + rewrite String.eqb_refl. reflexivity.
    + rewrite E, IH. reflexivity.
Qed.

(** Assignments to two keys commute once one of the keys is in the
    dictionary: only the order of two appended keys could differ. *)
Lemma dict_set_comm k k' v w d :
  k <> k' -> dict_get k d <> None ->
  dict_set k v (dict_set k' w d) = dict_set k' w (dict_set k v d).
Proof.
  intros Hne. induction d as [|[k0 v0] d IH]; simpl; intro Hin.
  - contradiction.
  - assert (Hk' : String.eqb k' k = false)
      by (apply String.eqb_neq; congruence).
    destruct (String.eqb k k0) eqn:E.
    + apply String.eqb_eq in E. subst k0. rewrite Hk'. simpl.
      rewrite String.eqb_refl, Hk'. reflexivity.
    + destruct (String.eqb k' k0) eqn:E'; simpl.
      * apply String.eqb_eq in E'. subst k0.
        rewrite E, String.eqb_refl. reflexivity.
      * rewrite E, E', IH by exact Hin. reflexivity.
Qed.

Lemma dict_get_set_not_None k k' v d :
  dict_get k d <> None -> dict_get k (dict_set k' v d) <> None.
Proof.
  intro H. destruct (String.eqb k k') eqn:E.
  - apply String.eqb_eq in E. subst k'. rewrite dict_get_set_same. discriminate.
  - apply String.eqb_neq in E. rewrite dict_get_set_other by exact E. exact H.
Qed.

End DictSetTwice.

Lemma mem_In (k : string) (S : list string) : mem k S = true <-> In k S.
Proof.
  unfold mem. rewrite existsb_exists. split.
  - intros (x & Hx & E). apply String.eqb_eq in E. subst x. exact Hx.
  - intro H. exists k. split; [exact H|apply String.eqb_refl].
Qed.

Lemma last_occurrence_snoc (k : string) (pre : list Lang) (x : Lang) :
  last_occurrence k (pre ++ [x])
  = if has_label k x then Some x else last_occurrence k pre.
Proof.
  unfold last_occurrence. rewrite rev_app_distr. reflexivity.
Qed.

(** What the first loop leaves under a target language: the duration of the
    last entry with that label. *)
Lemma gradle_target_seconds_last (raw_languages : list Lang) (k : string) :
  mem k GRADLE_TARGET_LANGUAGES = true ->
  dict_get k (gradle_target_seconds raw_languages)
  = option_map total_seconds (last_occurrence k raw_languages).
Proof.
  intro Hk. unfold gradle_target_seconds.
  apply (fold_left_invariant record_gradle_target
           (fun pre gts =>
              dict_get k gts = option_map total_seconds (last_occurrence k pre))).
  - reflexivity.
  - intros pre x gts _ IH. rewrite last_occurrence_snoc.
    unfold record_gradle_target, has_label.
    destruct (String.eqb (lower (name x)) k) eqn:E.
    + apply String.eqb_eq in E. rewrite E, Hk. apply dict_get_set_same.
    + apply String.eqb_neq in E.
      destruct (mem (lower (name x)) GRADLE_TARGET_LANGUAGES); [|exact IH].
      rewrite dict_get_set_other by congruence. exact IH.
Qed.

Lemma dict_get_map_share (gts : dict Qc) (total : Qc) (k : string) :
  dict_get k (map (share total) gts)
  = option_map (fun seconds => (seconds / total)%Qc) (dict_get k gts).
Proof.
  induction gts as [|[k' s] gts IH]; simpl; [reflexivity|].
  destruct (String.eqb k k'); [reflexivity|exact IH].
Qed.

Lemma gradle_shares_last (raw_languages : list Lang) (k : string) :
  mem k GRADLE_TARGET_LANGUAGES = true ->
  (0 < total_gradle_target raw_languages)%Qc ->
  dict_get k (gradle_shares raw_languages)
  = option_map
      (fun last => (total_seconds last / total_gradle_target raw_languages)%Qc)
      (last_occurrence k raw_languages).
Proof.
  intros Hk Hpos. unfold gradle_shares.
  apply gt0_true in Hpos. unfold total_gradle_target in *. rewrite Hpos.
  rewrite shares_of_map by apply gradle_target_seconds_NoDup.
  rewrite dict_get_map_share, gradle_target_seconds_last by exact Hk.
  destruct (last_occurrence k raw_languages); reflexivity.
Qed.

(** Once a later entry has the same label, the duration recorded for an
    earlier one is overwritten: it has no influence on the loop's result. *)
Lemma record_overwritten (k : string) (l2 : list Lang) (gts gts' : dict Qc) :
  Exists (fun lang => has_label k lang = true) l2 ->
  mem k GRADLE_TARGET_LANGUAGES = true ->
  dict_get k gts <> None -> dict_get k gts' <> None ->
  (forall v, dict_set k v gts = dict_set k v gts') ->
  fold_left record_gradle_target l2 gts = fold_left record_gradle_target l2 gts'.
Proof.
  intros Hex Hk. revert gts gts'.
  induction l2 as [|x l2 IH]; intros gts gts' Hin Hin' Hsame.
  - inversion Hex.
  - simpl. unfold record_gradle_target at 2 4. unfold has_label in *.
    destruct (String.eqb (lower (name x)) k) eqn:E.
    + apply String.eqb_eq in E. rewrite E, Hk, Hsame. reflexivity.
    + assert (Hex' : Exists (fun lang => String.eqb (lower (name lang)) k = true) l2).
      { inversion Hex; subst; [congruence|assumption]. }
      apply String.eqb_neq in E.
      destruct (mem (lower (name x)) GRADLE_TARGET_LANGUAGES).
      * apply IH; try assumption.
        -- apply dict_get_set_not_None, Hin.
        -- apply dict_get_set_not_None, Hin'.
        -- intro v.
           rewrite (dict_set_comm k _ v _ gts) by (assumption || congruence).
           rewrite (dict_set_comm k _ v _ gts') by (assumption || congruence).
           rewrite Hsame. reflexivity.
      * apply IH; assumption.
Qed.

Lemma gradle_target_seconds_overwritten
      (k : string) (l1 l2 : list Lang) (e e' : Lang) :
  mem k GRADLE_TARGET_LANGUAGES = true ->
  name e' = name e -> has_label k e = true ->
  Exists (fun lang => has_label k lang = true) l2 ->
  gradle_target_seconds (l1 ++ e' :: l2) = gradle_target_seconds (l1 ++ e :: l2).
Proof.
  intros Hk Hname He Hex. unfold gradle_target_seconds.
  rewrite !fold_left_app. simpl.
  unfold has_label in He. apply String.eqb_eq in He.
  assert (Hrec : forall gts x, name x = name e ->
            record_gradle_target gts x = dict_set k (total_seconds x) gts).
  { intros gts x Hx. unfold record_gradle_target. rewrite Hx, He, Hk. reflexivity. }
  rewrite (Hrec _ e eq_refl), (Hrec _ e' Hname).
  apply record_overwritten with (k := k); try assumption.
  - rewrite dict_get_set_same. discriminate.
  - rewrite dict_get_set_same. discriminate.
  - intro v. rewrite !dict_set_set. reflexivity.
Qed.

Lemma gradle_target_is_default_case (k : string) :
  mem k GRADLE_TARGET_LANGUAGES = true -> is_default_case k = true /\ k <> "c".
Proof.
  intro H. apply mem_In in H. simpl in H.
  destruct H as [<-|[<-|[<-|[]]]]; split; solve [reflexivity | discriminate].
Qed.

(* ================================================================== *)
(** ** From the bucket map to the returned list *)

Lemma fold_accumulators_other (st : State) (k : string) :
  ~ In k FINALIZATION_KEYS ->
  dict_get k (fold_accumulators st) = dict_get k (language_dict st).
Proof.
  intro Hk. unfold fold_accumulators.
  rewrite !dict_get_add_summary_other, !dict_get_merge_into_other;
    solve [reflexivity | intros ->; apply Hk; simpl; tauto].
Qed.

Lemma final_dict_other (raw_languages : list Lang) (k : string) :
  ~ In k FINALIZATION_KEYS ->
  dict_get k (final_dict raw_languages)
  = dict_get k (language_dict (second_pass raw_languages)).
Proof.
  intro Hk. rewrite not_gradle_key_final.
  - apply fold_accumulators_other, Hk.
  - intro Hin. apply Hk. simpl in *. tauto.
Qed.

Lemma dict_get_In_values {V : Type} (k : string) (v : V) (d : dict V) :
  dict_get k d = Some v -> In v (dict_values d).
Proof.
  induction d as [|[k' v'] d IH]; simpl; [discriminate|].
  destruct (String.eqb k k').
  - intro H. injection H as ->. left. reflexivity.
  - intro H. right. apply IH, H.
Qed.






(** The keys of the working map stay unique, as those of a dictionary. *)
Lemma second_pass_NoDup (raw_languages : list Lang) :
  NoDup (dict_keys (language_dict (second_pass raw_languages))).
Proof.
  unfold second_pass.
  apply (fold_left_invariant classify
           (fun _ st => NoDup (dict_keys (language_dict st)))).
  - constructor.
  - intros _ x st _ IH.
    classify_cases; simpl; try exact IH; apply accumulate_NoDup, IH.
Qed.

Lemma final_dict_NoDup (raw_languages : list Lang) :
  NoDup (dict_keys (final_dict raw_languages)).
Proof.
  unfold final_dict, finalize, distribute_gradle.
  assert (H : NoDup (dict_keys (fold_accumulators (second_pass raw_languages)))).
  { unfold fold_accumulators, add_summary, merge_into.
    repeat match goal with
           | |- context [if gt0 ?a then _ else _] => destruct (gt0 a)
           end;
      repeat first [ apply dict_set_NoDup | apply accumulate_NoDup ];
      apply second_pass_NoDup. }
  destruct (gt0 (gradle_seconds (second_pass raw_languages))); [|exact H].
  revert H. generalize (fold_accumulators (second_pass raw_languages)).
  induction (gradle_shares raw_languages) as [|[k r] gd IH]; intros d H; simpl.
  - exact H.
  - apply IH, accumulate_NoDup, H.
Qed.

(** Every bucket of the final map is returned, with its percentage. *)
Lemma bucket_returned (raw_languages : list Lang) (k : string) (b : Lang) :
  dict_get k (final_dict raw_languages) = Some b ->
  In (to_processed (retained_total (final_dict raw_languages)) b)
     (processed raw_languages).
Proof.
  intro H. unfold processed.
  eapply Permutation_in; [apply sort_desc_Permutation|].
  apply in_map, (dict_get_In_values k), H.
Qed.

(* ================================================================== *)
(** ** The claims *)




(** An accumulator that is not positive is not folded in: a negative
    duration, which the data model excludes, is lost as well. *)
Lemma conservation_needs_nonneg :
  Forall not_discarded [ mkLang "cmake" (of_Z (-5)) ]
  /\ process_language_data [ mkLang "cmake" (of_Z (-5)) ] = Ok []
  /\ sum (map out_total_seconds []) <> input_total [ mkLang "cmake" (of_Z (-5)) ].
Proof.
  split; [repeat constructor|].
  split.
  - apply returns_by_computation. vm_compute. reflexivity.
  - apply Qc_neq_by_computation. vm_compute. reflexivity.
Qed.



(** C3.  Gradle proportional split.  On the input
    [{"java", 300}, {"kotlin", 100}, {"gradle", 200}] the first pass computes
    the shares 0.75 for java and 0.25 for kotlin, the retained total is 600,
    and the function returns the Java bucket with 450 seconds and 75 percent
    followed by the Kotlin bucket with 150 seconds and 25 percent.  Both
    buckets are displayed with the casing of their raw label. *)
Theorem gradle_proportional_split :
  (exists gd,
      gradle_distribution
        [ mkLang "java" (of_Z 300); mkLang "kotlin" (of_Z 100);
          mkLang "gradle" (of_Z 200) ] = Ok gd
      /\ dict_keys gd = [ "java"; "kotlin" ]
      /\ dict_get "java" gd = Some (Q2Qc (75 # 100))
      /\ dict_get "kotlin" gd = Some (Q2Qc (25 # 100)))
  /\ retained_total
       (final_dict [ mkLang "java" (of_Z 300); mkLang "kotlin" (of_Z 100);
                     mkLang "gradle" (of_Z 200) ]) = of_Z 600
  /\ process_language_data
       [ mkLang "java" (of_Z 300); mkLang "kotlin" (of_Z 100);
         mkLang "gradle" (of_Z 200) ]
     = Ok [ mkProcessed "java" (of_Z 450) (of_Z 75);
            mkProcessed "kotlin" (of_Z 150) (of_Z 25) ].
Proof.
  split; [|split].
  - eexists. split; [apply gradle_distribution_ok|].
    split; [vm_compute; reflexivity|].
    split; vm_compute; f_equal; apply Qc_is_canon; reflexivity.
  - apply Qc_is_canon. vm_compute. reflexivity.
  - apply returns_by_computation. vm_compute. reflexivity.
Qed.

(** C4.  Synthetic buckets never merge.  Whatever the bucket map holds
    before, folding the accumulators stores, for each of the frontend, shell
    and shader accumulators that is positive, a bucket with the display name
    "Frontend Langs" (resp. "Shell Langs", "Shader Langs") under the key
    "frontend" (resp. "shell", "shader") whose duration is exactly the
    accumulator; and for every raw input that bucket is what the final map
    holds under the key. *)
Theorem synthetic_buckets_never_merge :
  (forall st : State,
      ((0 < frontend_seconds st)%Qc ->
       dict_get "frontend" (fold_accumulators st)
       = Some (mkLang "Frontend Langs" (frontend_seconds st)))
      /\ ((0 < shell_seconds st)%Qc ->
          dict_get "shell" (fold_accumulators st)
          = Some (mkLang "Shell Langs" (shell_seconds st)))
      /\ ((0 < shader_seconds st)%Qc ->
          dict_get "shader" (fold_accumulators st)
          = Some (mkLang "Shader Langs" (shader_seconds st))))
  /\ (forall raw_languages : list Lang,
         let st := second_pass raw_languages in
         ((0 < frontend_seconds st)%Qc ->
          dict_get "frontend" (final_dict raw_languages)
          = Some (mkLang "Frontend Langs" (frontend_seconds st)))
         /\ ((0 < shell_seconds st)%Qc ->
             dict_get "shell" (final_dict raw_languages)
             = Some (mkLang "Shell Langs" (shell_seconds st)))
         /\ ((0 < shader_seconds st)%Qc ->
             dict_get "shader" (final_dict raw_languages)
             = Some (mkLang "Shader Langs" (shader_seconds st)))).
Proof.
  split.
  - intro st. split; [|split].
    + apply fold_accumulators_frontend.
    + apply fold_accumulators_shell.
    + apply fold_accumulators_shader.
  - intros raw_languages st. subst st.
    assert (Hng : forall k, In k ["frontend"; "shell"; "shader"] ->
                            ~ In k GRADLE_TARGET_LANGUAGES).
    { intros k Hk Hin. simpl in Hk, Hin.
      repeat match goal with
             | H : _ \/ _ |- _ => destruct H
             | H : False |- _ => destruct H
             end; subst; discriminate. }
    split; [|split]; intro H; rewrite not_gradle_key_final by (apply Hng; simpl; auto).
    + apply fold_accumulators_frontend, H.
    + apply fold_accumulators_shell, H.
    + apply fold_accumulators_shader, H.
Qed.

(** C4, witness: the default rule made a bucket for the raw label
    "Frontend"; the summary replaces it. *)
Lemma synthetic_buckets_never_merge_witness :
  (exists b,
      dict_get "frontend" (language_dict (second_pass frontend_collision))
      = Some b
      /\ name b = "Frontend" /\ total_seconds b = of_Z 10)
  /\ frontend_seconds (second_pass frontend_collision) = of_Z 5
  /\ (0 < frontend_seconds (second_pass frontend_collision))%Qc
  /\ dict_get "frontend" (final_dict frontend_collision)
     = Some (mkLang "Frontend Langs"
                    (frontend_seconds (second_pass frontend_collision))).
Proof.
  split.
  { eexists. split; [reflexivity|]. split; [reflexivity|].
    apply Qc_is_canon. reflexivity. }
  split; [apply Qc_is_canon; reflexivity|].
  assert (H : (0 < frontend_seconds (second_pass frontend_collision))%Qc)
    by reflexivity.
  split; [exact H|].
  exact (proj1 (proj2 synthetic_buckets_never_merge frontend_collision) H).
Defined.

(** C5 (as amended).  Aggregate grouping.  On the input
    [{"javascript", 50}, {"css", 50}, {"python", 100}] the function returns
    exactly two entries, {"python", 100, 50} and {"Frontend Langs", 100, 50}:
    the default rule keeps the casing of the raw label.  The entry is
    displayed "Python" when the raw label is spelled "Python". *)
Theorem aggregate_grouping :
  process_language_data
    [ mkLang "javascript" (of_Z 50); mkLang "css" (of_Z 50);
      mkLang "python" (of_Z 100) ]
  = Ok [ mkProcessed "python" (of_Z 100) (of_Z 50);
         mkProcessed "Frontend Langs" (of_Z 100) (of_Z 50) ]
  /\ process_language_data
       [ mkLang "javascript" (of_Z 50); mkLang "css" (of_Z 50);
         mkLang "Python" (of_Z 100) ]
     = Ok [ mkProcessed "Python" (of_Z 100) (of_Z 50);
            mkProcessed "Frontend Langs" (of_Z 100) (of_Z 50) ].
Proof.
  split; apply returns_by_computation; vm_compute; reflexivity.
Qed.

(** C5 as stated fails: the returned list has no entry
    {"Python", 100, 50}. *)
Lemma aggregate_grouping_counterexample :
  process_language_data
    [ mkLang "javascript" (of_Z 50); mkLang "css" (of_Z 50);
      mkLang "python" (of_Z 100) ]
  = Ok [ mkProcessed "python" (of_Z 100) (of_Z 50);
         mkProcessed "Frontend Langs" (of_Z 100) (of_Z 50) ]
  /\ ~ In (mkProcessed "Python" (of_Z 100) (of_Z 50))
          [ mkProcessed "python" (of_Z 100) (of_Z 50);
            mkProcessed "Frontend Langs" (of_Z 100) (of_Z 50) ].
Proof.
  split.
  - apply returns_by_computation. vm_compute. reflexivity.
  - intros [H|[H|[]]]; discriminate H.
Qed.

(** C6.  Gradle fallback.  On the input [{"gradle", 100}] the distribution
    is the fallback (java: 1), no Java bucket exists before the Gradle time
    is distributed, and the function returns exactly one entry,
    {"Java", 100, 100}. *)
Theorem gradle_fallback :
  gradle_distribution [ mkLang "gradle" (of_Z 100) ] = Ok [ ("java", 1%Qc) ]
  /\ dict_get "java"
       (fold_accumulators (second_pass [ mkLang "gradle" (of_Z 100) ])) = None
  /\ process_language_data [ mkLang "gradle" (of_Z 100) ]
     = Ok [ mkProcessed "Java" (of_Z 100) (of_Z 100) ].
Proof.
  split; [reflexivity|]. split; [reflexivity|].
  apply returns_by_computation. vm_compute. reflexivity.
Qed.





(** C9.  Totality on empty input.  The function returns the empty list on
    the empty input, whose retained total is 0; dividing by a retained total
    of 0 would raise, and the percent expression returns 0 without dividing
    in that case; no raw input makes the function raise. *)
Theorem empty_input :
  process_language_data [] = Ok []
  /\ retained_total (final_dict []) = 0%Qc
  /\ (forall seconds, py_div seconds 0%Qc = ZeroDivisionError)
  /\ (forall seconds, percent_of seconds 0%Qc = Ok 0%Qc)
  /\ (forall raw_languages,
         exists out, process_language_data raw_languages = Ok out).
Proof.
  split; [reflexivity|]. split; [reflexivity|].
  split; [exact py_div_zero|]. split.
  - intro seconds. reflexivity.
  - intro raw_languages. eexists. apply process_language_data_ok.
Qed.

(** C10.  First-pass duplicates.  For a Gradle target language [k] (java,
    kotlin or groovy): the first pass records the duration of the last entry
    labelled [k]; when the recorded durations sum to a positive total, the
    share of [k] is that duration over the total; changing the duration of an
    entry labelled [k] that is followed by another such entry does not change
    the distribution; and the second pass leaves under [k] the sum of the
    durations of all the entries labelled [k]. *)
Theorem gradle_share_from_last_occurrence
        (raw_languages : list Lang) (k : string) :
  mem k GRADLE_TARGET_LANGUAGES = true ->
  dict_get k (gradle_target_seconds raw_languages)
  = option_map total_seconds (last_occurrence k raw_languages)
  /\ ((0 < total_gradle_target raw_languages)%Qc ->
      exists gd,
        gradle_distribution raw_languages = Ok gd
        /\ dict_get k gd
           = option_map
               (fun last =>
                  (total_seconds last / total_gradle_target raw_languages)%Qc)
               (last_occurrence k raw_languages))
  /\ (forall l1 e e' l2,
         raw_languages = l1 ++ e :: l2 ->
         name e' = name e -> has_label k e = true ->
         Exists (fun lang => has_label k lang = true) l2 ->
         gradle_distribution (l1 ++ e' :: l2)
         = gradle_distribution raw_languages)
  /\ dict_get k (language_dict (second_pass raw_languages))
     = option_map
         (fun first =>
            mkLang (name first)
                   (sum (map total_seconds (occurrences k raw_languages))))
         (first_occurrence k raw_languages).
Proof.
  intro Hk. split; [|split; [|split]].
  - apply gradle_target_seconds_last, Hk.
  - intro Hpos. exists (gradle_shares raw_languages).
    split; [apply gradle_distribution_ok|].
    apply gradle_shares_last; assumption.
  - intros l1 e e' l2 -> Hname He Hex. unfold gradle_distribution.
    rewrite (gradle_target_seconds_overwritten k l1 l2 e e'); auto.
  - destruct (gradle_target_is_default_case k Hk) as [Hd Hc].
    apply second_pass_default_bucket; assumption.
Qed.

(** C10, witness: Java occurs twice, with 10 and then 30 seconds. *)
Lemma gradle_share_from_last_occurrence_witness :
  mem "java" GRADLE_TARGET_LANGUAGES = true
  /\ last_occurrence "java" java_twice = Some (mkLang "java" (of_Z 30))
  /\ dict_get "java" (gradle_target_seconds java_twice)
     = option_map total_seconds (last_occurrence "java" java_twice)
  /\ dict_get "java" (language_dict (second_pass java_twice))
     = option_map
         (fun first =>
            mkLang (name first)
                   (sum (map total_seconds (occurrences "java" java_twice))))
         (first_occurrence "java" java_twice).
Proof.
  split; [reflexivity|].
  split; [reflexivity|].
  pose proof (gradle_share_from_last_occurrence java_twice "java" eq_refl)
    as (H1 & _ & _ & H4).
  split; [exact H1|exact H4].
Defined.

(** The same input, evaluated: the share of Java is 30/40, not 40/50, and
    its bucket starts from 40 seconds. *)
Example java_twice_output :
  dict_get "java" (gradle_shares java_twice) = Some (Q2Qc (3 # 4))
  /\ dict_get "kotlin" (gradle_shares java_twice) = Some (Q2Qc (1 # 4))
  /\ process_language_data java_twice
     = Ok [ mkProcessed "Java" (of_Z 46) (of_Z 46 / of_Z 58 * of_Z 100)%Qc;
            mkProcessed "kotlin" (of_Z 12) (of_Z 12 / of_Z 58 * of_Z 100)%Qc ].
Proof.
  split; [|split].
  - vm_compute. f_equal. apply Qc_is_canon. reflexivity.
  - vm_compute. f_equal. apply Qc_is_canon. reflexivity.
  - apply returns_by_computation. vm_compute. reflexivity.
Qed.

(* ================================================================== *)
(** ** Further properties of [process_language_data] *)

Lemma mem_disjoint (k : string) (S T : list string) :
  mem k S = true -> disjoint S T = true -> mem k T = false.
Proof.
  intros HS HD. apply mem_In in HS.
  unfold disjoint in HD. rewrite forallb_forall in HD.
  apply negb_true_iff, HD, HS.
Qed.

Lemma fold_left_filter_skip {A S : Type} (f : S -> A -> S) (p : A -> bool)
      (l : list A) :
  (forall s x, p x = false -> f s x = s) ->
  forall s, fold_left f (filter p l) s = fold_left f l s.
Proof.
  intros Hskip. induction l as [|x l IH]; intro s; simpl; [reflexivity|].
  destruct (p x) eqn:E; simpl.
  - apply IH.
  - rewrite (Hskip s x E). apply IH.
Qed.

Lemma record_gradle_target_discarded (gts : dict Qc) (lang : Lang) :
  kept lang = false -> record_gradle_target gts lang = gts.
Proof.
  unfold kept, in_set. intro H. apply negb_false_iff in H.
  unfold record_gradle_target.
  rewrite (mem_disjoint _ _ GRADLE_TARGET_LANGUAGES H) by reflexivity.
  reflexivity.
Qed.

Lemma classify_not_kept (st : State) (lang : Lang) :
  kept lang = false -> classify st lang = st.
Proof.
  unfold kept, in_set. intro H. apply negb_false_iff in H.
  apply classify_discarded, H.
Qed.

(** X1.  Discard.  The entries whose lowercased label is in the discard set
    have no influence at all: the function returns the same list, with the
    same durations, percents and order, when they are removed from the
    input, and so when one of them is inserted anywhere. *)
Theorem discarded_entries_are_transparent :
  (forall raw_languages : list Lang,
      process_language_data (filter kept raw_languages)
      = process_language_data raw_languages)
  /\ (forall (l1 l2 : list Lang) (lang : Lang),
         mem (lower (name lang)) MEANINGLESS_LANGUAGES = true ->
         process_language_data (l1 ++ lang :: l2)
         = process_language_data (l1 ++ l2)).
Proof.
  assert (H : forall raw_languages : list Lang,
             process_language_data (filter kept raw_languages)
             = process_language_data raw_languages).
  { intro raw_languages.
    unfold process_language_data, gradle_distribution, gradle_target_seconds,
      second_pass.
    rewrite (fold_left_filter_skip record_gradle_target kept)
      by (intros; apply record_gradle_target_discarded; assumption).
    rewrite (fold_left_filter_skip classify kept)
      by (intros; apply classify_not_kept; assumption).
    reflexivity. }
  split; [exact H|].
  intros l1 l2 lang Hd.
  rewrite <- (H (l1 ++ lang :: l2)), <- (H (l1 ++ l2)).
  rewrite !filter_app. simpl. unfold kept at 2, in_set. rewrite Hd. reflexivity.
Qed.

(** X1, witness: a log file between two languages. *)
Lemma discarded_entries_are_transparent_witness :
  mem (lower (name (mkLang "Log" (of_Z 500)))) MEANINGLESS_LANGUAGES = true
  /\ process_language_data
       ([ mkLang "Rust" (of_Z 10) ] ++ mkLang "Log" (of_Z 500)
          :: [ mkLang "Go" (of_Z 30) ])
     = process_language_data ([ mkLang "Rust" (of_Z 10) ] ++ [ mkLang "Go" (of_Z 30) ]).
Proof.
  split; [reflexivity|].
  exact (proj2 discarded_entries_are_transparent
               [ mkLang "Rust" (of_Z 10) ] [ mkLang "Go" (of_Z 30) ]
               (mkLang "Log" (of_Z 500)) eq_refl).
Defined.

Lemma seconds_in_snoc (S : list string) (pre : list Lang) (x : Lang) :
  seconds_in S (pre ++ [x])
  = (seconds_in S pre
     + if mem (lower (name x)) S then total_seconds x else 0)%Qc.
Proof.
  unfold seconds_in, in_set. rewrite filter_app, map_app, sum_app. simpl.
  destruct (mem (lower (name x)) S); simpl; rewrite ?sum_cons, sum_nil; ring.
Qed.

(** Rewrites, with a membership [E] that holds, the memberships in the
    other rule sets: the sets are pairwise disjoint. *)
Ltac other_sets E :=
  repeat match goal with
         | |- context [mem ?n ?T] =>
             rewrite (mem_disjoint n _ T E) by (vm_compute; reflexivity)
         end.

(** The accumulators after the second pass. *)
Lemma second_pass_accumulators (raw_languages : list Lang) :
  let st := second_pass raw_languages in
  cmake_seconds st = seconds_in CMAKE_LANGUAGES raw_languages
  /\ jupyter_seconds st = seconds_in JUPYTER_LANGUAGES raw_languages
  /\ java_related_seconds st = seconds_in JAVA_RELATED raw_languages
  /\ gradle_seconds st = seconds_in GRADLE_LABELS raw_languages
  /\ frontend_seconds st = seconds_in FRONTEND_LANGUAGES raw_languages
  /\ shell_seconds st = seconds_in SHELL_LANGUAGES raw_languages
  /\ shader_seconds st = seconds_in SHADER_LANGUAGES raw_languages.
Proof.
  unfold second_pass.
  apply (fold_left_invariant classify
           (fun pre st =>
              cmake_seconds st = seconds_in CMAKE_LANGUAGES pre
              /\ jupyter_seconds st = seconds_in JUPYTER_LANGUAGES pre
              /\ java_related_seconds st = seconds_in JAVA_RELATED pre
              /\ gradle_seconds st = seconds_in GRADLE_LABELS pre
              /\ frontend_seconds st = seconds_in FRONTEND_LANGUAGES pre
              /\ shell_seconds st = seconds_in SHELL_LANGUAGES pre
              /\ shader_seconds st = seconds_in SHADER_LANGUAGES pre)).
  - repeat split.
  - intros pre x st _ (H1 & H2 & H3 & H4 & H5 & H6 & H7).
    rewrite !seconds_in_snoc, <- H1, <- H2, <- H3, <- H4, <- H5, <- H6, <- H7.
    clear H1 H2 H3 H4 H5 H6 H7.
    unfold classify. set (n := lower (name x)).
    destruct (mem n MEANINGLESS_LANGUAGES) eqn:E0;
      [other_sets E0; simpl; repeat split; ring|].
    destruct (mem n CMAKE_LANGUAGES) eqn:E1;
      [other_sets E1; simpl; repeat split; ring|].
    destruct (mem n JUPYTER_LANGUAGES) eqn:E2;
      [other_sets E2; simpl; repeat split; ring|].
    destruct (mem n JAVA_RELATED) eqn:E3;
      [other_sets E3; simpl; repeat split; ring|].
    destruct (mem n GRADLE_LABELS) eqn:E4;
      [other_sets E4; simpl; repeat split; ring|].
    destruct (mem n FRONTEND_LANGUAGES) eqn:E5;
      [other_sets E5; simpl; repeat split; ring|].
    destruct (mem n SHELL_LANGUAGES) eqn:E6;
      [other_sets E6; simpl; repeat split; ring|].
    destruct (mem n SHADER_LANGUAGES) eqn:E7;
      [simpl; repeat split; ring|].
    destruct (mem n OBJC_LABELS), (mem n C_CPP_LABELS);
      simpl; repeat split; ring.
Qed.

(** X2.  Accumulators.  When the second pass ends, each of the seven
    accumulators holds the seconds of exactly the entries whose lowercased
    label is in its own rule set: the rule sets of the chain are pairwise
    disjoint, so the order in which the chain tests them never decides. *)
Theorem accumulators_by_set (raw_languages : list Lang) :
  let st := second_pass raw_languages in
  (cmake_seconds st = seconds_in CMAKE_LANGUAGES raw_languages
   /\ jupyter_seconds st = seconds_in JUPYTER_LANGUAGES raw_languages
   /\ java_related_seconds st = seconds_in JAVA_RELATED raw_languages
   /\ gradle_seconds st = seconds_in GRADLE_LABELS raw_languages
   /\ frontend_seconds st = seconds_in FRONTEND_LANGUAGES raw_languages
   /\ shell_seconds st = seconds_in SHELL_LANGUAGES raw_languages
   /\ shader_seconds st = seconds_in SHADER_LANGUAGES raw_languages)
  /\ ForallOrdPairs (fun S T => disjoint S T = true /\ disjoint T S = true)
       [ MEANINGLESS_LANGUAGES; CMAKE_LANGUAGES; JUPYTER_LANGUAGES;
         JAVA_RELATED; GRADLE_LABELS; FRONTEND_LANGUAGES; SHELL_LANGUAGES;
         SHADER_LANGUAGES; OBJC_LABELS; C_CPP_LABELS ].
Proof.
  cbn zeta. split; [exact (second_pass_accumulators raw_languages)|].
  repeat first [ apply FOP_nil
               | apply FOP_cons
               | apply Forall_nil
               | apply Forall_cons
               | split; vm_compute; reflexivity ].
Qed.

Lemma second_pass_bucket (k : string) (hits : Lang -> bool)
      (display : Lang -> string) :
  step_on_key k hits display ->
  forall raw_languages,
    dict_get k (language_dict (second_pass raw_languages))
    = bucket_of hits display raw_languages.
Proof.
  intros Hstep raw_languages. unfold second_pass, bucket_of.
  apply (fold_left_invariant classify
           (fun pre st =>
              dict_get k (language_dict st)
              = option_map
                  (fun first =>
                     mkLang (display first)
                            (sum (map total_seconds (filter hits pre))))
                  (find hits pre))).
  - reflexivity.
  - intros pre x st _ IH. rewrite Hstep, IH, find_app_first, filter_app. simpl.
    destruct (hits x) eqn:E.
    + destruct (find hits pre) as [first|] eqn:F; simpl.
      * f_equal. f_equal. rewrite map_app, sum_app. simpl.
        rewrite sum_cons, sum_nil. ring.
      * rewrite (find_None_filter _ _ F). simpl.
        rewrite sum_cons, sum_nil. f_equal. f_equal. ring.
    + rewrite app_nil_r. destruct (find hits pre); reflexivity.
Qed.

Lemma mem_neq (n k : string) (S : list string) :
  mem n S = true -> mem k S = false -> n <> k.
Proof. intros Hn Hk ->. congruence. Qed.

Lemma classify_objc_step :
  step_on_key "objective-c" (in_set OBJC_LABELS) (fun _ => "Objective-C").
Proof.
  intros st x. unfold in_set, classify. set (n := lower (name x)).
  destruct (mem n MEANINGLESS_LANGUAGES) eqn:E0; [other_sets E0; reflexivity|].
  destruct (mem n CMAKE_LANGUAGES) eqn:E1; [other_sets E1; reflexivity|].
  destruct (mem n JUPYTER_LANGUAGES) eqn:E2; [other_sets E2; reflexivity|].
  destruct (mem n JAVA_RELATED) eqn:E3; [other_sets E3; reflexivity|].
  destruct (mem n GRADLE_LABELS) eqn:E4; [other_sets E4; reflexivity|].
  destruct (mem n FRONTEND_LANGUAGES) eqn:E5; [other_sets E5; reflexivity|].
  destruct (mem n SHELL_LANGUAGES) eqn:E6; [other_sets E6; reflexivity|].
  destruct (mem n SHADER_LANGUAGES) eqn:E7; [other_sets E7; reflexivity|].
  destruct (mem n OBJC_LABELS) eqn:E8.
  - cbn [language_dict set_language_dict]. apply dict_get_accumulate_same.
  - destruct (mem n C_CPP_LABELS); cbn [language_dict set_language_dict].
    + apply dict_get_accumulate_other. discriminate.
    + apply dict_get_accumulate_other. intro H. rewrite <- H in E8. discriminate.
Qed.

Lemma classify_c_step : step_on_key "c" goes_to_c c_display.
Proof.
  intros st x. unfold goes_to_c, c_display, has_label, in_set, classify.
  set (n := lower (name x)).
  assert (Hc : forall S, mem n S = true -> mem "c" S = false ->
                         String.eqb n "c" = false).
  { intros S Hn Hk. apply String.eqb_neq. exact (mem_neq n "c" S Hn Hk). }
  destruct (mem n MEANINGLESS_LANGUAGES) eqn:E0;
    [other_sets E0; rewrite (Hc _ E0 eq_refl); reflexivity|].
  destruct (mem n CMAKE_LANGUAGES) eqn:E1;
    [other_sets E1; rewrite (Hc _ E1 eq_refl); reflexivity|].
  destruct (mem n JUPYTER_LANGUAGES) eqn:E2;
    [other_sets E2; rewrite (Hc _ E2 eq_refl); reflexivity|].
  destruct (mem n JAVA_RELATED) eqn:E3;
    [other_sets E3; rewrite (Hc _ E3 eq_refl); reflexivity|].
  destruct (mem n GRADLE_LABELS) eqn:E4;
    [other_sets E4; rewrite (Hc _ E4 eq_refl); reflexivity|].
  destruct (mem n FRONTEND_LANGUAGES) eqn:E5;
    [other_sets E5; rewrite (Hc _ E5 eq_refl); reflexivity|].
  destruct (mem n SHELL_LANGUAGES) eqn:E6;
    [other_sets E6; rewrite (Hc _ E6 eq_refl); reflexivity|].
  destruct (mem n SHADER_LANGUAGES) eqn:E7;
    [other_sets E7; rewrite (Hc _ E7 eq_refl); reflexivity|].
  destruct (mem n OBJC_LABELS) eqn:E8.
  - other_sets E8. rewrite (Hc _ E8 eq_refl).
    cbn [language_dict set_language_dict orb].
    apply dict_get_accumulate_other. discriminate.
  - destruct (mem n C_CPP_LABELS) eqn:E9;
      cbn [language_dict set_language_dict orb].
    + apply dict_get_accumulate_same.
    + destruct (String.eqb n "c") eqn:En.
      * apply String.eqb_eq in En. rewrite En. apply dict_get_accumulate_same.
      * apply String.eqb_neq in En. apply dict_get_accumulate_other. congruence.
Qed.

(** A bucket of the final map, as the returned list shows it. *)
Lemma final_bucket_returned (raw_languages : list Lang) (k : string) (b : Lang) :
  dict_get k (final_dict raw_languages) = Some b ->
  exists out,
    process_language_data raw_languages = Ok out
    /\ In (mkProcessed (name b) (total_seconds b)
             (percent_value (total_seconds b)
                (retained_total (final_dict raw_languages))))
          out.
Proof.
  intro H. exists (processed raw_languages).
  split; [apply process_language_data_ok|].
  apply (bucket_returned raw_languages k b H).
Qed.

(** X3.  Canonical spellings.  The four spellings of Objective-C share one
    bucket, displayed "Objective-C", that holds the seconds of all of them;
    the joint labels "c/c++", "c/c", "c++/c" and the label "c" share one
    bucket, displayed "C" when a joint label comes first and with the raw
    casing of "c" otherwise, that holds the seconds of all of them.  Nothing
    else is added to these two buckets, which are returned as they are. *)
Theorem canonical_buckets (raw_languages : list Lang) :
  dict_get "objective-c" (final_dict raw_languages)
  = bucket_of (in_set OBJC_LABELS) (fun _ => "Objective-C") raw_languages
  /\ dict_get "c" (final_dict raw_languages)
     = bucket_of goes_to_c c_display raw_languages
  /\ (forall k b,
         In k [ "objective-c"; "c" ] ->
         dict_get k (final_dict raw_languages) = Some b ->
         exists out,
           process_language_data raw_languages = Ok out
           /\ In (mkProcessed (name b) (total_seconds b)
                    (percent_value (total_seconds b)
                       (retained_total (final_dict raw_languages))))
                 out).
Proof.
  split; [|split].
  - rewrite final_dict_other
      by (simpl; intro H; repeat destruct H as [H|H]; discriminate || exact H).
    apply second_pass_bucket, classify_objc_step.
  - rewrite final_dict_other
      by (simpl; intro H; repeat destruct H as [H|H]; discriminate || exact H).
    apply second_pass_bucket, classify_c_step.
  - intros k b _ H. apply (final_bucket_returned raw_languages k b H).
Qed.

(** X3, evaluated: the example of the canonicalization rule. *)
Example canonical_buckets_example :
  process_language_data
    [ mkLang "Objective-C" (of_Z 10); mkLang "objc" (of_Z 20) ]
  = Ok [ mkProcessed "Objective-C" (of_Z 30) (of_Z 100) ].
Proof. apply returns_by_computation. vm_compute. reflexivity. Qed.

Lemma dict_get_merge_into_same (k display : string) (acc : Qc) (d : dict Lang) :
  dict_get k (merge_into k display acc d)
  = merged_bucket (dict_get k d) display acc.
Proof.
  unfold merge_into, merged_bucket. destruct (gt0 acc); [|reflexivity].
  apply dict_get_accumulate_same.
Qed.

Lemma has_label_bucket (raw_languages : list Lang) (k : string) :
  is_default_case k = true -> k <> "c" ->
  dict_get k (language_dict (second_pass raw_languages))
  = bucket_of (has_label k) name raw_languages.
Proof. intros Hd Hc. apply second_pass_default_bucket; assumption. Qed.

(** X4.  Merge targets.  The build-tooling seconds, when positive, are added
    to the bucket of the label "c++", which keeps its first-seen casing and
    is created with the display name "C++" when no entry is labelled so; the
    notebook seconds go the same way to "python" / "Python", and the
    Java-auxiliary seconds to "java" / "Java" (before the Gradle time is
    distributed).  An accumulator that is not positive leaves the bucket as
    the second pass made it. *)
Theorem merge_targets (raw_languages : list Lang) :
  dict_get "c++" (final_dict raw_languages)
  = merged_bucket (bucket_of (has_label "c++") name raw_languages)
                  "C++" (seconds_in CMAKE_LANGUAGES raw_languages)
  /\ dict_get "python" (final_dict raw_languages)
     = merged_bucket (bucket_of (has_label "python") name raw_languages)
                     "Python" (seconds_in JUPYTER_LANGUAGES raw_languages)
  /\ dict_get "java" (fold_accumulators (second_pass raw_languages))
     = merged_bucket (bucket_of (has_label "java") name raw_languages)
                     "Java" (seconds_in JAVA_RELATED raw_languages).
Proof.
  destruct (second_pass_accumulators raw_languages)
    as (Hcmake & Hjupyter & Hjava & _).
  split; [|split].
  - rewrite not_gradle_key_final
      by (simpl; intro H; repeat destruct H as [H|H]; discriminate || exact H).
    unfold fold_accumulators.
    rewrite !dict_get_add_summary_other, !dict_get_merge_into_other
      by discriminate.
    rewrite dict_get_merge_into_same, Hcmake.
    rewrite has_label_bucket by (reflexivity || discriminate). reflexivity.
  - rewrite not_gradle_key_final
      by (simpl; intro H; repeat destruct H as [H|H]; discriminate || exact H).
    unfold fold_accumulators.
    rewrite !dict_get_add_summary_other, !dict_get_merge_into_other
      by discriminate.
    rewrite dict_get_merge_into_same, Hjupyter.
    rewrite dict_get_merge_into_other by discriminate.
    rewrite has_label_bucket by (reflexivity || discriminate). reflexivity.
  - unfold fold_accumulators.
    rewrite !dict_get_add_summary_other by discriminate.
    rewrite dict_get_merge_into_same, Hjava.
    rewrite !dict_get_merge_into_other by discriminate.
    rewrite has_label_bucket by (reflexivity || discriminate). reflexivity.
Qed.

(** X4, evaluated: CMake time joins an existing bucket, notebook time makes
    a new one. *)
Example merge_targets_example :
  process_language_data
    [ mkLang "cmake" (of_Z 10); mkLang "c++" (of_Z 30);
      mkLang "Jupyter" (of_Z 60) ]
  = Ok [ mkProcessed "Python" (of_Z 60) (of_Z 60);
         mkProcessed "c++" (of_Z 40) (of_Z 40) ].
Proof. apply returns_by_computation. vm_compute. reflexivity. Qed.

Lemma gradle_shares_NoDup (raw_languages : list Lang) :
  NoDup (dict_keys (gradle_shares raw_languages)).
Proof.
  unfold gradle_shares.
  destruct (gt0 (sum (dict_values (gradle_target_seconds raw_languages)))).
  - rewrite shares_of_map by apply gradle_target_seconds_NoDup.
    unfold dict_keys. rewrite map_map. simpl.
    apply gradle_target_seconds_NoDup.
  - simpl. constructor; [intros []|constructor].
Qed.

Lemma distribute_loop_lookup (gradle : Qc) (gd : dict Qc) (k : string) :
  NoDup (dict_keys gd) ->
  forall d : dict Lang,
    dict_get k
      (fold_left
         (fun (d : dict Lang) (item : string * Qc) =>
            let '(lang_key, ratio) := item in
            accumulate lang_key (capitalize lang_key) (gradle * ratio)%Qc d)
         gd d)
    = match dict_get k gd with
      | Some r =>
          Some (match dict_get k d with
                | Some b => mkLang (name b) (total_seconds b + gradle * r)%Qc
                | None => mkLang (capitalize k) (0 + gradle * r)%Qc
                end)
      | None => dict_get k d
      end.
Proof.
  induction gd as [|[k' r'] gd IH]; intros Hnd d; simpl; [reflexivity|].
  simpl in Hnd. apply NoDup_cons_iff in Hnd. destruct Hnd as [Hk' Hnd].
  rewrite (IH Hnd). destruct (String.eqb k k') eqn:E.
  - apply String.eqb_eq in E. subst k'.
    apply dict_get_None_keys in Hk'. rewrite Hk'.
    apply dict_get_accumulate_same.
  - apply String.eqb_neq in E.
    rewrite dict_get_accumulate_other by exact E. reflexivity.
Qed.

(** X5.  Gradle redistribution.  When the build-orchestrator seconds are
    positive, every language of the distribution receives exactly its share
    of them: the seconds times its ratio are added to its bucket, which is
    created with the capitalized key as display name when it does not exist.
    The buckets of the other keys are left as they are, and so is every
    bucket when the build-orchestrator seconds are not positive. *)
Theorem gradle_time_is_split (raw_languages : list Lang) (k : string) :
  let st := second_pass raw_languages in
  ((0 < gradle_seconds st)%Qc ->
   dict_get k (final_dict raw_languages)
   = match dict_get k (gradle_shares raw_languages) with
     | Some r =>
         Some (match dict_get k (fold_accumulators st) with
               | Some b =>
                   mkLang (name b) (total_seconds b + gradle_seconds st * r)%Qc
               | None =>
                   mkLang (capitalize k) (0 + gradle_seconds st * r)%Qc
               end)
     | None => dict_get k (fold_accumulators st)
     end)
  /\ ((gradle_seconds st <= 0)%Qc ->
      final_dict raw_languages = fold_accumulators st).
Proof.
  intro st. subst st. split; intro H.
  - apply gt0_true in H. unfold final_dict, finalize, distribute_gradle.
    rewrite H. apply distribute_loop_lookup, gradle_shares_NoDup.
  - apply gt0_false in H. unfold final_dict, finalize, distribute_gradle.
    rewrite H. reflexivity.
Qed.

(** X5, witness: 8 seconds of Gradle, three quarters of them for Java, whose
    bucket holds 40 seconds. *)
Lemma gradle_time_is_split_witness :
  (0 < gradle_seconds (second_pass java_twice))%Qc
  /\ gradle_seconds (second_pass java_twice) = of_Z 8
  /\ dict_get "java" (gradle_shares java_twice) = Some (Q2Qc (3 # 4))
  /\ exists b,
       dict_get "java" (final_dict java_twice) = Some b
       /\ name b = "Java" /\ total_seconds b = of_Z 46.
Proof.
  assert (H : (0 < gradle_seconds (second_pass java_twice))%Qc) by reflexivity.
  split; [exact H|].
  split; [apply Qc_is_canon; reflexivity|].
  split; [vm_compute; f_equal; apply Qc_is_canon; reflexivity|].
  eexists. split; [exact (proj1 (gradle_time_is_split java_twice "java") H)|].
  split; [reflexivity|apply Qc_is_canon; reflexivity].
Defined.

Lemma dict_set_Forall {V : Type} (P : V -> Prop) (k : string) (v : V) (d : dict V) :
  Forall P (dict_values d) -> P v -> Forall P (dict_values (dict_set k v d)).
Proof.
  intros Hd Hv. induction d as [|[k' v'] d IH]; simpl.
  - constructor; [exact Hv|constructor].
  - simpl in Hd. apply Forall_cons_iff in Hd. destruct Hd as [Hv' Hd].
    destruct (String.eqb k k'); simpl; constructor; auto.
Qed.

Lemma accumulate_absent (k display : string) (s : Qc) (d : dict Lang) :
  dict_get k d = None ->
  accumulate k display s d = d ++ [(k, mkLang display (0 + s)%Qc)].
Proof.
  intro E. unfold accumulate, add_seconds, dict_contains.
  rewrite E, dict_get_set_same. simpl.
  rewrite dict_set_set. apply dict_set_absent, E.
Qed.

(** A property of the buckets that [accumulate] keeps. *)
Lemma accumulate_Forall (P : Lang -> Prop) (k display : string) (s : Qc)
      (d : dict Lang) :
  Forall P (dict_values d) ->
  (forall b, P b -> P (mkLang (name b) (total_seconds b + s)%Qc)) ->
  P (mkLang display (0 + s)%Qc) ->
  Forall P (dict_values (accumulate k display s d)).
Proof.
  intros Hd Hadd Hnew.
  destruct (dict_get k d) as [b|] eqn:E.
  - unfold accumulate, add_seconds, dict_contains. rewrite E, E.
    apply dict_set_Forall; [exact Hd|]. apply Hadd.
    rewrite Forall_forall in Hd. apply Hd. exact (dict_get_In_values k b d E).
  - rewrite accumulate_absent by exact E.
    pose proof (dict_set_Forall P k _ d Hd Hnew) as Hd'.
    rewrite dict_set_absent in Hd' by exact E. exact Hd'.
Qed.

Lemma accumulate_nonneg (k display : string) (s : Qc) (d : dict Lang) :
  (0 <= s)%Qc ->
  Forall nonneg_bucket (dict_values d) ->
  Forall nonneg_bucket (dict_values (accumulate k display s d)).
Proof.
  intros Hs Hd. apply accumulate_Forall; [exact Hd| |]; unfold nonneg_bucket; simpl.
  - intros b Hb. apply Qcplus_nonneg; assumption.
  - apply Qcplus_nonneg; [apply Qcle_refl|exact Hs].
Qed.

Lemma second_pass_buckets_nonneg (raw_languages : list Lang) :
  Forall nonneg raw_languages ->
  Forall nonneg_bucket (dict_values (language_dict (second_pass raw_languages))).
Proof.
  intro Hnn. unfold second_pass.
  apply (fold_left_invariant classify
           (fun _ st => Forall nonneg_bucket (dict_values (language_dict st)))).
  - constructor.
  - intros _ x st Hx IH. rewrite Forall_forall in Hnn. specialize (Hnn x Hx).
    classify_cases; simpl; try exact IH; apply accumulate_nonneg; assumption.
Qed.

Lemma Qcdiv_nonneg (s t : Qc) : (0 <= s -> 0 < t -> 0 <= s / t)%Qc.
Proof.
  intros Hs Ht. apply Qcmult_lt_0_le_reg_r with (z := t); [exact Ht|].
  rewrite Qcmult_0_l. unfold Qcdiv.
  rewrite <- Qcmult_assoc, Qcmult_inv_l, Qcmult_1_r;
    [exact Hs|apply not_eq_sym, Qclt_not_eq, Ht].
Qed.

Lemma Qcdiv_le_1 (s t : Qc) : (s <= t -> 0 < t -> s / t <= 1)%Qc.
Proof.
  intros Hs Ht. apply Qcmult_lt_0_le_reg_r with (z := t); [exact Ht|].
  rewrite Qcmult_1_l. unfold Qcdiv.
  rewrite <- Qcmult_assoc, Qcmult_inv_l, Qcmult_1_r;
    [exact Hs|apply not_eq_sym, Qclt_not_eq, Ht].
Qed.

Lemma Qcdiv_le_compat (x y t : Qc) : (x <= y -> 0 < t -> x / t <= y / t)%Qc.
Proof.
  intros Hxy Ht. unfold Qcdiv. apply Qcmult_le_compat_r; [exact Hxy|].
  rewrite <- (Qcmult_1_l (/ t)). apply (Qcdiv_nonneg 1 t); [|exact Ht].
  discriminate.
Qed.

Lemma record_gradle_target_nonneg (gts : dict Qc) (lang : Lang) :
  nonneg lang ->
  Forall (fun s => 0 <= s)%Qc (dict_values gts) ->
  Forall (fun s => 0 <= s)%Qc (dict_values (record_gradle_target gts lang)).
Proof.
  intros Hs Hd. unfold record_gradle_target.
  destruct (mem (lower (name lang)) GRADLE_TARGET_LANGUAGES); [|exact Hd].
  apply dict_set_Forall; assumption.
Qed.

Lemma gradle_shares_nonneg (raw_languages : list Lang) :
  Forall nonneg raw_languages ->
  Forall (fun r => 0 <= r)%Qc (dict_values (gradle_shares raw_languages)).
Proof.
  intro Hnn.
  assert (Hg : Forall (fun s => 0 <= s)%Qc
                 (dict_values (gradle_target_seconds raw_languages))).
  { unfold gradle_target_seconds.
    apply (fold_left_invariant record_gradle_target
             (fun _ gts => Forall (fun s => 0 <= s)%Qc (dict_values gts))).
    - constructor.
    - intros _ x gts Hx IH. apply record_gradle_target_nonneg; [|exact IH].
      rewrite Forall_forall in Hnn. apply Hnn, Hx. }
  unfold gradle_shares.
  destruct (gt0 (sum (dict_values (gradle_target_seconds raw_languages)))) eqn:E.
  - rewrite shares_of_map by apply gradle_target_seconds_NoDup.
    apply gt0_true in E. unfold dict_values in *. rewrite map_map. simpl.
    rewrite Forall_map in *. eapply Forall_impl; [|exact Hg].
    simpl. intros a Ha. apply Qcdiv_nonneg; assumption.
  - simpl. constructor; [discriminate|constructor].
Qed.

Lemma final_buckets_nonneg (raw_languages : list Lang) :
  Forall nonneg raw_languages ->
  Forall nonneg_bucket (dict_values (final_dict raw_languages)).
Proof.
  intro Hnn.
  pose proof (second_pass_buckets_nonneg raw_languages Hnn) as Hd.
  pose proof (gradle_shares_nonneg raw_languages Hnn) as Hr.
  unfold final_dict, finalize, distribute_gradle.
  assert (Hf : Forall nonneg_bucket
                 (dict_values (fold_accumulators (second_pass raw_languages)))).
  { unfold fold_accumulators, add_summary, merge_into.
    repeat match goal with
           | |- context [if gt0 ?a then _ else _] =>
               let E := fresh "E" in
               destruct (gt0 a) eqn:E;
               [apply gt0_true, Qclt_le_weak in E|clear E]
           end;
      repeat first [ apply dict_set_Forall; [|assumption]
                   | apply accumulate_nonneg; [assumption|] ];
      exact Hd. }
  destruct (gt0 (gradle_seconds (second_pass raw_languages))) eqn:E; [|exact Hf].
  apply gt0_true, Qclt_le_weak in E.
  revert Hf Hr. generalize (fold_accumulators (second_pass raw_languages)).
  induction (gradle_shares raw_languages) as [|[k r] gd IH]; intros d Hf Hr; simpl.
  - exact Hf.
  - simpl in Hr. apply Forall_cons_iff in Hr. destruct Hr as [Hr0 Hr].
    apply IH; [|exact Hr]. apply accumulate_nonneg; [|exact Hf].
    rewrite <- (Qcmult_0_l r). apply Qcmult_le_compat_r; assumption.
Qed.

Lemma le_sum_of_nonneg (x : Qc) (l : list Qc) :
  Forall (fun y => 0 <= y)%Qc l -> In x l -> (x <= sum l)%Qc.
Proof.
  induction 1 as [|y l Hy Hl IH]; intros Hin; [destruct Hin|].
  rewrite sum_cons. destruct Hin as [->|Hin].
  - rewrite <- (Qcplus_0_r x) at 1. apply Qcplus_le_compat; [apply Qcle_refl|].
    clear IH. induction Hl as [|z l Hz _ IHl].
    + rewrite sum_nil. apply Qcle_refl.
    + rewrite sum_cons. apply Qcplus_nonneg; assumption.
  - rewrite <- (Qcplus_0_l x). apply Qcplus_le_compat; [exact Hy|apply IH, Hin].
Qed.

Lemma percent_value_range (x total : Qc) :
  (0 <= x -> x <= total ->
   0 <= percent_value x total <= of_Z 100)%Qc.
Proof.
  intros Hx Hxt. unfold percent_value. destruct (gt0 total) eqn:E.
  - apply gt0_true in E. split.
    + rewrite <- (Qcmult_0_l (of_Z 100)).
      apply Qcmult_le_compat_r; [apply Qcdiv_nonneg; assumption|discriminate].
    + rewrite <- (Qcmult_1_l (of_Z 100)) at 2.
      apply Qcmult_le_compat_r; [apply Qcdiv_le_1; assumption|discriminate].
  - split; [apply Qcle_refl|discriminate].
Qed.

(** X6.  Range.  When the durations of the raw input are non-negative, every
    returned entry has a non-negative duration and a percent between 0 and
    100. *)
Theorem percent_in_range (raw_languages : list Lang) :
  Forall nonneg raw_languages ->
  exists out,
    process_language_data raw_languages = Ok out
    /\ Forall (fun e => 0 <= out_total_seconds e
                        /\ 0 <= percent e <= of_Z 100)%Qc out.
Proof.
  intro Hnn. exists (processed raw_languages).
  split; [apply process_language_data_ok|].
  pose proof (final_buckets_nonneg raw_languages Hnn) as Hd.
  apply Forall_forall. intros e He. unfold processed in He.
  apply (Permutation_in _ (Permutation_sym (sort_desc_Permutation _))) in He.
  apply in_map_iff in He. destruct He as (b & <- & Hb). simpl.
  rewrite Forall_forall in Hd. split; [apply Hd, Hb|].
  apply percent_value_range; [apply Hd, Hb|].
  unfold retained_total. apply le_sum_of_nonneg.
  - rewrite Forall_map. apply Forall_forall. exact Hd.
  - apply in_map, Hb.
Qed.

(** X6, witness. *)
Lemma percent_in_range_witness :
  Forall nonneg conservation_input
  /\ exists out,
       process_language_data conservation_input = Ok out
       /\ Forall (fun e => 0 <= out_total_seconds e
                           /\ 0 <= percent e <= of_Z 100)%Qc out.
Proof.
  assert (H : Forall nonneg conservation_input)
    by (repeat constructor; vm_compute; discriminate).
  split; [exact H|exact (percent_in_range conservation_input H)].
Defined.

Lemma percent_value_mono (total x y : Qc) :
  (x <= y)%Qc -> (percent_value x total <= percent_value y total)%Qc.
Proof.
  intro Hxy. unfold percent_value. destruct (gt0 total) eqn:E.
  - apply gt0_true in E. apply Qcmult_le_compat_r; [|discriminate].
    apply Qcdiv_le_compat; assumption.
  - apply Qcle_refl.
Qed.

Lemma processed_percent_is (raw_languages : list Lang) :
  Forall (percent_is (retained_total (final_dict raw_languages)))
         (processed raw_languages).
Proof.
  apply Forall_forall. intros e He. unfold processed in He.
  apply (Permutation_in _ (Permutation_sym (sort_desc_Permutation _))) in He.
  apply in_map_iff in He. destruct He as (b & <- & _). reflexivity.
Qed.

Lemma desc_percent_of_desc (total : Qc) (l : list Processed) :
  Forall (percent_is total) l ->
  StronglySorted desc l -> StronglySorted desc_percent l.
Proof.
  intros Hp Hs. induction Hs as [|a l Hs IH Ha]; [constructor|].
  apply Forall_cons_iff in Hp. destruct Hp as [Hpa Hp].
  constructor; [apply IH, Hp|].
  rewrite Forall_forall in *. intros b Hb.
  unfold desc_percent. rewrite Hpa, (Hp b Hb).
  apply percent_value_mono, (Ha b Hb).
Qed.

Lemma processed_sorted (raw_languages : list Lang) :
  StronglySorted desc (processed raw_languages).
Proof.
  apply Sorted_StronglySorted; [exact desc_trans|]. apply sort_desc_Sorted.
Qed.

Lemma processed_sorted_by_percent (raw_languages : list Lang) :
  StronglySorted desc_percent (processed raw_languages).
Proof.
  apply (desc_percent_of_desc (retained_total (final_dict raw_languages))).
  - apply processed_percent_is.
  - apply processed_sorted.
Qed.

(** X7.  Percent order.  The returned list is also in descending order of
    percent: every entry has a percent at least as large as every entry
    after it. *)
Theorem output_sorted_by_percent (raw_languages : list Lang) :
  exists out,
    process_language_data raw_languages = Ok out
    /\ StronglySorted desc_percent out.
Proof.
  exists (processed raw_languages).
  split; [apply process_language_data_ok|]. apply processed_sorted_by_percent.
Qed.







Lemma accumulate_names (k display : string) (s : Qc) (d : dict Lang) :
  is_output_name display = true ->
  Forall (fun b => is_output_name (name b) = true) (dict_values d) ->
  Forall (fun b => is_output_name (name b) = true)
         (dict_values (accumulate k display s d)).
Proof.
  intros Hn Hd.
  apply (accumulate_Forall (fun b => is_output_name (name b) = true));
    [exact Hd| |exact Hn].
  intros b Hb. exact Hb.
Qed.

Lemma second_pass_names (raw_languages : list Lang) :
  Forall (fun b => is_output_name (name b) = true)
         (dict_values (language_dict (second_pass raw_languages))).
Proof.
  unfold second_pass.
  apply (fold_left_invariant classify
           (fun _ st => Forall (fun b => is_output_name (name b) = true)
                               (dict_values (language_dict st)))).
  - constructor.
  - intros _ x st _ IH.
    classify_cases; simpl; try exact IH;
      (apply accumulate_names; [|exact IH]); try reflexivity.
    unfold is_output_name, is_default_case.
    repeat match goal with
           | H : mem _ _ = false |- _ => rewrite H; clear H
           end.
    apply orb_true_r.
Qed.

Lemma final_dict_names (raw_languages : list Lang) :
  Forall (fun b => is_output_name (name b) = true)
         (dict_values (final_dict raw_languages)).
Proof.
  pose proof (second_pass_names raw_languages) as Hd.
  assert (Hf : Forall (fun b => is_output_name (name b) = true)
                 (dict_values (fold_accumulators (second_pass raw_languages)))).
  { unfold fold_accumulators, add_summary, merge_into.
    repeat match goal with
           | |- context [if gt0 ?a then _ else _] => destruct (gt0 a)
           end;
      repeat first [ apply dict_set_Forall; [|reflexivity]
                   | apply accumulate_names; [reflexivity|] ];
      exact Hd. }
  unfold final_dict, finalize, distribute_gradle.
  destruct (gt0 (gradle_seconds (second_pass raw_languages))); [|exact Hf].
  assert (Hk : forall k, In k (dict_keys (gradle_shares raw_languages)) ->
                         In k GRADLE_TARGET_LANGUAGES)
    by (intro k; apply gradle_shares_keys).
  revert Hf Hk. generalize (fold_accumulators (second_pass raw_languages)).
  induction (gradle_shares raw_languages) as [|[k r] gd IH]; intros d Hf Hk; simpl.
  - exact Hf.
  - apply IH; [|intros k' Hk'; apply Hk; right; exact Hk'].
    apply accumulate_names; [|exact Hf].
    specialize (Hk k (or_introl eq_refl)). simpl in Hk.
    destruct Hk as [<-|[<-|[<-|[]]]]; reflexivity.
Qed.

(** X9.  Names.  No returned entry is named after a label that the chain
    filters, merges or aggregates: every returned display name is the
    canonical "Objective-C" or a name whose lowercase is in none of the rule
    sets. *)
Theorem output_names (raw_languages : list Lang) :
  exists out,
    process_language_data raw_languages = Ok out
    /\ Forall (fun e => out_name e = "Objective-C"
                        \/ is_default_case (lower (out_name e)) = true) out.
Proof.
  exists (processed raw_languages).
  split; [apply process_language_data_ok|].
  pose proof (final_dict_names raw_languages) as Hd.
  apply Forall_forall. intros e He. unfold processed in He.
  apply (Permutation_in _ (Permutation_sym (sort_desc_Permutation _))) in He.
  apply in_map_iff in He. destruct He as (b & <- & Hb). simpl.
  rewrite Forall_forall in Hd. specialize (Hd b Hb).
  unfold is_output_name in Hd. apply orb_true_iff in Hd.
  destruct Hd as [Hd|Hd]; [left; apply String.eqb_eq, Hd|right; exact Hd].
Qed.

(* ================================================================== *)
(** ** The contribution calendar *)

Section Calendar.

Local Open Scope Z_scope.

Lemma iget_iset_same {V : Type} (k : Z) (v : V) (d : idict V) :
  iget k (iset k v d) = Some v.
Proof.
  induction d as [|[k' v'] d IH]; simpl.
  - rewrite Z.eqb_refl. reflexivity.
  - destruct (Z.eqb k k') eqn:E; simpl.
    + rewrite Z.eqb_refl. reflexivity.
    + rewrite E. exact IH.
Qed.

Lemma iget_iset_other {V : Type} (k k' : Z) (v : V) (d : idict V) :
  k' <> k -> iget k' (iset k v d) = iget k' d.
Proof.
  intro Hne. induction d as [|[k0 v0] d IH]; simpl.
  - apply Z.eqb_neq in Hne. rewrite Hne. reflexivity.
  - destruct (Z.eqb k k0) eqn:E; simpl.
    + apply Z.eqb_eq in E. subst k0.
      apply Z.eqb_neq in Hne. rewrite Hne. reflexivity.
    + rewrite IH. reflexivity.
Qed.

Lemma iget_None_keys {V : Type} (k : Z) (d : idict V) :
  iget k d = None <-> ~ In k (map fst d).
Proof.
  induction d as [|[k' v'] d IH]; simpl.
  - split; auto.
  - destruct (Z.eqb k k') eqn:E.
    + apply Z.eqb_eq in E. subst k'. split; [discriminate|].
      intro H. exfalso. apply H. left; reflexivity.
    + apply Z.eqb_neq in E. rewrite IH. split.
      * intros H [H'|H']; [congruence | contradiction].
      * intros H H'. apply H. right; exact H'.
Qed.

Lemma iset_keys {V : Type} (k : Z) (v : V) (d : idict V) :
  map fst (iset k v d)
  = match iget k d with Some _ => map fst d | None => map fst d ++ [k] end.
Proof.
  induction d as [|[k' v'] d IH]; simpl; [reflexivity|].
  destruct (Z.eqb k k') eqn:E; simpl.
  - apply Z.eqb_eq in E. subst k'. reflexivity.
  - rewrite IH. destruct (iget k d); reflexivity.
Qed.

Lemma iset_NoDup {V : Type} (k : Z) (v : V) (d : idict V) :
  NoDup (map fst d) -> NoDup (map fst (iset k v d)).
Proof.
  intro Hnd. rewrite iset_keys. destruct (iget k d) eqn:E; [exact Hnd|].
  apply NoDup_app_remove_l with (l := []). simpl.
  apply Permutation_NoDup with (l := k :: map fst d).
  - apply Permutation_cons_append.
  - constructor; [|exact Hnd]. apply iget_None_keys. exact E.
Qed.

Lemma iset_values_Forall {V : Type} (P : V -> Prop) (k : Z) (v : V) (d : idict V) :
  Forall P (map snd d) -> P v -> Forall P (map snd (iset k v d)).
Proof.
  intros Hd Hv. induction d as [|[k' v'] d IH]; simpl.
  - constructor; [exact Hv|constructor].
  - simpl in Hd. apply Forall_cons_iff in Hd. destruct Hd as [Hv' Hd].
    destruct (Z.eqb k k'); simpl; constructor; auto.
Qed.

Lemma iget_In_values {V : Type} (k : Z) (v : V) (d : idict V) :
  iget k d = Some v -> In v (map snd d).
Proof.
  induction d as [|[k' v'] d IH]; simpl; [discriminate|].
  destruct (Z.eqb k k').
  - intro H. injection H as ->. left. reflexivity.
  - intro H. right. apply IH, H.
Qed.

(** *** Ranges *)

Lemma In_range (n x : Z) : In x (range n) <-> 0 <= x < n.
Proof.
  unfold range. rewrite in_map_iff. split.
  - intros (i & <- & Hi). apply in_seq in Hi. lia.
  - intro H. exists (Z.to_nat x). split; [lia|]. apply in_seq. lia.
Qed.

Lemma range_succ (n : Z) : 0 <= n -> range (n + 1) = range n ++ [n].
Proof.
  intro Hn. unfold range.
  replace (Z.to_nat (n + 1)) with (S (Z.to_nat n)) by lia.
  rewrite seq_S, map_app. simpl. f_equal. f_equal. lia.
Qed.

Lemma range_nonpos (n : Z) : n <= 0 -> range n = [].
Proof.
  intro Hn. unfold range. replace (Z.to_nat n) with 0%nat by lia. reflexivity.
Qed.

Lemma In_date_range (start stop d : Z) :
  In d (date_range start stop) <-> start <= d <= stop.
Proof.
  unfold date_range. rewrite in_map_iff. split.
  - intros (i & <- & Hi). apply In_range in Hi. lia.
  - intro H. exists (d - start). split; [lia|]. apply In_range. lia.
Qed.

(** *** The first day of the calendar *)

Lemma weekday_range (date : Z) : 0 <= weekday date <= 6.
Proof. unfold weekday. pose proof (Z.mod_pos_bound (date + 6) 7). lia. Qed.

Lemma start_date_bounds (end_date : Z) :
  end_date - 364 <= start_date end_date <= end_date - 358.
Proof.
  unfold start_date, end_of_week. pose proof (weekday_range end_date).
  destruct (weekday end_date =? 6) eqn:E; cbn [negb]; lia.
Qed.

Lemma start_date_sunday (end_date : Z) : weekday (start_date end_date) = 6.
Proof.
  unfold start_date, end_of_week, weekday.
  destruct ((end_date + 6) mod 7 =? 6) eqn:E; cbn [negb].
  - apply Z.eqb_eq in E.
    replace (end_date + 0 - 364 + 6) with (end_date + 6 + (-52) * 7) by lia.
    rewrite Z_mod_plus_full. exact E.
  - pose proof (Z.mod_pos_bound (end_date + 6) 7 ltac:(lia)) as Hb.
    pose proof (Z.div_mod (end_date + 6) 7 ltac:(lia)) as Hd.
    replace (end_date + (6 - (end_date + 6) mod 7) - 364 + 6)
      with (6 + ((end_date + 6) / 7 - 52) * 7) by lia.
    rewrite Z_mod_plus_full. reflexivity.
Qed.

(** The row of a day is its distance to the Sunday that starts its week. *)
Lemma github_weekday (end_date date : Z) :
  (weekday date + 1) mod 7 = (date - start_date end_date) mod 7.
Proof.
  pose proof (start_date_sunday end_date) as H. unfold weekday in *.
  pose proof (Z.div_mod (start_date end_date + 6) 7 ltac:(lia)) as Hd.
  rewrite H in Hd. rewrite Zplus_mod_idemp_l.
  replace (date + 6 + 1) with (date - start_date end_date
                               + ((start_date end_date + 6) / 7 + 1) * 7) by lia.
  apply Z_mod_plus_full.
Qed.

(** *** The dictionary [weeks] *)

Lemma record_day_lookup2 (start end_date : Z) (weeks : idict (idict Z))
      (date count w dd : Z) :
  date <= end_date ->
  lookup2 w dd (record_day start end_date weeks (date, count))
  = if (w =? (date - start) / 7) && (dd =? (weekday date + 1) mod 7)
    then Some count else lookup2 w dd weeks.
Proof.
  intro Hle. unfold record_day, lookup2.
  replace (end_date <? date) with false by (symmetry; apply Z.ltb_ge; lia).
  set (week := (date - start) / 7). set (wd := (weekday date + 1) mod 7).
  destruct (iget week weeks) as [days0|] eqn:E.
  - rewrite E. destruct (w =? week) eqn:Ew.
    + apply Z.eqb_eq in Ew. subst w. rewrite iget_iset_same, E. simpl.
      destruct (dd =? wd) eqn:Ed.
      * apply Z.eqb_eq in Ed. subst dd. apply iget_iset_same.
      * apply Z.eqb_neq in Ed. apply iget_iset_other. exact Ed.
    + apply Z.eqb_neq in Ew. rewrite iget_iset_other by exact Ew. reflexivity.
  - rewrite iget_iset_same. destruct (w =? week) eqn:Ew.
    + apply Z.eqb_eq in Ew. subst w. rewrite iget_iset_same, E. simpl.
      destruct (dd =? wd); reflexivity.
    + apply Z.eqb_neq in Ew. rewrite !iget_iset_other by exact Ew. reflexivity.
Qed.

Lemma record_day_iget_None (start end_date : Z) (weeks : idict (idict Z))
      (date count w : Z) :
  date <= end_date ->
  iget w (record_day start end_date weeks (date, count)) = None
  <-> w <> (date - start) / 7 /\ iget w weeks = None.
Proof.
  intro Hle. unfold record_day.
  replace (end_date <? date) with false by (symmetry; apply Z.ltb_ge; lia).
  set (week := (date - start) / 7).
  destruct (Z.eq_dec w week) as [->|Hne].
  - destruct (iget week weeks) as [days0|] eqn:E.
    + rewrite E, iget_iset_same. split; [discriminate|intros [H _]; congruence].
    + rewrite iget_iset_same, iget_iset_same.
      split; [discriminate|intros [H _]; congruence].
  - destruct (iget week weeks) as [days0|] eqn:E.
    + rewrite E, iget_iset_other by exact Hne. tauto.
    + rewrite iget_iset_same, !iget_iset_other by exact Hne. tauto.
Qed.

Lemma record_day_unique_keys (start end_date : Z) (weeks : idict (idict Z))
      (item : Z * Z) :
  unique_keys weeks -> unique_keys (record_day start end_date weeks item).
Proof.
  intros [Hk Hv]. destruct item as [date count]. unfold record_day.
  destruct (end_date <? date); [split; assumption|].
  set (week := (date - start) / 7). set (wd := (weekday date + 1) mod 7).
  destruct (iget week weeks) as [days0|] eqn:E.
  - rewrite E. split; [apply iset_NoDup, Hk|].
    apply iset_values_Forall; [exact Hv|]. apply iset_NoDup.
    rewrite Forall_forall in Hv. apply Hv, (iget_In_values week), E.
  - rewrite iget_iset_same. split; [apply iset_NoDup, iset_NoDup, Hk|].
    apply iset_values_Forall.
    + apply iset_values_Forall; [exact Hv|constructor].
    + simpl. constructor; [intros []|constructor].
Qed.

Lemma weeks_lookup2 (end_date : Z) (dates : list Z) (items : list (Z * Z))
      (w dd : Z) :
  day_items (start_date end_date) end_date dates items ->
  lookup2 w dd (fold_left (record_day (start_date end_date) end_date) items [])
  = if existsb (in_cell (start_date end_date) w dd) items
    then Some (count_on (start_date end_date + (7 * w + dd)) dates)
    else None.
Proof.
  intro Hitems. set (start := start_date end_date) in *.
  apply (fold_left_invariant (record_day start end_date)
           (fun pre weeks =>
              lookup2 w dd weeks
              = if existsb (in_cell start w dd) pre
                then Some (count_on (start + (7 * w + dd)) dates) else None)).
  - reflexivity.
  - intros pre [date count] weeks Hin IH.
    unfold day_items in Hitems. rewrite Forall_forall in Hitems.
    destruct (Hitems _ Hin) as [Hrange Hcount]. simpl in Hrange, Hcount.
    rewrite record_day_lookup2 by lia.
    rewrite existsb_app. cbn [existsb]. rewrite orb_false_r.
    unfold in_cell at 2. cbn [fst].
    rewrite (github_weekday end_date). fold start.
    rewrite (Z.eqb_sym w), (Z.eqb_sym dd).
    destruct (((date - start) / 7 =? w) && ((date - start) mod 7 =? dd)) eqn:E.
    + rewrite orb_true_r. apply andb_prop in E. destruct E as [E1 E2].
      apply Z.eqb_eq in E1, E2.
      pose proof (Z.div_mod (date - start) 7 ltac:(lia)) as Hd.
      rewrite E1, E2 in Hd. rewrite Hcount. f_equal. f_equal. lia.
    + rewrite orb_false_r. exact IH.
Qed.

Lemma weeks_iget_None (end_date : Z) (dates : list Z) (items : list (Z * Z))
      (w : Z) :
  day_items (start_date end_date) end_date dates items ->
  iget w (fold_left (record_day (start_date end_date) end_date) items []) = None
  <-> Forall (fun item => (fst item - start_date end_date) / 7 <> w) items.
Proof.
  intro Hitems. set (start := start_date end_date) in *.
  apply (fold_left_invariant (record_day start end_date)
           (fun pre weeks =>
              iget w weeks = None
              <-> Forall (fun item => (fst item - start) / 7 <> w) pre)).
  - split; [constructor|reflexivity].
  - intros pre [date count] weeks Hin IH.
    unfold day_items in Hitems. rewrite Forall_forall in Hitems.
    destruct (Hitems _ Hin) as [Hrange _]. simpl in Hrange.
    rewrite record_day_iget_None by lia. rewrite IH, Forall_app. simpl.
    split.
    + intros [H1 H2]. split; [exact H2|].
      constructor; [cbn [fst]; congruence|constructor].
    + intros [H1 H2]. apply Forall_cons_iff in H2. destruct H2 as [H2 _].
      cbn [fst] in H2. split; [congruence|exact H1].
Qed.

Lemma weeks_unique_keys (start end_date : Z) (items : list (Z * Z)) :
  unique_keys (fold_left (record_day start end_date) items []).
Proof.
  apply (fold_left_invariant (record_day start end_date)
           (fun _ weeks => unique_keys weeks)).
  - split; constructor.
  - intros _ item weeks _ IH. apply record_day_unique_keys, IH.
Qed.

Lemma all_counts_day_items (end_date : Z) (dates : list Z) :
  day_items (start_date end_date) end_date dates (all_counts end_date dates).
Proof.
  unfold day_items, all_counts. rewrite Forall_map. apply Forall_forall.
  intros d Hd. apply In_date_range in Hd. simpl. split; [exact Hd|reflexivity].
Qed.

(** The cells of [weeks] are the days from the first day to today. *)
Lemma weeks_of_lookup2 (end_date : Z) (dates : list Z) (w dd : Z) :
  lookup2 w dd (weeks_of end_date dates)
  = if (0 <=? dd) && (dd <? 7) && (0 <=? 7 * w + dd)
       && (start_date end_date + (7 * w + dd) <=? end_date)
    then Some (count_on (start_date end_date + (7 * w + dd)) dates)
    else None.
Proof.
  unfold weeks_of.
  rewrite (weeks_lookup2 end_date dates) by apply all_counts_day_items.
  set (start := start_date end_date).
  match goal with
  | |- (if ?a then _ else _) = (if ?b then _ else _) =>
      assert (Hab : a = b); [|rewrite Hab; reflexivity]
  end.
  apply eq_true_iff_eq. rewrite existsb_exists.
  rewrite !andb_true_iff, !Z.leb_le, Z.ltb_lt. split.
  - intros ([date count] & Hin & Hcell).
    pose proof (all_counts_day_items end_date dates) as Hitems.
    unfold day_items in Hitems. rewrite Forall_forall in Hitems.
    destruct (Hitems _ Hin) as [Hrange _]. simpl in Hrange. fold start in Hrange.
    unfold in_cell in Hcell. cbn [fst] in Hcell.
    apply andb_prop in Hcell. destruct Hcell as [E1 E2].
    apply Z.eqb_eq in E1, E2.
    pose proof (Z.div_mod (date - start) 7 ltac:(lia)) as Hd.
    pose proof (Z.mod_pos_bound (date - start) 7 ltac:(lia)) as Hb.
    rewrite E1, E2 in Hd. rewrite E2 in Hb. lia.
  - intros (((H1 & H2) & H3) & H4).
    exists (start + (7 * w + dd), count_on (start + (7 * w + dd)) dates).
    split.
    + unfold all_counts. apply in_map_iff. exists (start + (7 * w + dd)).
      split; [reflexivity|]. apply In_date_range. fold start. lia.
    + unfold in_cell. cbn [fst].
      replace (start + (7 * w + dd) - start) with (dd + w * 7) by lia.
      rewrite Z_div_plus_full, Z_mod_plus_full by lia.
      rewrite Z.div_small, Z.mod_small by lia.
      rewrite !Z.eqb_refl. reflexivity.
Qed.

(** *** The array [matrix] *)

Lemma fill_days (week : Z) (days : idict Z) :
  NoDup (map fst days) ->
  forall (m : matrix) (d w : Z),
    fold_left
      (fun (m : matrix) (cell : Z * Z) =>
         let '(day, count) := cell in matrix_set m day week count)
      days m d w
    = if w =? week
      then match iget d days with Some c => c | None => m d w end
      else m d w.
Proof.
  induction days as [|[dy c] days IH]; intros Hnd m d w; simpl.
  - destruct (w =? week); reflexivity.
  - simpl in Hnd. apply NoDup_cons_iff in Hnd. destruct Hnd as [Hdy Hnd].
    rewrite (IH Hnd). unfold matrix_set.
    destruct (w =? week) eqn:Ew; [|rewrite andb_false_r; reflexivity].
    rewrite andb_true_r. destruct (d =? dy) eqn:Ed; [|reflexivity].
    apply Z.eqb_eq in Ed. subst dy.
    apply iget_None_keys in Hdy. rewrite Hdy. reflexivity.
Qed.

Lemma fill_weeks (weeks : idict (idict Z)) :
  unique_keys weeks ->
  forall (m : matrix) (d w : Z),
    fold_left
      (fun (m : matrix) (item : Z * idict Z) =>
         let '(week, days) := item in
         fold_left
           (fun (m : matrix) (cell : Z * Z) =>
              let '(day, count) := cell in matrix_set m day week count)
           days m)
      weeks m d w
    = match lookup2 w d weeks with Some c => c | None => m d w end.
Proof.
  unfold lookup2.
  induction weeks as [|[wk days] weeks IH]; intros [Hk Hv] m d w; simpl.
  - reflexivity.
  - simpl in Hk, Hv. apply NoDup_cons_iff in Hk. destruct Hk as [Hwk Hk].
    apply Forall_cons_iff in Hv. destruct Hv as [Hdays Hv].
    rewrite (IH (conj Hk Hv)). rewrite (fill_days wk days Hdays).
    destruct (w =? wk) eqn:Ew.
    + apply Z.eqb_eq in Ew. subst wk.
      apply iget_None_keys in Hwk. rewrite Hwk. reflexivity.
    + reflexivity.
Qed.

(** Each cell of the array holds the count of the day it stands for, and 0
    when that day is not between the first day and today. *)
Lemma fill_matrix_weeks_of (end_date : Z) (dates : list Z) (d w : Z) :
  fill_matrix (weeks_of end_date dates) d w
  = if (0 <=? d) && (d <? 7) && (0 <=? 7 * w + d)
       && (start_date end_date + (7 * w + d) <=? end_date)
    then count_on (start_date end_date + (7 * w + d)) dates
    else 0.
Proof.
  unfold fill_matrix.
  rewrite fill_weeks by (unfold weeks_of; apply weeks_unique_keys).
  rewrite weeks_of_lookup2.
  match goal with |- context [if ?c then _ else _] => destruct c end;
    reflexivity.
Qed.

(** *** The number of weeks *)

Lemma fold_left_max (ks : list Z) (k : Z) :
  (fold_left Z.max ks k = k \/ In (fold_left Z.max ks k) ks)
  /\ k <= fold_left Z.max ks k
  /\ Forall (fun x => x <= fold_left Z.max ks k) ks.
Proof.
  revert k. induction ks as [|x ks IH]; intro k; simpl.
  - repeat split; [left; reflexivity|lia|constructor].
  - destruct (IH (Z.max k x)) as (H1 & H2 & H3).
    destruct (Z.max_spec k x) as [[Hlt E]|[Hle E]]; rewrite E in *;
      repeat split.
    + destruct H1 as [H1|H1]; [right; left; symmetry; exact H1|].
      right. right. exact H1.
    + lia.
    + constructor; [lia|exact H3].
    + destruct H1 as [H1|H1]; [left; exact H1|]. right. right. exact H1.
    + lia.
    + constructor; [lia|exact H3].
Qed.

Lemma max_key_spec {V : Type} (d : idict V) (K : Z) :
  In K (map fst d) -> Forall (fun k => k <= K) (map fst d) ->
  max_key d = Some K.
Proof.
  unfold max_key. destruct (map fst d) as [|k ks]; [intros []|].
  intros Hin Hall. f_equal.
  destruct (fold_left_max ks k) as (H1 & H2 & H3).
  set (M := fold_left Z.max ks k) in *.
  assert (HM : In M (k :: ks)) by (destruct H1 as [->|H1]; [left|right]; auto).
  assert (HK : K <= M).
  { destruct Hin as [<-|Hin]; [exact H2|].
    rewrite Forall_forall in H3. apply H3, Hin. }
  rewrite Forall_forall in Hall. specialize (Hall M HM). lia.
Qed.

Lemma weeks_of_max_key (end_date : Z) (dates : list Z) :
  max_key (weeks_of end_date dates)
  = Some ((end_date - start_date end_date) / 7).
Proof.
  pose proof (start_date_bounds end_date) as Hb.
  pose proof (all_counts_day_items end_date dates) as Hitems.
  set (start := start_date end_date) in *.
  assert (Hnone : forall w,
             iget w (weeks_of end_date dates) = None
             <-> Forall (fun item => (fst item - start) / 7 <> w)
                        (all_counts end_date dates))
    by (intro w; apply (weeks_iget_None end_date dates), Hitems).
  apply max_key_spec.
  - destruct (in_dec Z.eq_dec ((end_date - start) / 7)
                     (map fst (weeks_of end_date dates))) as [H|H]; [exact H|].
    exfalso. apply iget_None_keys, Hnone in H.
    rewrite Forall_forall in H.
    apply (H (end_date, count_on end_date dates)); [|reflexivity].
    unfold all_counts. apply in_map_iff. exists end_date.
    split; [reflexivity|]. apply In_date_range. fold start. lia.
  - apply Forall_forall. intros w Hw.
    destruct (Z_le_gt_dec w ((end_date - start) / 7)) as [H|H]; [exact H|].
    exfalso. revert Hw. apply iget_None_keys, Hnone.
    apply Forall_forall. intros [date count] Hin. cbn [fst].
    unfold day_items in Hitems. rewrite Forall_forall in Hitems.
    destruct (Hitems _ Hin) as [Hrange _]. cbn [fst] in Hrange.
    pose proof (Z.div_le_mono (date - start) (end_date - start) 7
                  ltac:(lia) ltac:(lia)).
    lia.
Qed.

(** *** The squares *)

Lemma range_add (a b : Z) :
  0 <= a -> 0 <= b -> range (a + b) = range a ++ map (Z.add a) (range b).
Proof.
  intros Ha Hb. unfold range.
  replace (Z.to_nat (a + b)) with (Z.to_nat a + Z.to_nat b)%nat by lia.
  rewrite seq_app, map_app. f_equal. cbn [Nat.add].
  rewrite <- (Nat.add_0_r (Z.to_nat a)).
  generalize 0%nat as s. induction (Z.to_nat b) as [|n IH]; intro s.
  - reflexivity.
  - cbn [seq map]. rewrite <- Nat.add_succ_r, IH. f_equal. lia.
Qed.

Lemma flat_map_eq_In {A B : Type} (f g : A -> list B) (l : list A) :
  (forall x, In x l -> f x = g x) -> flat_map f l = flat_map g l.
Proof.
  induction l as [|x l IH]; intro H; simpl; [reflexivity|].
  rewrite H by (left; reflexivity). f_equal. apply IH.
  intros y Hy. apply H. right. exact Hy.
Qed.

Lemma flat_map_singleton {A B : Type} (g : A -> B) (l : list A) :
  flat_map (fun x => [g x]) l = map g l.
Proof. induction l as [|x l IH]; simpl; congruence. Qed.

Lemma flat_map_nil {A B : Type} (l : list A) :
  flat_map (fun _ : A => @nil B) l = [].
Proof. induction l as [|x l IH]; simpl; auto. Qed.

(** The two nested loops visit the offsets from the first day in order. *)
Lemma nested_ranges {A : Type} (H : Z -> list A) (n : Z) :
  0 <= n ->
  flat_map (fun week => flat_map (fun day => H (week * 7 + day)) (range 7))
           (range n)
  = flat_map H (range (7 * n)).
Proof.
  intro Hn. rewrite <- (Z2Nat.id n Hn). clear Hn.
  induction (Z.to_nat n) as [|k IH].
  - reflexivity.
  - replace (Z.of_nat (S k)) with (Z.of_nat k + 1) by lia.
    rewrite range_succ by lia.
    replace (7 * (Z.of_nat k + 1)) with (7 * Z.of_nat k + 7) by lia.
    rewrite range_add by lia.
    rewrite !flat_map_app, IH. f_equal. cbn [flat_map]. rewrite app_nil_r.
    rewrite (flat_map_concat_map H), map_map, <- flat_map_concat_map.
    apply flat_map_ext. intro day. f_equal. lia.
Qed.

Lemma flat_map_cut {A : Type} (g : Z -> A) (limit n : Z) :
  0 <= limit + 1 <= n ->
  flat_map (fun o => if limit <? o then [] else [g o]) (range n)
  = map g (range (limit + 1)).
Proof.
  intro H. replace n with ((limit + 1) + (n - (limit + 1))) by lia.
  rewrite range_add by lia. rewrite flat_map_app.
  rewrite <- (app_nil_r (map g _)). f_equal.
  - rewrite <- flat_map_singleton. apply flat_map_eq_In.
    intros o Ho. apply In_range in Ho.
    replace (limit <? o) with false by (symmetry; apply Z.ltb_ge; lia).
    reflexivity.
  - transitivity
      (flat_map (fun _ : Z => @nil A)
                (map (Z.add (limit + 1)) (range (n - (limit + 1)))));
      [|apply flat_map_nil].
    apply flat_map_eq_In.
    intros o Ho. apply in_map_iff in Ho. destruct Ho as (i & <- & Hi).
    apply In_range in Hi.
    replace (limit <? limit + 1 + i) with true
      by (symmetry; apply Z.ltb_lt; lia).
    reflexivity.
Qed.

Lemma draw_squares_days (theme : string) (end_date : Z) (dates : list Z)
      (max_count : Z) :
  draw_squares theme (start_date end_date) end_date
    ((end_date - start_date end_date) / 7 + 1)
    (fill_matrix (weeks_of end_date dates)) max_count
  = map (square_of theme (start_date end_date) max_count dates)
        (date_range (start_date end_date) end_date).
Proof.
  pose proof (start_date_bounds end_date) as Hb.
  set (start := start_date end_date) in *.
  set (D := end_date - start).
  assert (HD : 0 <= D) by (unfold D; lia).
  pose proof (Z.div_mod D 7 ltac:(lia)) as Hdm.
  pose proof (Z.mod_pos_bound D 7 ltac:(lia)) as Hmb.
  pose proof (Z.div_pos D 7 HD ltac:(lia)) as Hq.
  unfold draw_squares.
  rewrite flat_map_eq_In with
    (g := fun week =>
            flat_map
              (fun day =>
                 (fun o => if D <? o then []
                           else [square_of theme start max_count dates (start + o)])
                   (week * 7 + day))
              (range 7)).
  - rewrite (nested_ranges
               (fun o => if D <? o then []
                         else [square_of theme start max_count dates (start + o)]))
      by lia.
    rewrite (flat_map_cut
               (fun o => square_of theme start max_count dates (start + o)))
      by lia.
    unfold date_range. rewrite map_map.
    replace (end_date - start + 1) with (D + 1) by (unfold D; lia).
    reflexivity.
  - intros week Hweek. apply In_range in Hweek.
    apply flat_map_eq_In. intros day Hday. apply In_range in Hday.
    replace (end_date <? start + (week * 7 + day)) with (D <? week * 7 + day)
      by (unfold D; destruct (Z.ltb_spec (end_date - start) (week * 7 + day));
          symmetry; [apply Z.ltb_lt|apply Z.ltb_ge]; lia).
    destruct (D <? week * 7 + day) eqn:E; [reflexivity|].
    apply Z.ltb_ge in E. unfold square_of.
    rewrite (fill_matrix_weeks_of end_date dates). fold start.
    replace (start + (week * 7 + day) - start) with (day + week * 7) by lia.
    rewrite Z_div_plus_full, Z_mod_plus_full by lia.
    rewrite Z.div_small, Z.mod_small by lia.
    replace ((0 <=? day) && (day <? 7) && (0 <=? 7 * week + day)
             && (start + (7 * week + day) <=? end_date)) with true
      by (symmetry; rewrite !andb_true_iff, !Z.leb_le, Z.ltb_lt;
          unfold D in E; lia).
    replace (7 * week + day) with (week * 7 + day) by lia.
    replace (0 + week) with week by lia. reflexivity.
Qed.

(** *** The maximum *)

Lemma count_on_nonneg (date : Z) (dates : list Z) : 0 <= count_on date dates.
Proof. unfold count_on. lia. Qed.

Lemma cell_of_day (end_date : Z) (dates : list Z) (date : Z) :
  start_date end_date <= date <= end_date ->
  fill_matrix (weeks_of end_date dates)
    ((date - start_date end_date) mod 7) ((date - start_date end_date) / 7)
  = count_on date dates.
Proof.
  intro Hd. set (start := start_date end_date) in *.
  pose proof (Z.div_mod (date - start) 7 ltac:(lia)) as Hdm.
  pose proof (Z.mod_pos_bound (date - start) 7 ltac:(lia)) as Hmb.
  rewrite fill_matrix_weeks_of. fold start.
  replace (start + (7 * ((date - start) / 7) + (date - start) mod 7))
    with date by lia.
  replace ((0 <=? (date - start) mod 7) && ((date - start) mod 7 <? 7)
           && (0 <=? 7 * ((date - start) / 7) + (date - start) mod 7)
           && (date <=? end_date)) with true; [reflexivity|].
  symmetry. rewrite !andb_true_iff, !Z.leb_le, Z.ltb_lt. lia.
Qed.

Lemma matrix_max_counts (end_date : Z) (dates : list Z) :
  let start := start_date end_date in
  let M := matrix_max (fill_matrix (weeks_of end_date dates))
                      ((end_date - start) / 7 + 1) in
  (forall date, start <= date <= end_date -> count_on date dates <= M)
  /\ (exists date, start <= date <= end_date /\ M = count_on date dates).
Proof.
  intros start M.
  pose proof (start_date_bounds end_date) as Hb. fold start in Hb.
  set (m := fill_matrix (weeks_of end_date dates)) in *.
  set (N := (end_date - start) / 7 + 1) in *.
  unfold matrix_max in M.
  set (cells := flat_map (fun day => map (fun week => m day week) (range N))
                         (range 7)) in *.
  destruct (fold_left_max cells (m 0 0)) as (H1 & H2 & H3). fold M in H1, H2, H3.
  assert (Hstart : m 0 0 = count_on start dates).
  { unfold m. rewrite <- (cell_of_day end_date dates start) by (fold start; lia).
    fold start. replace (start - start) with 0 by lia. reflexivity. }
  assert (Hle : forall date, start <= date <= end_date -> count_on date dates <= M).
  { intros date Hd. rewrite <- (cell_of_day end_date dates date Hd).
    fold start. fold m.
    rewrite Forall_forall in H3. apply H3. unfold cells.
    apply in_flat_map. exists ((date - start) mod 7). split.
    - apply In_range. apply Z.mod_pos_bound. lia.
    - apply in_map_iff. exists ((date - start) / 7). split; [reflexivity|].
      apply In_range. unfold N.
      pose proof (Z.div_pos (date - start) 7 ltac:(lia) ltac:(lia)).
      pose proof (Z.div_le_mono (date - start) (end_date - start) 7
                    ltac:(lia) ltac:(lia)).
      lia. }
  split; [exact Hle|].
  destruct H1 as [H1|H1].
  - exists start. split; [lia|]. rewrite H1. exact Hstart.
  - unfold cells in H1. apply in_flat_map in H1.
    destruct H1 as (day & _ & H1). apply in_map_iff in H1.
    destruct H1 as (week & H1 & _).
    unfold m in H1. rewrite fill_matrix_weeks_of in H1. fold start in H1.
    destruct ((0 <=? day) && (day <? 7) && (0 <=? 7 * week + day)
              && (start + (7 * week + day) <=? end_date)) eqn:E.
    + rewrite !andb_true_iff, !Z.leb_le, Z.ltb_lt in E.
      exists (start + (7 * week + day)). split; [lia|]. symmetry. exact H1.
    + exists start. split; [lia|].
      pose proof (Hle start ltac:(lia)). pose proof (count_on_nonneg start dates).
      lia.
Qed.

(** X10.  Calendar.  Whenever there is a contribution record, the calendar
    is drawn.  Its first day is a Sunday, at most 364 days before today, and
    it has 52 or 53 columns.  When some day of the calendar has a
    contribution, the squares drawn are exactly the days from the first day
    to today, in order: the square of a day stands in the column of its week
    and the row of its day of the week, and it is coloured after the number
    of records of that very day, relative to the largest number of records
    on one day of the calendar.  When no day of the calendar has a
    contribution, no square is drawn. *)
Theorem calendar_squares (end_date : Z) (dates : list Z) (theme : string) :
  dates <> [] ->
  let start := start_date end_date in
  exists h,
    create_contributions_heatmap end_date dates theme = Drawn h
    /\ weekday start = 6
    /\ end_date - 364 <= start <= end_date - 358
    /\ num_weeks h = (end_date - start) / 7 + 1
    /\ (num_weeks h = 52 \/ num_weeks h = 53)
    /\ (forall date, start <= date <= end_date ->
                     count_on date dates <= max_count h)
    /\ (exists date, start <= date <= end_date
                     /\ max_count h = count_on date dates)
    /\ squares h
       = if 0 <? max_count h
         then map (square_of theme start (max_count h) dates)
                  (date_range start end_date)
         else [].
Proof.
  intros Hne start. unfold create_contributions_heatmap.
  destruct dates as [|d0 dates']; [contradiction|].
  set (dates := d0 :: dates') in *.
  rewrite weeks_of_max_key. fold start.
  pose proof (start_date_bounds end_date) as Hb. fold start in Hb.
  destruct (matrix_max_counts end_date dates) as [Hle Hex].
  eexists. split; [reflexivity|]. cbn [num_weeks max_count squares].
  split; [apply start_date_sunday|].
  split; [exact Hb|].
  split; [reflexivity|].
  split.
  { pose proof (Z.div_mod (end_date - start) 7 ltac:(lia)).
    pose proof (Z.mod_pos_bound (end_date - start) 7 ltac:(lia)). lia. }
  split; [exact Hle|]. split; [exact Hex|].
  destruct (0 <? _); [|reflexivity].
  apply draw_squares_days.
Qed.

(** X10, witness: three records, two of them on the same day, seen on a
    Thursday (ordinal 738000). *)
Lemma calendar_squares_witness :
  [ 737990; 737990; 737641 ] <> []
  /\ weekday 738000 = 3
  /\ start_date 738000 = 737639
  /\ exists h,
       create_contributions_heatmap 738000 [ 737990; 737990; 737641 ] "light"
       = Drawn h
       /\ num_weeks h = 52
       /\ squares h
          = if 0 <? max_count h
            then map (square_of "light" (start_date 738000) (max_count h)
                        [ 737990; 737990; 737641 ])
                     (date_range (start_date 738000) 738000)
            else [].
Proof.
  split; [discriminate|]. split; [reflexivity|]. split; [reflexivity|].
  destruct (calendar_squares 738000 [ 737990; 737990; 737641 ] "light"
              ltac:(discriminate))
    as (h & Hh & _ & _ & Hn & _ & _ & _ & Hs).
  exists h. split; [exact Hh|]. split; [rewrite Hn; reflexivity|exact Hs].
Defined.

(** *** The colours *)

Lemma of_Z_le (a b : Z) : a <= b -> (of_Z a <= of_Z b)%Qc.
Proof.
  intro H. unfold Qcle, of_Z, Q2Qc. cbn [this]. rewrite !Qred_correct.
  rewrite <- Zle_Qle. exact H.
Qed.

Lemma of_Z_lt (a b : Z) : a < b -> (of_Z a < of_Z b)%Qc.
Proof.
  intro H. unfold Qclt, of_Z, Q2Qc. cbn [this]. rewrite !Qred_correct.
  rewrite <- Zlt_Qlt. exact H.
Qed.

Lemma ltb_mono (t x y : Qc) : (x <= y)%Qc -> ltb t x = true -> ltb t y = true.
Proof.
  intros Hxy H. apply ltb_true in H. apply ltb_true.
  eapply Qclt_le_trans; eassumption.
Qed.

Lemma fraction_below (m q : Qc) : (0 < m -> q < 1 -> m * q < m)%Qc.
Proof.
  intros Hm Hq. rewrite <- (Qcmult_1_l m) at 2. rewrite (Qcmult_comm m q).
  apply Qcmult_lt_compat_r; assumption.
Qed.

Lemma color_level_bound (M c : Z) : (color_level M c < 5)%nat.
Proof.
  unfold color_level.
  repeat match goal with
         | |- context [if ?b then _ else _] => destruct b
         end; lia.
Qed.

(** X11.  Colours.  With a positive maximum, a day without contribution
    gets the first colour of the theme and only such a day does, the busiest
    day gets the last one, a day never gets a lighter colour than a day with
    fewer contributions, and the colour is always one of the five of the
    theme. *)
Theorem color_levels (M : Z) :
  0 < M ->
  color_level M M = 4%nat
  /\ (forall c, color_level M c = 0%nat <-> c = 0)
  /\ (forall c1 c2, 0 <= c1 <= c2 ->
                    (color_level M c1 <= color_level M c2)%nat)
  /\ (forall theme c, In (get_color theme M c) (heatmap_colors theme)).
Proof.
  intro HM. pose proof (of_Z_lt 0 M HM) as HMq.
  split; [|split; [|split]].
  - unfold color_level.
    replace (M =? 0) with false by (symmetry; apply Z.eqb_neq; lia).
    rewrite !(proj2 (ltb_true _ _))
      by (apply fraction_below; [exact HMq|reflexivity]).
    reflexivity.
  - intro c. unfold color_level. destruct (c =? 0) eqn:E.
    + apply Z.eqb_eq in E. tauto.
    + apply Z.eqb_neq in E.
      repeat match goal with
             | |- context [if ?b then _ else _] => destruct b
             end; split; intro; try discriminate; contradiction.
  - intros c1 c2 Hc. unfold color_level.
    destruct (c1 =? 0) eqn:E1; [lia|]. apply Z.eqb_neq in E1.
    replace (c2 =? 0) with false by (symmetry; apply Z.eqb_neq; lia).
    pose proof (of_Z_le c1 c2 ltac:(lia)) as Hq.
    destruct (ltb (of_Z M * Q2Qc (25 # 100)) (of_Z c1)) eqn:Ea;
      [rewrite (ltb_mono _ _ _ Hq Ea)|];
      (destruct (ltb (of_Z M * Q2Qc (5 # 10)) (of_Z c1)) eqn:Eb;
       [rewrite (ltb_mono _ _ _ Hq Eb)|]);
      (destruct (ltb (of_Z M * Q2Qc (75 # 100)) (of_Z c1)) eqn:Ec;
       [rewrite (ltb_mono _ _ _ Hq Ec)|]);
      cbn [negb];
      repeat match goal with
             | |- context [if negb ?b then _ else _] => destruct b; cbn [negb]
             end; lia.
  - intros theme c. unfold get_color. apply nth_In.
    pose proof (color_level_bound M c) as Hb.
    unfold heatmap_colors. destruct (String.eqb theme "dark"); exact Hb.
Qed.

(** X11, witness: with a maximum of 4, the counts 0 to 4 get the five
    colours in order. *)
Lemma color_levels_witness :
  0 < 4
  /\ map (color_level 4) [0; 1; 2; 3; 4] = [0; 1; 2; 3; 4]%nat
  /\ color_level 4 4 = 4%nat.
Proof.
  split; [reflexivity|]. split; [reflexivity|].
  exact (proj1 (color_levels 4 eq_refl)).
Defined.

End Calendar.

(* ================================================================== *)
(** ** Contribution records *)

Section Contributions.

Local Open Scope Z_scope.

Lemma sum_Z_app (l1 l2 : list Z) : sum_Z (l1 ++ l2) = sum_Z l1 + sum_Z l2.
Proof.
  unfold sum_Z. induction l1 as [|x l1 IH]; cbn [fold_right app]; [reflexivity|].
  rewrite IH. ring.
Qed.

Lemma repeat_length_appended {A : Type} (x : A) (n : Z) :
  Z.of_nat (List.length (repeat x (Z.to_nat n))) = appended n.
Proof. rewrite repeat_length. unfold appended. lia. Qed.

Lemma appended_nonneg (n : Z) : 0 <= n -> appended n = n.
Proof. unfold appended. lia. Qed.

(** The length of a list built by repeating one record per element. *)
Lemma flat_map_repeat_length {A B : Type} (rec : A -> B) (count : A -> Z)
      (l : list A) :
  Z.of_nat (List.length (flat_map (fun x => repeat (rec x) (Z.to_nat (count x))) l))
  = sum_Z (map (fun x => appended (count x)) l).
Proof.
  induction l as [|x l IH]; [reflexivity|].
  cbn [flat_map map sum_Z fold_right]. rewrite length_app, Nat2Z.inj_add.
  rewrite repeat_length_appended. unfold sum_Z in IH. rewrite IH. reflexivity.
Qed.

Lemma flat_map_repeat_Forall {A B : Type} (P : B -> Prop) (rec : A -> B)
      (count : A -> nat) (l : list A) :
  (forall x, P (rec x)) ->
  Forall P (flat_map (fun x => repeat (rec x) (count x)) l).
Proof.
  intros H. induction l as [|x l IH]; [constructor|].
  cbn [flat_map]. apply Forall_app. split; [|exact IH].
  apply Forall_forall. intros y Hy. apply repeat_spec in Hy. subst y. apply H.
Qed.

Lemma sum_appended_nonneg {A : Type} (count : A -> Z) (l : list A) :
  Forall (fun x => 0 <= count x) l ->
  sum_Z (map (fun x => appended (count x)) l) = sum_Z (map count l).
Proof.
  induction 1 as [|x l Hx _ IH]; [reflexivity|].
  cbn [map sum_Z fold_right]. unfold sum_Z in IH. rewrite IH.
  rewrite appended_nonneg by exact Hx. reflexivity.
Qed.

(** *** The Gitea heatmap *)

Section Gitea.

Variable datetime : Type.
Variable fromtimestamp : Z -> datetime.
Variable datetime_ge : datetime -> datetime -> bool.
Variable isoformat : datetime -> string.
Variable format_date : datetime -> string.
Variable format_int : Z -> string.

Local Abbreviation record := (gitea_record datetime fromtimestamp isoformat format_date format_int).
Local Abbreviation entry_step := (gitea_entry datetime fromtimestamp datetime_ge isoformat format_date format_int).
Local Abbreviation convert := (gitea_convert datetime fromtimestamp datetime_ge isoformat format_date format_int).
Local Abbreviation window := (in_window datetime fromtimestamp datetime_ge).

Lemma gitea_loop (cutoff_date : datetime) (heatmap_data : list HeatmapEntry) :
  forall st,
    let days := filter (window cutoff_date) heatmap_data in
    fold_left (entry_step cutoff_date) heatmap_data st
    = mkGiteaLoop
        (contributions_list st
           ++ flat_map (fun e => repeat (record e) (Z.to_nat (contributions e))) days)
        (gitea_total_contributions st + sum_Z (map contributions days))
        (filtered_days st + Z.of_nat (List.length days)).
Proof.
  induction heatmap_data as [|e l IH]; intros st; cbn zeta.
  - cbn [fold_left filter flat_map map sum_Z fold_right List.length].
    rewrite app_nil_r, !Z.add_0_r. destruct st; reflexivity.
  - cbn [fold_left filter]. rewrite IH. cbn zeta.
    assert (Hstep : entry_step cutoff_date st e
                    = if window cutoff_date e
                      then mkGiteaLoop
                             (append_times (contributions e) (record e)
                                           (contributions_list st))
                             (gitea_total_contributions st + contributions e)
                             (filtered_days st + 1)
                      else st) by reflexivity.
    rewrite Hstep. clear Hstep.
    destruct (window cutoff_date e) eqn:E; [|reflexivity].
    cbn [contributions_list gitea_total_contributions filtered_days
         flat_map map List.length].
    unfold append_times. rewrite <- app_assoc.
    f_equal.
    + unfold sum_Z. cbn [fold_right]. ring.
    + rewrite Nat2Z.inj_succ. ring.
Qed.

(** X12. The conversion of the Gitea heatmap keeps the entries whose date is
    not before the cut-off, in their order, and appends for each of them as
    many copies of one record as its count (none for a count below 1):
    [filtered_days] is the number of entries kept, [total_contributions]
    the sum of their counts, and the length of the list the sum of the
    counts that are positive, which is [total_contributions] when no kept
    count is negative.  Every record has the source ['gitea']. *)
Theorem gitea_conversion (cutoff_date : datetime)
        (heatmap_data : list HeatmapEntry) :
  let st := convert cutoff_date heatmap_data in
  let days := filter (window cutoff_date) heatmap_data in
  contributions_list st
  = flat_map (fun e => repeat (record e) (Z.to_nat (contributions e))) days
  /\ filtered_days st = Z.of_nat (List.length days)
  /\ gitea_total_contributions st = sum_Z (map contributions days)
  /\ Z.of_nat (List.length (contributions_list st))
     = sum_Z (map (fun e => appended (contributions e)) days)
  /\ (Forall (fun e => 0 <= contributions e) days ->
      Z.of_nat (List.length (contributions_list st)) = gitea_total_contributions st)
  /\ Forall (fun c => source c = "gitea" /\ repo c = "Gitea Contributions")
            (contributions_list st).
Proof.
  cbn zeta. unfold gitea_convert. rewrite gitea_loop. cbn zeta.
  cbn [contributions_list gitea_total_contributions filtered_days app].
  rewrite !Z.add_0_l.
  split; [reflexivity|]. split; [reflexivity|]. split; [reflexivity|].
  split; [apply flat_map_repeat_length|]. split.
  - intros H. rewrite flat_map_repeat_length. apply sum_appended_nonneg, H.
  - apply (flat_map_repeat_Forall _ record (fun e => Z.to_nat (contributions e))).
    intros e. split; reflexivity.
Qed.

End Gitea.

(** *** The GitHub contribution calendar *)

Lemma github_week (format_int : Z -> string) (week : list ContributionDay) :
  forall acc,
    fold_left (github_day format_int) week acc
    = acc ++ flat_map (fun day => repeat (github_record format_int day)
                                         (Z.to_nat (contributionCount day))) week.
Proof.
  induction week as [|d l IH]; intros acc; cbn [fold_left flat_map].
  - rewrite app_nil_r. reflexivity.
  - rewrite IH. unfold github_day, append_times. rewrite <- app_assoc. reflexivity.
Qed.

Lemma github_weeks (format_int : Z -> string) (weeks : list (list ContributionDay)) :
  forall acc,
    fold_left (fun acc week => fold_left (github_day format_int) week acc) weeks acc
    = acc ++ flat_map (fun day => repeat (github_record format_int day)
                                         (Z.to_nat (contributionCount day)))
                      (List.concat weeks).
Proof.
  induction weeks as [|w l IH]; intros acc; cbn [fold_left List.concat].
  - cbn [flat_map]. rewrite app_nil_r. reflexivity.
  - rewrite IH, github_week, flat_map_app, app_assoc. reflexivity.
Qed.

(** X13. The conversion of the GitHub calendar goes through the days of all
    weeks in order and appends for each day as many copies of one record as
    its count (none for a count below 1): the list has as many records as
    the positive counts add up to, a day without contributions leaves no
    record, and every record has the source ['github'] and the date of its
    day at noon. *)
Theorem github_conversion (format_int : Z -> string)
        (weeks : list (list ContributionDay)) :
  let l := github_convert format_int weeks in
  let days := List.concat weeks in
  l = flat_map (fun day => repeat (github_record format_int day)
                                  (Z.to_nat (contributionCount day))) days
  /\ Z.of_nat (List.length l)
     = sum_Z (map (fun day => appended (contributionCount day)) days)
  /\ Forall (fun c => source c = "github" /\ repo c = "GitHub Contributions") l
  /\ (forall c, In c l <->
        exists day, In day days /\ 0 < contributionCount day
                    /\ c = github_record format_int day).
Proof.
  cbn zeta. unfold github_convert. rewrite github_weeks. cbn [app].
  split; [reflexivity|]. split; [apply flat_map_repeat_length|]. split.
  - apply (flat_map_repeat_Forall _ (github_record format_int)
             (fun day => Z.to_nat (contributionCount day))).
    intros day. split; reflexivity.
  - intros c. rewrite in_flat_map. split.
    + intros [day [Hd Hc]]. exists day. split; [exact Hd|].
      destruct (Z.to_nat (contributionCount day)) eqn:E; [destruct Hc|].
      apply repeat_spec in Hc. split; [lia|exact Hc].
    + intros [day [Hd [Hpos Hc]]]. exists day. split; [exact Hd|].
      subst c. destruct (Z.to_nat (contributionCount day)) eqn:E; [lia|].
      left. reflexivity.
Qed.

(** *** The summary card *)

Lemma count_source_app (s : string) (a b : list Contribution) :
  count_source s (a ++ b) = count_source s a + count_source s b.
Proof. unfold count_source. rewrite filter_app, length_app. lia. Qed.

Lemma count_source_all (s : string) (l : list Contribution) :
  Forall (fun c => source c = s) l ->
  count_source s l = Z.of_nat (List.length l).
Proof.
  unfold count_source. induction 1 as [|c l Hc _ IH]; [reflexivity|].
  cbn [filter]. rewrite Hc, String.eqb_refl. cbn [List.length]. lia.
Qed.

Lemma count_source_none (s : string) (l : list Contribution) :
  Forall (fun c => source c <> s) l ->
  count_source s l = 0.
Proof.
  unfold count_source. induction 1 as [|c l Hc _ IH]; [reflexivity|].
  cbn [filter]. apply String.eqb_neq in Hc. rewrite Hc. exact IH.
Qed.

Lemma known_sourceb_spec (c : Contribution) :
  known_sourceb c = true <-> known_source c.
Proof.
  unfold known_sourceb, known_source.
  rewrite Bool.orb_true_iff, !String.eqb_eq. reflexivity.
Qed.

Lemma count_known (l : list Contribution) :
  count_source "github" l + count_source "gitea" l
  = Z.of_nat (List.length (filter known_sourceb l)).
Proof.
  unfold count_source. induction l as [|c l IH]; [reflexivity|].
  cbn [filter]. unfold known_sourceb at 1.
  destruct (String.eqb (source c) "github") eqn:E1.
  - apply String.eqb_eq in E1. rewrite E1.
    cbn [String.eqb Ascii.eqb Bool.eqb orb List.length]. lia.
  - destruct (String.eqb (source c) "gitea") eqn:E2;
      cbn [orb List.length]; lia.
Qed.

Lemma filter_length_le {A : Type} (f : A -> bool) (l : list A) :
  (List.length (filter f l) <= List.length l)%nat.
Proof.
  induction l as [|x l IH]; [apply Nat.le_refl|].
  cbn [filter]. destruct (f x); cbn [List.length]; lia.
Qed.

Lemma filter_length_all {A : Type} (f : A -> bool) (l : list A) :
  List.length (filter f l) = List.length l <-> Forall (fun x => f x = true) l.
Proof.
  induction l as [|x l IH]; [split; [constructor|reflexivity]|].
  cbn [filter]. pose proof (filter_length_le f l) as Hle.
  destruct (f x) eqn:E; cbn [List.length]; split; intros H.
  - constructor; [exact E|]. apply IH. lia.
  - inversion H; subst. f_equal. apply IH. assumption.
  - lia.
  - inversion H; subst. congruence.
Qed.

Lemma filter_Permutation {A : Type} (f : A -> bool) (l l' : list A) :
  Permutation l l' -> Permutation (filter f l) (filter f l').
Proof.
  induction 1 as [|x l l' _ IH|x y l|l l' l'' _ IH1 _ IH2]; cbn [filter].
  - constructor.
  - destruct (f x); [constructor|]; exact IH.
  - destruct (f x), (f y); try apply Permutation_refl. constructor.
  - eapply Permutation_trans; eassumption.
Qed.

(** X14. On the summary card the GitHub and the Gitea numbers are counts of
    records of the list whose length is the total: none is negative, their
    sum never exceeds the total, and it is the total exactly when every
    record's source is ['github'] or ['gitea'] (a record with another
    source is counted in the total only).  The numbers do not depend on the
    order of the records. *)
Theorem summary_counts (github_stats gitea_stats : dict Z)
        (contributions : list Contribution) :
  let s := create_summary_stats github_stats gitea_stats contributions in
  0 <= github_contributions s
  /\ 0 <= gitea_contributions s
  /\ github_contributions s + gitea_contributions s
     <= summary_total_contributions s
  /\ (github_contributions s + gitea_contributions s
      = summary_total_contributions s
      <-> Forall known_source contributions)
  /\ (forall contributions',
        Permutation contributions contributions' ->
        create_summary_stats github_stats gitea_stats contributions' = s).
Proof.
  cbn zeta. unfold create_summary_stats.
  cbn [github_contributions gitea_contributions summary_total_contributions].
  pose proof (filter_length_le known_sourceb contributions) as Hle.
  split; [unfold count_source; lia|]. split; [unfold count_source; lia|].
  rewrite count_known. split; [lia|]. split.
  - rewrite Nat2Z.inj_iff, filter_length_all. split; intros H.
    + eapply Forall_impl; [|exact H]. intros c. apply known_sourceb_spec.
    + eapply Forall_impl; [|exact H]. intros c. apply known_sourceb_spec.
  - intros l' HP. unfold count_source.
    rewrite <- (Permutation_length HP).
    rewrite <- (Permutation_length (filter_Permutation _ _ _ HP)).
    rewrite <- (Permutation_length (filter_Permutation _ _ _ HP)).
    reflexivity.
Qed.

(** X15. [main] joins the records of the two fetchers.  When they come
    from the GitHub calendar and the Gitea heatmap, the card shows for
    GitHub the sum of the positive day counts of the calendar, for Gitea
    the sum of the positive counts of the heatmap entries in the time
    range, and as total the sum of the two. *)
Theorem main_counts
        (datetime : Type) (fromtimestamp : Z -> datetime)
        (datetime_ge : datetime -> datetime -> bool)
        (isoformat format_date : datetime -> string)
        (format_int : Z -> string)
        (github_stats gitea_stats : dict Z)
        (weeks : list (list ContributionDay))
        (cutoff_date : datetime) (heatmap_data : list HeatmapEntry) :
  let github := github_convert format_int weeks in
  let gitea :=
    contributions_list
      (gitea_convert datetime fromtimestamp datetime_ge isoformat format_date
                     format_int cutoff_date heatmap_data) in
  let s := main_summary github_stats gitea_stats github gitea in
  github_contributions s
  = sum_Z (map (fun day => appended (contributionCount day)) (List.concat weeks))
  /\ gitea_contributions s
     = sum_Z (map (fun e => appended (contributions e))
                  (filter (in_window datetime fromtimestamp datetime_ge cutoff_date)
                          heatmap_data))
  /\ summary_total_contributions s
     = github_contributions s + gitea_contributions s.
Proof.
  cbn zeta. unfold main_summary, create_summary_stats.
  cbn [github_contributions gitea_contributions summary_total_contributions].
  unfold github_convert, gitea_convert. rewrite github_weeks, gitea_loop.
  cbn zeta. cbn [contributions_list app].
  set (gh := flat_map _ (List.concat weeks)). set (gt := flat_map _ (filter _ heatmap_data)).
  assert (Hgh : Forall (fun c => source c = "github") gh).
  { apply (flat_map_repeat_Forall _ (github_record format_int)
             (fun day => Z.to_nat (contributionCount day))).
    intros day. reflexivity. }
  assert (Hgt : Forall (fun c => source c = "gitea") gt).
  { apply (flat_map_repeat_Forall _
             (gitea_record datetime fromtimestamp isoformat format_date format_int)
             (fun e => Z.to_nat (contributions e))).
    intros e. reflexivity. }
  assert (Hgh' : Forall (fun c => source c <> "gitea") gh).
  { eapply Forall_impl; [|exact Hgh]. cbn beta. intros c H. rewrite H. discriminate. }
  assert (Hgt' : Forall (fun c => source c <> "github") gt).
  { eapply Forall_impl; [|exact Hgt]. cbn beta. intros c H. rewrite H. discriminate. }
  rewrite !count_source_app.
  rewrite (count_source_all _ _ Hgh), (count_source_none _ _ Hgt').
  rewrite (count_source_all _ _ Hgt), (count_source_none _ _ Hgh').
  rewrite length_app, Nat2Z.inj_add.
  unfold gh, gt. rewrite !flat_map_repeat_length.
  repeat split; ring.
Qed.

End Contributions.


(* ================================================================== *)
(** ** The cache *)

Section DictRemove.

Context {V : Type}.
Implicit Types (d : dict V) (k : string).

Lemma dict_get_remove_same k d : dict_get k (dict_remove k d) = None.
Proof.
  induction d as [|[k' v] d IH]; [reflexivity|].
  cbn [dict_remove]. destruct (String.eqb k k') eqn:E; [exact IH|].
  cbn [dict_get]. rewrite E. exact IH.
Qed.

Lemma dict_get_remove_other k k' d :
  k <> k' -> dict_get k' (dict_remove k d) = dict_get k' d.
Proof.
  intros Hne. induction d as [|[k0 v] d IH]; [reflexivity|].
  cbn [dict_remove dict_get]. destruct (String.eqb k k0) eqn:E.
  - apply String.eqb_eq in E. subst k0.
    assert (E' : String.eqb k' k = false)
      by (apply String.eqb_neq; congruence).
    rewrite E'. exact IH.
  - cbn [dict_get]. rewrite IH. reflexivity.
Qed.

Lemma dict_contains_remove_same k d : dict_contains k (dict_remove k d) = false.
Proof. unfold dict_contains. rewrite dict_get_remove_same. reflexivity. Qed.

Lemma dict_remove_set k k' (v : V) d :
  k <> k' -> dict_remove k' (dict_set k v d) = dict_set k v (dict_remove k' d).
Proof.
  intros Hne.
  assert (E' : String.eqb k' k = false) by (apply String.eqb_neq; congruence).
  induction d as [|[k0 v0] d IH].
  - cbn [dict_set dict_remove]. rewrite E'. reflexivity.
  - cbn [dict_set dict_remove]. destruct (String.eqb k k0) eqn:E.
    + apply String.eqb_eq in E. subst k0. rewrite E'.
      cbn [dict_remove dict_set]. rewrite E', String.eqb_refl. reflexivity.
    + destruct (String.eqb k' k0) eqn:E0; cbn [dict_remove dict_set];
        rewrite E0; [exact IH|]. rewrite E, IH. reflexivity.
Qed.

End DictRemove.

Lemma append_length (s t : string) :
  String.length (s ++ t) = (String.length s + String.length t)%nat.
Proof. induction s as [|c s IH]; cbn; [reflexivity|]. rewrite IH. reflexivity. Qed.

Lemma append_inj_l (s s' t : string) : (s ++ t = s' ++ t)%string -> s = s'.
Proof.
  revert s'. induction s as [|c s IH]; intros [|c' s'] H; cbn in H.
  - reflexivity.
  - apply (f_equal String.length) in H. cbn in H. rewrite append_length in H. lia.
  - apply (f_equal String.length) in H. cbn in H. rewrite append_length in H. lia.
  - injection H as Hc H. subst c'. f_equal. apply IH, H.
Qed.

Lemma endswith_append (s suffix : string) : endswith (s ++ suffix) suffix = true.
Proof.
  induction s as [|c s IH]; cbn [String.append].
  - destruct suffix; cbn [endswith]; rewrite String.eqb_refl; reflexivity.
  - cbn [endswith]. rewrite IH. apply Bool.orb_true_r.
Qed.

Section CacheFacts.

Import CacheManager.

Local Open Scope Z_scope.

Variable md5_hexdigest : string -> string.
Variable isoformat : Z -> string.
Variable fromisoformat : string -> option datetime.
Variable cache_duration : Z.

Local Abbreviation file_of := (_get_cache_key md5_hexdigest).
Local Abbreviation cache_get := (get md5_hexdigest fromisoformat cache_duration).
Local Abbreviation cache_set := (CacheManager.set md5_hexdigest isoformat).
Local Abbreviation cache_clear := (CacheManager.clear md5_hexdigest).

Lemma file_of_inj (key key' : string) :
  file_of key = file_of key' -> md5_hexdigest key = md5_hexdigest key'.
Proof. unfold _get_cache_key. apply append_inj_l. Qed.

(** [get] on a directory without the file. *)
Lemma get_absent (fs : directory) (now : Z) (key : string) :
  dict_get (file_of key) fs = None ->
  cache_get fs now key = (Return JNull, fs).
Proof. intros H. unfold get, dict_contains. rewrite H. reflexivity. Qed.

(** The paths through [get], by the content of the file. *)
Ltac get_paths Hfile Hts Hiso Hage Hdata :=
  unfold get, get_try, dict_contains;
  match goal with
  | |- context [dict_get (_get_cache_key ?h ?k) ?fs] =>
      destruct (dict_get (_get_cache_key h k) fs) as [[|[| | | | |?members]]|] eqn:Hfile
  end;
  cbn [negb json_load and_then getitem];
  try match goal with
  | |- context [dict_get "timestamp" ?m] =>
      destruct (dict_get "timestamp" m) as [[| | |?s| |]|] eqn:Hts;
      cbn [and_then parse_time];
      try match goal with
      | |- context [?f s] =>
          destruct (f s) as [[?t|?t ?o]|] eqn:Hiso;
          cbn [and_then elapsed];
          try match goal with
          | |- context [(?d <? ?a)%Z] =>
              destruct (Z.ltb_spec d a) as [Hage|Hage];
              cbn [and_then];
              try match goal with
              | |- context [dict_get "data" ?m] =>
                  destruct (dict_get "data" m) eqn:Hdata; cbn [and_then]
              end
          end
      end
  end.

(** [get] leaves the directory as it is, or removes the file and returns
    [None]. *)
Lemma get_two_ways (fs : directory) (now : Z) (key : string) :
  (exists r, cache_get fs now key = (r, fs))
  \/ cache_get fs now key = (Return JNull, dict_remove (file_of key) fs).
Proof.
  get_paths Hfile Hts Hiso Hage Hdata;
    first [ right; reflexivity | left; eexists; reflexivity ].
Qed.

(** X16. A value stored under a key is read back, with the directory left
    as it is, by a [get] of a key with the same MD5 digest (the key itself
    is not compared) as long as no more than [cache_duration] has passed
    since the [set], the bound included; this supposes that
    [fromisoformat] reads the text of the instant of the [set] back. *)
Theorem cache_round_trip (fs : directory) (now now' : Z) (key key' : string)
        (data : Json) :
  fromisoformat (isoformat now) = Some (Naive now) ->
  now' - now <= cache_duration ->
  md5_hexdigest key' = md5_hexdigest key ->
  cache_get (cache_set fs now key data) now' key'
  = (Return data, cache_set fs now key data).
Proof.
  intros Hiso Hage Hmd5.
  unfold get, get_try, dict_contains, CacheManager.set, _get_cache_key.
  rewrite Hmd5, dict_get_set_same.
  cbn [negb json_load and_then getitem dict_get String.eqb Ascii.eqb Bool.eqb
       parse_time].
  rewrite Hiso. cbn [and_then elapsed].
  destruct (Z.ltb_spec cache_duration (now' - now)) as [H|H]; [lia|].
  reflexivity.
Qed.

(** X17. Once more than [cache_duration] has passed since the [set], [get]
    returns [None] and removes the file, and from then on every [get] of the
    key returns [None] and leaves the directory as it is. *)
Theorem cache_expiry (fs : directory) (now now' : Z) (key : string)
        (data : Json) :
  fromisoformat (isoformat now) = Some (Naive now) ->
  cache_duration < now' - now ->
  let stored := cache_set fs now key data in
  let removed := dict_remove (file_of key) stored in
  cache_get stored now' key = (Return JNull, removed)
  /\ forall later, cache_get removed later key = (Return JNull, removed).
Proof.
  intros Hiso Hage. cbn zeta. split.
  - unfold get, get_try, dict_contains, CacheManager.set.
    rewrite dict_get_set_same.
    cbn [negb json_load and_then getitem dict_get String.eqb Ascii.eqb Bool.eqb
         parse_time].
    rewrite Hiso. cbn [and_then elapsed].
    destruct (Z.ltb_spec cache_duration (now' - now)) as [H|H]; [|lia].
    reflexivity.
  - intros later. apply get_absent, dict_get_remove_same.
Qed.

(** X18. Whatever the directory holds, a value other than [None] comes out
    of [get] only from a file that decodes to an object whose ['timestamp']
    is the text of an instant without time zone at most [cache_duration]
    before now; the value is the object's ['data'] and the directory is
    left as it is. *)
Theorem cache_hit_is_fresh (fs fs' : directory) (now : Z) (key : string)
        (value : Json) :
  cache_get fs now key = (Return value, fs') ->
  value <> JNull ->
  fs' = fs
  /\ exists members s t,
       dict_get (file_of key) fs = Some (Encodes (JObject members))
       /\ dict_get "timestamp" members = Some (JString s)
       /\ fromisoformat s = Some (Naive t)
       /\ now - t <= cache_duration
       /\ dict_get "data" members = Some value.
Proof.
  get_paths Hfile Hts Hiso Hage Hdata; intros H Hnull;
    try discriminate H; injection H as Hv Hfs; try (symmetry in Hv; contradiction).
  subst. split; [reflexivity|].
  exists members, s, t. repeat split; assumption.
Qed.

(** X19. [get] touches no file but the one of its key; it changes the
    directory only by removing that file, and then returns [None]; the file
    is removed whenever it is there but does not decode, has no
    ['timestamp'] or ['data'], or has a ['timestamp'] that is no instant;
    and a second [get] at the same instant gives the same result without a
    further change. *)
Theorem cache_get_effect (fs : directory) (now : Z) (key : string) :
  let result := fst (cache_get fs now key) in
  let fs' := snd (cache_get fs now key) in
  (forall file, file <> file_of key -> dict_get file fs' = dict_get file fs)
  /\ (fs' = fs
      \/ (result = Return JNull /\ fs' = dict_remove (file_of key) fs))
  /\ (dict_get (file_of key) fs = Some NotJson ->
      result = Return JNull /\ dict_get (file_of key) fs' = None)
  /\ (forall members,
        dict_get (file_of key) fs = Some (Encodes (JObject members)) ->
        dict_get "timestamp" members = None
        \/ (exists s, dict_get "timestamp" members = Some (JString s)
                      /\ fromisoformat s = None)
        \/ (exists s t, dict_get "timestamp" members = Some (JString s)
                        /\ fromisoformat s = Some (Naive t)
                        /\ now - t <= cache_duration
                        /\ dict_get "data" members = None) ->
        result = Return JNull /\ dict_get (file_of key) fs' = None)
  /\ cache_get fs' now key = (result, fs').
Proof.
  cbn zeta.
  assert (Hmain :
            (forall file, file <> file_of key ->
               dict_get file (snd (cache_get fs now key)) = dict_get file fs)
            /\ (snd (cache_get fs now key) = fs
                \/ (fst (cache_get fs now key) = Return JNull
                    /\ snd (cache_get fs now key) = dict_remove (file_of key) fs))
            /\ cache_get (snd (cache_get fs now key)) now key
               = (fst (cache_get fs now key), snd (cache_get fs now key))).
  { destruct (get_two_ways fs now key) as [[r H]|H]; rewrite H; cbn [fst snd].
    - rewrite H. tauto.
    - split; [|split].
      + intros file Hne. apply dict_get_remove_other. congruence.
      + right. split; reflexivity.
      + apply get_absent, dict_get_remove_same. }
  destruct Hmain as [H1 [H2 H5]].
  split; [exact H1|]. split; [exact H2|]. split; [|split; [|exact H5]].
  - intros Hfile. unfold get, get_try, dict_contains. rewrite Hfile.
    cbn [negb json_load and_then fst snd]. split; [reflexivity|].
    apply dict_get_remove_same.
  - intros members Hfile Hcases. unfold get, get_try, dict_contains.
    rewrite Hfile. cbn [negb json_load and_then getitem].
    destruct Hcases as [Hts|[[s [Hts Hiso]]|[s [t [Hts [Hiso [Hage Hdata]]]]]]];
      rewrite Hts; cbn [and_then parse_time]; try rewrite Hiso;
      cbn [and_then elapsed fst snd].
    + split; [reflexivity|]. apply dict_get_remove_same.
    + split; [reflexivity|]. apply dict_get_remove_same.
    + destruct (Z.ltb_spec cache_duration (now - t)) as [H|H]; [lia|].
      rewrite Hdata. cbn [and_then fst snd].
      split; [reflexivity|]. apply dict_get_remove_same.
Qed.


(** X20. The only exception that comes out of [get] is [TypeError]; on a
    file that decodes it is raised exactly when the value is not an object,
    or its ['timestamp'] is not a string or is an instant with a time zone.
    The file is then left in place, so that every later [get] of the key
    raises as well. *)
Theorem cache_get_raises (fs : directory) (now : Z) (key : string) :
  (forall e, fst (cache_get fs now key) = Raise e -> e = TypeError)
  /\ (forall value,
        dict_get (file_of key) fs = Some (Encodes value) ->
        (fst (cache_get fs now key) = Raise TypeError
         <-> ill_typed fromisoformat value = true))
  /\ (forall e, fst (cache_get fs now key) = Raise e ->
      forall later, cache_get fs later key = (Raise e, fs)).
Proof.
  split; [|split].
  - intros e. get_paths Hfile Hts Hiso Hage Hdata; cbn [fst]; intros H;
      try discriminate H; injection H as <-; reflexivity.
  - intros value. get_paths Hfile Hts Hiso Hage Hdata; cbn [fst]; intros H;
      try discriminate H; injection H as <-; cbn [ill_typed];
      rewrite ?Hts, ?Hiso; split; intros H;
      first [ reflexivity | discriminate H ].
  - intros e H later. revert H.
    unfold get at 1. unfold get_try, dict_contains.
    destruct (dict_get (file_of key) fs) as [[|value]|] eqn:Hfile;
      cbn [negb json_load and_then fst]; try discriminate.
    destruct value as [| | | | |members]; cbn [getitem and_then];
      try (intros H; injection H as <-;
           unfold get, get_try, dict_contains; rewrite Hfile; reflexivity).
    destruct (dict_get "timestamp" members) as [[| | |s| |]|] eqn:Hts;
      cbn [and_then parse_time]; try discriminate;
      try (intros H; injection H as <-;
           unfold get, get_try, dict_contains; rewrite Hfile;
           cbn [negb json_load and_then getitem]; rewrite Hts; reflexivity).
    destruct (fromisoformat s) as [[t|t o]|] eqn:Hiso;
      cbn [and_then elapsed]; try discriminate.
    + destruct (cache_duration <? now - t); cbn [and_then]; try discriminate.
      destruct (dict_get "data" members); cbn [and_then]; discriminate.
    + intros H; injection H as <-.
      unfold get, get_try, dict_contains. rewrite Hfile.
      cbn [negb json_load and_then getitem]. rewrite Hts.
      cbn [and_then parse_time]. rewrite Hiso. reflexivity.
Qed.

Lemma mem_keys_false {V : Type} (k : string) (d : dict V) :
  mem k (dict_keys d) = false -> dict_get k d = None.
Proof.
  intros H. apply dict_get_None_keys. intros Hin.
  assert (Ht : mem k (dict_keys d) = true).
  { unfold mem. apply existsb_exists. exists k. split; [exact Hin|].
    apply String.eqb_refl. }
  congruence.
Qed.

(** The loop of [clear()], file by file. *)
Lemma clear_loop (names : list string) :
  forall (fs : directory) (file : string),
    dict_get file
      (fold_left
         (fun fs filename =>
            if endswith filename ".json" then dict_remove filename fs else fs)
         names fs)
    = if endswith file ".json" && mem file names then None
      else dict_get file fs.
Proof.
  induction names as [|n names IH]; intros fs file; cbn [fold_left].
  - unfold mem. cbn [existsb]. rewrite Bool.andb_false_r. reflexivity.
  - rewrite IH. unfold mem. cbn [existsb]. fold (mem file names).
    destruct (endswith file ".json") eqn:Ef; cbn [andb].
    + destruct (mem file names); [rewrite Bool.orb_true_r; reflexivity|].
      rewrite Bool.orb_false_r.
      destruct (String.eqb file n) eqn:E.
      * apply String.eqb_eq in E. subst n. rewrite Ef.
        apply dict_get_remove_same.
      * apply String.eqb_neq in E.
        destruct (endswith n ".json"); [|reflexivity].
        apply dict_get_remove_other. congruence.
    + destruct (endswith n ".json") eqn:En; [|reflexivity].
      apply dict_get_remove_other. intros ->. congruence.
Qed.

(** X21. [clear()] removes every file whose name ends in [.json] and no
    other, and [clear(key)] the file of the key and no other; after either,
    a [get] of a cleared key returns [None] and changes nothing. *)
Theorem cache_clear_removes (fs : directory) (key : string) :
  let emptied := cache_clear fs None in
  let cleared := cache_clear fs (Some key) in
  (forall file,
      dict_get file emptied
      = if endswith file ".json" then None else dict_get file fs)
  /\ (forall now key', cache_get emptied now key' = (Return JNull, emptied))
  /\ (forall file,
        dict_get file cleared
        = if String.eqb file (file_of key) then None else dict_get file fs)
  /\ (forall now, cache_get cleared now key = (Return JNull, cleared)).
Proof.
  cbn zeta.
  assert (Hall : forall file,
             dict_get file (cache_clear fs None)
             = if endswith file ".json" then None else dict_get file fs).
  { intros file. unfold clear. rewrite clear_loop.
    destruct (endswith file ".json"); cbn [andb]; [|reflexivity].
    destruct (mem file (dict_keys fs)) eqn:E; [reflexivity|].
    apply mem_keys_false, E. }
  assert (Hone : forall file,
             dict_get file (cache_clear fs (Some key))
             = if String.eqb file (file_of key) then None else dict_get file fs).
  { intros file. unfold clear, dict_contains.
    destruct (String.eqb file (file_of key)) eqn:E.
    - apply String.eqb_eq in E. subst file.
      destruct (dict_get (file_of key) fs) eqn:Hf;
        [apply dict_get_remove_same|exact Hf].
    - apply String.eqb_neq in E.
      destruct (dict_get (file_of key) fs);
        [apply dict_get_remove_other; congruence|reflexivity]. }
  split; [exact Hall|]. split; [|split; [exact Hone|]].
  - intros now key'. apply get_absent. rewrite Hall.
    unfold _get_cache_key. rewrite endswith_append. reflexivity.
  - intros now. apply get_absent. rewrite Hone, String.eqb_refl. reflexivity.
Qed.

(** The result of [get] depends on the directory through the file of the
    key alone. *)
Lemma get_depends_on_file (fs1 fs2 : directory) (now : Z) (key : string) :
  dict_get (file_of key) fs1 = dict_get (file_of key) fs2 ->
  fst (cache_get fs1 now key) = fst (cache_get fs2 now key)
  /\ ((snd (cache_get fs1 now key) = fs1 /\ snd (cache_get fs2 now key) = fs2)
      \/ (snd (cache_get fs1 now key) = dict_remove (file_of key) fs1
          /\ snd (cache_get fs2 now key) = dict_remove (file_of key) fs2)).
Proof.
  intros H. unfold get, get_try, dict_contains. rewrite H.
  destruct (dict_get (file_of key) fs2) as [[|[| | | | |members]]|];
    cbn [negb json_load and_then getitem fst snd]; try tauto.
  destruct (dict_get "timestamp" members) as [[| | |s| |]|];
    cbn [and_then parse_time fst snd]; try tauto.
  destruct (fromisoformat s) as [[t|t o]|];
    cbn [and_then elapsed fst snd]; try tauto.
  destruct (cache_duration <? now - t); cbn [and_then fst snd]; try tauto.
  destruct (dict_get "data" members); cbn [and_then fst snd]; tauto.
Qed.

(** X22. Keys with different MD5 digests do not see each other: a [get]
    of one gives the same result before and after a [set] of the other, and
    the two operations can be done in either order. *)
Theorem cache_keys_independent (fs : directory) (now now' : Z)
        (key key' : string) (data : Json) :
  md5_hexdigest key <> md5_hexdigest key' ->
  cache_get (cache_set fs now key data) now' key'
  = (fst (cache_get fs now' key'),
     cache_set (snd (cache_get fs now' key')) now key data).
Proof.
  intros Hne.
  assert (Hfile : file_of key <> file_of key').
  { intros H. apply Hne, file_of_inj, H. }
  assert (Hget : dict_get (file_of key') (cache_set fs now key data)
                 = dict_get (file_of key') fs).
  { unfold CacheManager.set. apply dict_get_set_other. congruence. }
  destruct (get_depends_on_file _ _ now' key' Hget) as [Hr [[H1 H2]|[H1 H2]]];
    rewrite (surjective_pairing (cache_get (cache_set fs now key data) now' key')),
            Hr, H1, H2; [reflexivity|].
  unfold CacheManager.set. rewrite dict_remove_set by exact Hfile. reflexivity.
Qed.

End CacheFacts.

Lemma cache_round_trip_witness :
  let md5_hexdigest := fun _ : string => "d41d8cd98f00b204e9800998ecf8427e" in
  let isoformat := fun _ : Z => "2024-01-01T00:00:00" in
  let fromisoformat := fun _ : string => Some (CacheManager.Naive 0) in
  let data := CacheManager.JArray [CacheManager.JString "x"] in
  let stored := CacheManager.set md5_hexdigest isoformat [] 0%Z "" data in
  CacheManager.get md5_hexdigest fromisoformat 86400%Z stored 3600%Z ""
  = (CacheManager.Return data, stored).
Proof.
  cbn zeta.
  apply (cache_round_trip (fun _ => "d41d8cd98f00b204e9800998ecf8427e")
           (fun _ => "2024-01-01T00:00:00")
           (fun _ => Some (CacheManager.Naive 0)) 86400%Z [] 0%Z 3600%Z "" "");
    [reflexivity|discriminate|reflexivity].
Defined.

Lemma cache_expiry_witness :
  let md5_hexdigest := fun _ : string => "d41d8cd98f00b204e9800998ecf8427e" in
  let isoformat := fun _ : Z => "2024-01-01T00:00:00" in
  let fromisoformat := fun _ : string => Some (CacheManager.Naive 0) in
  let stored :=
    CacheManager.set md5_hexdigest isoformat [] 0%Z "" CacheManager.JNull in
  CacheManager.get md5_hexdigest fromisoformat 86400%Z stored 86401%Z ""
  = (CacheManager.Return CacheManager.JNull, []).
Proof.
  cbn zeta.
  exact (proj1 (cache_expiry (fun _ => "d41d8cd98f00b204e9800998ecf8427e")
                  (fun _ => "2024-01-01T00:00:00")
                  (fun _ => Some (CacheManager.Naive 0)) 86400%Z [] 0%Z 86401%Z
                  "" CacheManager.JNull eq_refl eq_refl)).
Defined.

Lemma cache_hit_is_fresh_witness :
  let md5_hexdigest := fun _ : string => "d41d8cd98f00b204e9800998ecf8427e" in
  let fromisoformat := fun _ : string => Some (CacheManager.Naive 0) in
  let members :=
    [("timestamp", CacheManager.JString "2024-01-01T00:00:00");
     ("data", CacheManager.JBool true)] in
  let fs :=
    [("d41d8cd98f00b204e9800998ecf8427e.json",
      CacheManager.Encodes (CacheManager.JObject members))] in
  CacheManager.get md5_hexdigest fromisoformat 86400%Z fs 3600%Z ""
  = (CacheManager.Return (CacheManager.JBool true), fs)
  /\ CacheManager.JBool true <> CacheManager.JNull
  /\ dict_get "data" members = Some (CacheManager.JBool true).
Proof.
  cbn zeta. split; [reflexivity|]. split; [discriminate|].
  destruct (cache_hit_is_fresh (fun _ => "d41d8cd98f00b204e9800998ecf8427e")
              (fun _ => Some (CacheManager.Naive 0)) 86400%Z
              [("d41d8cd98f00b204e9800998ecf8427e.json",
                CacheManager.Encodes
                  (CacheManager.JObject
                     [("timestamp", CacheManager.JString "2024-01-01T00:00:00");
                      ("data", CacheManager.JBool true)]))]
              _ 3600%Z "" (CacheManager.JBool true) eq_refl)
    as [_ [members [s [t [Hfile [_ [_ [_ Hdata]]]]]]]];
    [discriminate|].
  injection Hfile as <-. exact Hdata.
Defined.

Lemma cache_keys_independent_witness :
  let md5_hexdigest := fun key : string =>
    if String.eqb key "a" then "0cc175b9c0f1b6a831c399e269772661"
    else "92eb5ffee6ae2fec3ad71c777531578f" in
  let isoformat := fun _ : Z => "2024-01-01T00:00:00" in
  let fromisoformat := fun _ : string => Some (CacheManager.Naive 0) in
  CacheManager.get md5_hexdigest fromisoformat 86400%Z
    (CacheManager.set md5_hexdigest isoformat [] 0%Z "a" CacheManager.JNull)
    3600%Z "b"
  = (CacheManager.Return CacheManager.JNull,
     CacheManager.set md5_hexdigest isoformat [] 0%Z "a" CacheManager.JNull).
Proof.
  cbn zeta.
  apply (cache_keys_independent
           (fun key => if String.eqb key "a"
                       then "0cc175b9c0f1b6a831c399e269772661"
                       else "92eb5ffee6ae2fec3ad71c777531578f")
           (fun _ => "2024-01-01T00:00:00")
           (fun _ => Some (CacheManager.Naive 0)) 86400%Z [] 0%Z 3600%Z "a" "b").
  discriminate.
Defined.


(* ================================================================== *)
(** ** Repository statistics *)

Section Statistics.

Local Open Scope Z_scope.

Lemma get_or_zero_add_to_same (k : string) (v : Z) (stats : dict Z) :
  get_or_zero k (add_to k v stats) = get_or_zero k stats + v.
Proof. unfold add_to, get_or_zero at 1. rewrite dict_get_set_same. reflexivity. Qed.

Lemma dict_get_add_to_other (k k' : string) (v : Z) (stats : dict Z) :
  k' <> k -> dict_get k' (add_to k v stats) = dict_get k' stats.
Proof. intros H. unfold add_to. apply dict_get_set_other, H. Qed.

Lemma get_or_zero_add_to_other (k k' : string) (v : Z) (stats : dict Z) :
  k' <> k -> get_or_zero k' (add_to k v stats) = get_or_zero k' stats.
Proof. intros H. unfold get_or_zero. rewrite dict_get_add_to_other by exact H. reflexivity. Qed.

Lemma dict_contains_add_to (k k' : string) (v : Z) (stats : dict Z) :
  dict_contains k' stats = true -> dict_contains k' (add_to k v stats) = true.
Proof.
  unfold dict_contains. destruct (String.eqb k' k) eqn:E.
  - apply String.eqb_eq in E. subst k'. unfold add_to.
    rewrite dict_get_set_same. reflexivity.
  - apply String.eqb_neq in E. rewrite dict_get_add_to_other by exact E. tauto.
Qed.

(** A counter that is present holds the sum of what was added to it. *)
Lemma dict_get_present (k : string) (stats : dict Z) :
  dict_contains k stats = true -> dict_get k stats = Some (get_or_zero k stats).
Proof.
  unfold dict_contains, get_or_zero. destruct (dict_get k stats); [reflexivity|discriminate].
Qed.

Lemma sum_values_increment (k : string) (d : dict Z) :
  sum_Z (dict_values (dict_set k (get_or_zero k d + 1) d))
  = sum_Z (dict_values d) + 1.
Proof.
  unfold get_or_zero, dict_values, sum_Z.
  induction d as [|[k' v] d IH]; cbn [dict_set dict_get map fold_right snd].
  - reflexivity.
  - destruct (String.eqb k k'); cbn [map fold_right snd]; [ring|].
    rewrite IH. ring.
Qed.

Lemma count_language_snoc (name : string) (pre : list Repository) (repo : Repository) :
  count_language name (pre ++ [repo])
  = count_language name pre + (if has_language name repo then 1 else 0).
Proof.
  unfold count_language. rewrite filter_app, length_app. cbn [filter].
  destruct (has_language name repo); cbn [List.length]; lia.
Qed.

Lemma count_language_nonneg (name : string) (repos : list Repository) :
  0 <= count_language name repos.
Proof. unfold count_language. lia. Qed.

Lemma sum_Z_snoc (l : list Z) (x : Z) : sum_Z (l ++ [x]) = sum_Z l + x.
Proof. rewrite sum_Z_app. unfold sum_Z. cbn [fold_right]. ring. Qed.

Lemma github_repo_invariant (n : Z) (pre : list Repository)
      (st : dict Z * dict Z) (repo : Repository) :
  github_loop_invariant n pre st ->
  github_loop_invariant n (pre ++ [repo]) (github_repo st repo).
Proof.
  destruct st as [stats languages]. unfold github_loop_invariant.
  cbn [fst snd]. intros [H1 [H2 [H3 [H4 H5]]]].
  assert (Hfst : fst (github_repo (stats, languages) repo)
                 = add_to "total_forks" (or_zero (forks_count repo))
                     (add_to "total_stars" (or_zero (stargazers_count repo)) stats)).
  { unfold github_repo. destruct (truthy (language repo)); reflexivity. }
  assert (Hsnd : snd (github_repo (stats, languages) repo)
                 = match truthy (language repo) with
                   | Some name =>
                       dict_set name (get_or_zero name languages + 1) languages
                   | None => languages
                   end).
  { unfold github_repo. destruct (truthy (language repo)); reflexivity. }
  rewrite Hfst, Hsnd. clear Hfst Hsnd.
  split; [|split; [|split; [|split]]].
  - rewrite !dict_get_add_to_other by discriminate. exact H1.
  - rewrite dict_get_add_to_other by discriminate.
    unfold add_to. rewrite dict_get_set_same. unfold get_or_zero. rewrite H2.
    rewrite map_app. cbn [map]. rewrite sum_Z_snoc. reflexivity.
  - unfold add_to at 1. rewrite dict_get_set_same.
    rewrite get_or_zero_add_to_other by discriminate.
    unfold get_or_zero. rewrite H3.
    rewrite map_app. cbn [map]. rewrite sum_Z_snoc. reflexivity.
  - intros name. rewrite count_language_snoc. unfold has_language.
    pose proof (count_language_nonneg name pre) as Hc.
    destruct (truthy (language repo)) as [l|].
    + destruct (String.eqb l name) eqn:E.
      * apply String.eqb_eq in E. subst l. rewrite dict_get_set_same.
        unfold get_or_zero. rewrite H4.
        destruct (Z.ltb_spec 0 (count_language name pre));
          destruct (Z.ltb_spec 0 (count_language name pre + 1)); try lia;
          f_equal; lia.
      * apply String.eqb_neq in E.
        rewrite dict_get_set_other by congruence. rewrite Z.add_0_r. apply H4.
    + rewrite Z.add_0_r. apply H4.
  - rewrite filter_app, length_app. cbn [filter].
    assert (E : has_a_language repo
                = match truthy (language repo) with
                  | Some _ => true
                  | None => false
                  end) by reflexivity.
    rewrite E. clear E.
    destruct (truthy (language repo)) as [l|]; cbn [List.length].
    + rewrite sum_values_increment, H5. lia.
    + rewrite H5. lia.
Qed.

Lemma github_stats_invariant (repos : list Repository) :
  github_loop_invariant (Z.of_nat (List.length repos)) repos
                        (get_github_stats (Some repos)).
Proof.
  unfold get_github_stats.
  apply (fold_left_invariant github_repo
           (github_loop_invariant (Z.of_nat (List.length repos)))).
  - unfold github_loop_invariant. cbn [fst snd]. repeat split.
  - intros pre x s _. apply github_repo_invariant.
Qed.

(** X23. From the repositories of the response [get_github_stats_async]
    computes their number, the sums of their stars and of their forks (a
    repository without the key adds nothing), and for each language the
    number of repositories that have it; a language no repository has,
    and the empty name, are no keys of ['languages'], whose counts add up to
    the number of repositories with a language. *)
Theorem github_stats_totals (repos : list Repository) :
  let stats := fst (get_github_stats (Some repos)) in
  let languages := snd (get_github_stats (Some repos)) in
  dict_get "total_repos" stats = Some (Z.of_nat (List.length repos))
  /\ dict_get "total_stars" stats
     = Some (sum_Z (map (fun repo => or_zero (stargazers_count repo)) repos))
  /\ dict_get "total_forks" stats
     = Some (sum_Z (map (fun repo => or_zero (forks_count repo)) repos))
  /\ (forall name,
        dict_get name languages
        = if 0 <? count_language name repos
          then Some (count_language name repos) else None)
  /\ dict_get "" languages = None
  /\ sum_Z (dict_values languages)
     = Z.of_nat (List.length (filter has_a_language repos))
  /\ sum_Z (dict_values languages) <= Z.of_nat (List.length repos).
Proof.
  cbn zeta.
  destruct (github_stats_invariant repos) as [H1 [H2 [H3 [H4 H5]]]].
  split; [exact H1|]. split; [exact H2|]. split; [exact H3|].
  split; [exact H4|]. split; [|split; [exact H5|]].
  - rewrite H4.
    assert (E : count_language "" repos = 0).
    { unfold count_language.
      assert (Hn : filter (has_language "") repos = []).
      { clear. induction repos as [|r l IH]; [reflexivity|].
        cbn [filter]. unfold has_language at 1, truthy.
        destruct (language r) as [s|]; [|exact IH].
        destruct (String.eqb s "") eqn:E; [exact IH|]. rewrite E. exact IH. }
      rewrite Hn. reflexivity. }
    rewrite E. reflexivity.
  - rewrite H5. apply inj_le. clear.
    induction repos as [|r l IH]; [apply Nat.le_refl|].
    cbn [filter]. destruct (has_a_language r); cbn [List.length]; lia.
Qed.

Lemma gitea_stats_loop (repos : list (option Z)) :
  forall stats,
    dict_contains "total_stars" stats = true ->
    let stats' :=
      fold_left (fun stats stars_count =>
                   add_to "total_stars" (or_zero stars_count) stats)
                repos stats in
    dict_get "total_repos" stats' = dict_get "total_repos" stats
    /\ dict_get "total_stars" stats'
       = Some (get_or_zero "total_stars" stats + sum_Z (map or_zero repos)).
Proof.
  induction repos as [|r l IH]; intros stats Hc; cbn zeta; cbn [fold_left].
  - split; [reflexivity|]. cbn [map]. unfold sum_Z. cbn [fold_right].
    rewrite Z.add_0_r. apply dict_get_present, Hc.
  - destruct (IH (add_to "total_stars" (or_zero r) stats)) as [H1 H2].
    + apply dict_contains_add_to, Hc.
    + cbn zeta in H1, H2. rewrite H1, H2. split.
      * apply dict_get_add_to_other. discriminate.
      * rewrite get_or_zero_add_to_same. cbn [map]. unfold sum_Z.
        cbn [fold_right]. f_equal. ring.
Qed.

(** X24. The summary card adds the statistics of the two services: with
    Gitea configured it shows the number of GitHub repositories plus the
    number of Gitea repositories, and the sum of the stars of all of them;
    without Gitea, or when the GitHub request fails, the missing side
    counts as 0. *)
Theorem summary_repositories (github_repos : list Repository)
        (gitea_repos : list (option Z)) (contributions : list Contribution) :
  let github := sum_Z (map (fun repo => or_zero (stargazers_count repo)) github_repos) in
  let gitea := sum_Z (map or_zero gitea_repos) in
  let card response configured :=
    create_summary_stats (fst (get_github_stats response))
                         (get_gitea_stats configured gitea_repos)
                         contributions in
  (total_repos (card (Some github_repos) true)
   = Z.of_nat (List.length github_repos) + Z.of_nat (List.length gitea_repos)
   /\ total_stars (card (Some github_repos) true) = github + gitea)
  /\ (total_repos (card (Some github_repos) false)
      = Z.of_nat (List.length github_repos)
      /\ total_stars (card (Some github_repos) false) = github)
  /\ (total_repos (card None true) = Z.of_nat (List.length gitea_repos)
      /\ total_stars (card None true) = gitea).
Proof.
  cbn zeta. unfold create_summary_stats. cbn [total_repos total_stars].
  destruct (github_stats_invariant github_repos) as [G1 [G2 _]].
  assert (T : dict_get "total_repos" (get_gitea_stats true gitea_repos)
              = Some (Z.of_nat (List.length gitea_repos))
              /\ dict_get "total_stars" (get_gitea_stats true gitea_repos)
                 = Some (sum_Z (map or_zero gitea_repos))).
  { unfold get_gitea_stats. cbn [negb].
    destruct (gitea_stats_loop gitea_repos
                (dict_set "total_repos" (Z.of_nat (List.length gitea_repos))
                   [("total_repos", 0); ("total_stars", 0)])) as [H1 H2];
      [reflexivity|].
    cbn zeta in H1, H2. rewrite H1, H2. split; reflexivity. }
  destruct T as [T1 T2].
  unfold get_or_zero. rewrite G1, G2, T1, T2.
  cbn [get_gitea_stats negb dict_get get_github_stats fst String.eqb Ascii.eqb Bool.eqb].
  repeat split; ring.
Qed.

End Statistics.
